(** * Garmin / Kestrel combiner: a shallow embedding of [main.py]

    The program reads a Kestrel weather log and a Garmin chronograph log with
    pandas, attaches to every shot the weather reading whose time of day is
    nearest, and writes the combined sheets to a fresh workbook.

    The embedding follows [main.py] function by function.  The pandas and
    [os.path] primitives the program calls are written out as executable
    definitions, so that every function of the program can be evaluated on
    concrete tables. *)

From Stdlib Require Import ZArith Lia Ascii String.
From stdpp Require Import base tactics option numbers list strings gmap pretty.

#[local] Set Warnings "-clear-no-such-hyp".

Local Open Scope string_scope.
Local Open Scope Z_scope.

(** ** Time text

    [pd.to_datetime(..., format=F)] matches a text against the regular
    expression that [F] stands for (the [strptime] directives), reading
    decimal fields of one or two digits; [.dt.strftime('%H:%M:%S')] renders a
    time of day with two digits per field.  A parsed time is kept as the
    number of seconds since [1900-01-01 00:00:00], the date pandas gives a
    text that has no date. *)

Module TimeText.

Definition digit_value (c : ascii) : option Z := Z.of_nat <$> Ascii.is_nat c.

Definition digit_char (d : Z) : ascii :=
  match d with
  | 0 => "0" | 1 => "1" | 2 => "2" | 3 => "3" | 4 => "4"
  | 5 => "5" | 6 => "6" | 7 => "7" | 8 => "8" | _ => "9"
  end%char.

(** The longest run of leading decimal digits, and what follows it. *)
Fixpoint span_digits (s : string) : list Z * string :=
  match s with
  | String c rest =>
      match digit_value c with
      | Some d => let '(ds, tl) := span_digits rest in (d :: ds, tl)
      | None => ([], s)
      end
  | EmptyString => ([], s)
  end.

(** A numeric directive such as [%H] ([2[0-3]|[0-1]\d|\d]) or [%m]
    ([1[0-2]|0[1-9]|[1-9]]): one or two digits whose value lies in
    [lo..hi].  Every such directive is followed in the two formats by a
    character that is no digit (or by the end), so the digits read are the
    whole run. *)
Definition field (lo hi : Z) (s : string) : option (Z * string) :=
  let '(ds, rest) := span_digits s in
  match ds with
  | [a] => if decide (lo ≤ a ≤ hi) then Some (a, rest) else None
  | [a; b] =>
      let v := 10 * a + b in
      if decide (lo ≤ v ≤ hi) then Some (v, rest) else None
  | _ => None
  end.

(** [%Y] is [\d\d\d\d]: four digits exactly. *)
Definition year_field (s : string) : option (Z * string) :=
  let '(ds, rest) := span_digits s in
  match ds with
  | [a; b; c; d] => Some (1000 * a + 100 * b + 10 * c + d, rest)
  | _ => None
  end.

(** A literal character of the format. *)
Definition expect (c : ascii) (s : string) : option string :=
  match s with
  | String c' rest => if decide (c' = c) then Some rest else None
  | EmptyString => None
  end.

Fixpoint skip_spaces (s : string) : string :=
  match s with
  | String c rest => if Ascii.is_space c then skip_spaces rest else s
  | EmptyString => s
  end.

(** A blank of the format stands for [\s+]. *)
Definition spaces1 (s : string) : option string :=
  match s with
  | String c rest => if Ascii.is_space c then Some (skip_spaces rest) else None
  | EmptyString => None
  end.

(** [%d] is [3[0-1]|[1-2]\d|0[1-9]|[1-9]| [1-9]]: the last alternative is a
    blank and one digit. *)
Definition day_field (s : string) : option (Z * string) :=
  match s with
  | String " " rest =>
      let '(ds, tl) := span_digits rest in
      match ds with
      | [a] => if decide (1 ≤ a) then Some (a, tl) else None
      | _ => None
      end
  | _ => field 1 31 s
  end.

Definition lower (c : ascii) : ascii :=
  let n := nat_of_ascii c in
  if decide (65 ≤ n ≤ 90)%nat then ascii_of_nat (n + 32) else c.

(** [%p] is [am|pm], matched without regard to case; [true] stands for PM. *)
Definition ampm_field (s : string) : option (bool * string) :=
  match s with
  | String a (String m rest) =>
      if decide (lower m = "m"%char) then
        if decide (lower a = "a"%char) then Some (false, rest)
        else if decide (lower a = "p"%char) then Some (true, rest)
        else None
      else None
  | _ => None
  end.

(** Nothing may follow the match ("unconverted data remains"). *)
Definition at_end {A} (r : A * string) : option A :=
  match r.2 with EmptyString => Some r.1 | _ => None end.

(** [format='%H:%M:%S']: seconds since midnight of 1900-01-01.  [%S] admits
    60 and 61, which run over into the next minute. *)
Definition strptime_hms (s : string) : option Z :=
  '(h, s) ← field 0 23 s;
  s ← expect ":" s;
  '(m, s) ← field 0 59 s;
  s ← expect ":" s;
  sec ← field 0 61 s ≫= at_end;
  Some (h * 3600 + m * 60 + sec).

Definition leap_year (y : Z) : bool :=
  (y mod 4 =? 0) && (negb (y mod 100 =? 0) || (y mod 400 =? 0)).

Definition days_in_month (y m : Z) : Z :=
  match m with
  | 2 => if leap_year y then 29 else 28
  | 4 | 6 | 9 | 11 => 30
  | _ => 31
  end.

(** The date must be one of the calendar ([datetime.date(y, m, d)]); the
    bounds of the nanosecond clock of pandas (1677 to 2262) are left out. *)
Definition valid_date (y m d : Z) : bool :=
  (1 <=? y) && (1 <=? m) && (m <=? 12) && (1 <=? d) && (d <=? days_in_month y m).

(** [format='%Y-%m-%d %I:%M:%S %p']: the second of the day; the date is
    checked and then plays no part, since only [strftime('%H:%M:%S')] of the
    result is kept. *)
Definition strptime_kestrel (s : string) : option Z :=
  '(y, s) ← year_field s;
  s ← expect "-" s;
  '(mo, s) ← field 1 12 s;
  s ← expect "-" s;
  '(d, s) ← day_field s;
  s ← spaces1 s;
  '(h, s) ← field 1 12 s;
  s ← expect ":" s;
  '(m, s) ← field 0 59 s;
  s ← expect ":" s;
  '(sec, s) ← field 0 61 s;
  s ← spaces1 s;
  pm ← ampm_field s ≫= at_end;
  if valid_date y mo d
  then Some ((h mod 12 + (if pm : bool then 12 else 0)) * 3600 + m * 60 + sec)
  else None.

Definition two_digits (n : Z) : string :=
  String (digit_char (n / 10)) (String (digit_char (n mod 10)) "").

(** [strftime('%H:%M:%S')] of the moment [t] seconds after
    1900-01-01 00:00:00. *)
Definition strftime_hms (t : Z) : string :=
  let tod := t mod 86400 in
  two_digits (tod / 3600) +:+ ":" +:+ two_digits (tod mod 3600 / 60)
    +:+ ":" +:+ two_digits (tod mod 60).

End TimeText.

(** ** Exceptions

    A Python exception is a value; a call that may raise returns a [result].
    The constructors name the exceptions by what raises them. *)

Inductive exn :=
| KeyError (label : string)        (* no column or entry of that label *)
| NotOneColumn (label : string)    (* several columns share the label: the
                                      lookup yields a table, on which
                                      [to_datetime] raises [ValueError] *)
| IndexError                       (* [df.columns[i]] out of range *)
| TimeDataError (text : string)    (* [to_datetime], [errors='raise'] *)
| EmptyArgmin                      (* [idxmin] with no value to choose from *)
| LengthMismatch (expected got : nat)  (* assignment to [df.columns] *)
| UsecolsOutOfBounds               (* [usecols] beyond the table read *)
| UnsupportedFormat                (* the [ValueError] of [read_file] *)
| AttributeError (name : string)   (* no such method on the value *)
| ReadError (path : string).       (* the reader cannot read the file *)

Inductive result (A : Type) :=
| Ok (a : A)
| Raise (e : exn).
Arguments Ok {A} a.
Arguments Raise {A} e.

Global Instance result_ret : MRet result := λ A a, Ok a.
Global Instance result_bind : MBind result := λ A B f m,
  match m with Ok a => f a | Raise e => Raise e end.
Global Instance result_fmap : FMap result := λ A B f m,
  match m with Ok a => Ok (f a) | Raise e => Raise e end.

(** [[f(x) for x in l]], stopping at the first exception. *)
Fixpoint traverse {A B} (f : A → result B) (l : list A) : result (list B) :=
  match l with
  | [] => Ok []
  | x :: l' => y ← f x; ys ← traverse f l'; Ok (y :: ys)
  end.

(** ** Tables

    A cell holds a text (what [str] of the value read gives), a pandas
    [Timestamp] (seconds since 1900-01-01 00:00:00) or nothing ([NaN],
    [NaT]).  A [DataFrame] has its column labels and its rows in order; the
    row labels are the positions until rows are dropped, and every use the
    program makes of the tables after that is by position
    ([reset_index(drop=True)]).  A [Series] is one row with the column labels
    as its index. *)

Inductive Cell :=
| Text (s : string)
| Stamp (t : Z)
| NaN.

Global Instance Cell_eq_dec : EqDecision Cell.
Proof. solve_decision. Defined.

Record DataFrame := mkDataFrame {
  columns : list string;
  rows : list (list Cell);
}.

Record Series := mkSeries {
  index : list string;
  values : list Cell;
}.

Global Instance DataFrame_eq_dec : EqDecision DataFrame.
Proof. solve_decision. Defined.
Global Instance Series_eq_dec : EqDecision Series.
Proof. solve_decision. Defined.

Definition shape1 (df : DataFrame) : nat := length (columns df).

Definition cell_at (p : nat) (r : list Cell) : Cell := default NaN (r !! p).

Definition isna (c : Cell) : bool :=
  match c with NaN => true | _ => false end.

Module Pandas.

(** The positions of the columns that carry a label. *)
Fixpoint positions_from (i : nat) (l : string) (cols : list string) : list nat :=
  match cols with
  | [] => []
  | c :: cols' =>
      if decide (c = l) then i :: positions_from (S i) l cols'
      else positions_from (S i) l cols'
  end.
Definition positions : string → list string → list nat := positions_from 0.

(** [df[l]] where a column is needed: the position of the one column
    labelled [l]. *)
Definition column_position (l : string) (cols : list string) : result nat :=
  match positions l cols with
  | [] => Raise (KeyError l)
  | [p] => Ok p
  | _ => Raise (NotOneColumn l)
  end.

(** [row[l]] on a row of a table. *)
Definition series_get (l : string) (s : Series) : result Cell :=
  p ← column_position l (index s); Ok (cell_at p (values s)).

(** A Python dict literal: of two entries with one key the later stays. *)
Fixpoint dict_get (d : list (string * string)) (k : string) : option string :=
  match d with
  | [] => None
  | (k', v) :: d' =>
      match dict_get d' k with
      | Some v' => Some v'
      | None => if decide (k' = k) then Some v else None
      end
  end.

(** [df.rename(columns=d, inplace=True)]: every label that is a key of [d]
    is replaced. *)
Definition rename (d : list (string * string)) (df : DataFrame) : DataFrame :=
  mkDataFrame ((λ c, default c (dict_get d c)) <$> columns df) (rows df).

(** [df.columns[i]]. *)
Definition column_label (i : nat) (df : DataFrame) : result string :=
  match columns df !! i with
  | Some l => Ok l
  | None => Raise IndexError
  end.

(** [df[labels]]: for every label in turn, all the columns that carry it. *)
Definition select (labels : list string) (df : DataFrame) : result DataFrame :=
  pss ← traverse (λ l,
           match positions l (columns df) with
           | [] => Raise (KeyError l)
           | ps => Ok ps
           end) labels;
  let ps := concat pss in
  Ok (mkDataFrame ((λ p, default "" (columns df !! p)) <$> ps)
                  ((λ r, (λ p, cell_at p r) <$> ps) <$> rows df)).

(** The texts pandas reads as a missing time whatever the format. *)
Definition nat_strings : list string :=
  [""; "NaT"; "nat"; "NAT"; "nan"; "NaN"; "NAN"].

(** [pd.to_datetime(x, format=F, errors='coerce')] on one value; [parse] is
    the reading of a text under [F]. *)
Definition to_datetime_coerce (parse : string → option Z) (c : Cell) : Cell :=
  match c with
  | Text s =>
      if decide (s ∈ nat_strings) then NaN
      else match parse s with Some t => Stamp t | None => NaN end
  | Stamp t => Stamp t
  | NaN => NaN
  end.

(** [pd.to_datetime(x, format=F)] on one value: a text that does not match
    raises. *)
Definition to_datetime (parse : string → option Z) (c : Cell) : result Cell :=
  match c with
  | Text s =>
      if decide (s ∈ nat_strings) then Ok NaN
      else match parse s with
           | Some t => Ok (Stamp t)
           | None => Raise (TimeDataError s)
           end
  | Stamp t => Ok (Stamp t)
  | NaN => Ok NaN
  end.

(** [.dt.strftime('%H:%M:%S')] on one value of a datetime column. *)
Definition dt_strftime (c : Cell) : Cell :=
  match c with
  | Stamp t => Text (TimeText.strftime_hms t)
  | _ => NaN
  end.

(** [df['Timestamp'] = f(df['Timestamp'])], value by value, for the column
    at position [p]. *)
Definition map_column (p : nat) (f : Cell → Cell) (df : DataFrame) : DataFrame :=
  mkDataFrame (columns df) ((λ r, <[p := f (cell_at p r)]> r) <$> rows df).

(** [df.dropna(subset=[l], inplace=True)] for the column at position [p]. *)
Definition dropna (p : nat) (df : DataFrame) : DataFrame :=
  mkDataFrame (columns df) (filter (λ r, isna (cell_at p r) = false) (rows df)).

(** [(a - b).abs()] on two values of datetime columns, in seconds; a
    missing operand gives a missing difference. *)
Definition abs_diff (a b : Cell) : option Z :=
  match a, b with
  | Stamp t, Stamp q => Some (Z.abs (t - q))
  | _, _ => None
  end.

(** [Series.idxmin()]: the position of the first smallest value, missing
    values skipped. *)
Fixpoint idxmin_from (i : nat) (best : option (nat * Z)) (l : list (option Z))
  : option (nat * Z) :=
  match l with
  | [] => best
  | None :: l' => idxmin_from (S i) best l'
  | Some d :: l' =>
      match best with
      | Some (_, b) =>
          if decide (d < b) then idxmin_from (S i) (Some (i, d)) l'
          else idxmin_from (S i) best l'
      | None => idxmin_from (S i) (Some (i, d)) l'
      end
  end.

Definition idxmin (l : list (option Z)) : result nat :=
  match idxmin_from 0 None l with
  | Some (i, _) => Ok i
  | None => Raise EmptyArgmin
  end.

(** [df.loc[i]] with the default row labels. *)
Definition loc (i : nat) (df : DataFrame) : result Series :=
  match rows df !! i with
  | Some r => Ok (mkSeries (columns df) r)
  | None => Raise (KeyError (pretty i))
  end.

(** [pd.concat([a.reset_index(drop=True), b.reset_index(drop=True)],
    axis=1)] for two tables of as many rows. *)
Definition concat_columns (a b : DataFrame) : DataFrame :=
  mkDataFrame (columns a ++ columns b) (zip_with app (rows a) (rows b)).

(** [usecols=[0, ..., n-1]] of a reader, which refuses a position the table
    read does not have. *)
Definition usecols (n : nat) (df : DataFrame) : result DataFrame :=
  if decide (n ≤ shape1 df)%nat
  then Ok (mkDataFrame (take n (columns df)) (take n <$> rows df))
  else Raise UsecolsOutOfBounds.

(** [df.columns = labels]. *)
Definition set_columns (labels : list string) (df : DataFrame) : result DataFrame :=
  if decide (length labels = shape1 df)
  then Ok (mkDataFrame labels (rows df))
  else Raise (LengthMismatch (shape1 df) (length labels)).

End Pandas.

(** ** Paths

    [str.endswith] and the POSIX flavour of [os.path]. *)

Module Path.

Definition chars (s : string) : list ascii := list_ascii_of_string s.
Definition text (l : list ascii) : string := string_of_list_ascii l.

(** [s.endswith(suffix)]. *)
Definition endswith (s suffix : string) : bool :=
  bool_decide (drop (length (chars s) - length (chars suffix)) (chars s)
               = chars suffix).

(** [s.rfind(c)]: the last position of [c], or [-1]. *)
Fixpoint rfind_from (i : Z) (c : ascii) (l : list ascii) (found : Z) : Z :=
  match l with
  | [] => found
  | x :: l' => rfind_from (i + 1) c l' (if decide (x = c) then i else found)
  end.
Definition rfind (c : ascii) (l : list ascii) : Z := rfind_from 0 c l (-1).

(** [os.path.splitext]: the extension starts at the last dot of the last
    component, unless only dots precede it there. *)
Definition splitext (p : string) : string * string :=
  let l := chars p in
  let sepIndex := rfind "/" l in
  let dotIndex := rfind "." l in
  if decide (sepIndex < dotIndex) then
    let filename :=
      take (Z.to_nat (dotIndex - (sepIndex + 1))) (drop (Z.to_nat (sepIndex + 1)) l) in
    if forallb (λ c, bool_decide (c = "."%char)) filename then (p, "")
    else (text (take (Z.to_nat dotIndex) l), text (drop (Z.to_nat dotIndex) l))
  else (p, "").

(** [s.rstrip('/')]. *)
Fixpoint lstrip_slash (l : list ascii) : list ascii :=
  match l with
  | x :: l' => if decide (x = "/"%char) then lstrip_slash l' else l
  | [] => []
  end.
Definition rstrip_slash (l : list ascii) : list ascii :=
  reverse (lstrip_slash (reverse l)).

(** [os.path.dirname]. *)
Definition dirname (p : string) : string :=
  let l := chars p in
  let i := Z.to_nat (rfind "/" l + 1) in
  let head := take i l in
  if bool_decide (head ≠ []) && negb (forallb (λ c, bool_decide (c = "/"%char)) head)
  then text (rstrip_slash head)
  else text head.

(** [os.path.join] of two parts. *)
Definition join (a b : string) : string :=
  match b with
  | String "/" _ => b
  | _ => if bool_decide (a = "") || endswith a "/" then a +:+ b
         else a +:+ "/" +:+ b
  end.

End Path.

Global Arguments Path.join : simpl never.
Global Arguments Path.dirname : simpl never.

(** ** The program *)

(** The idiom
    [pd.to_datetime(col, format=F, errors='coerce').dt.strftime('%H:%M:%S')]
    on one value. *)
Definition hms_text (parse : string → option Z) (c : Cell) : Cell :=
  Pandas.dt_strftime (Pandas.to_datetime_coerce parse c).

(** [df['Timestamp'] = pd.to_datetime(df['Timestamp'], format=F,
    errors='coerce').dt.strftime('%H:%M:%S')]. *)
Definition reformat_timestamp (parse : string → option Z) (df : DataFrame)
  : result DataFrame :=
  p ← Pandas.column_position "Timestamp" (columns df);
  Ok (Pandas.map_column p (hms_text parse) df).

(** [find_closest(row, df)].  The table [df] is shared with the caller and
    the function assigns to its [Timestamp] column, so the table after the
    call is returned next to the outcome. *)
Definition find_closest (row : Series) (df : DataFrame) : DataFrame * result Series :=
  match Pandas.series_get "Timestamp" row
          ≫= Pandas.to_datetime TimeText.strptime_hms with
  | Raise e => (df, Raise e)
  | Ok row_time =>
      match
        p ← Pandas.column_position "Timestamp" (columns df);
        rs ← traverse (λ r, c ← Pandas.to_datetime TimeText.strptime_hms (cell_at p r);
                            Ok (<[p := c]> r)) (rows df);
        Ok (p, rs)
      with
      | Raise e => (df, Raise e)
      | Ok (p, rs) =>
          let df := mkDataFrame (columns df) rs in
          let time_diff := (λ r, Pandas.abs_diff (cell_at p r) row_time) <$> rows df in
          (df, closest_index ← Pandas.idxmin time_diff; Pandas.loc closest_index df)
      end
  end.

(** [garmin_df.apply(lambda row: find_closest(row, kestrel_df), axis=1)] on a
    table that has rows: the rows in order, the first exception ends the
    loop. *)
Fixpoint apply_rows (cols : list string) (rs : list (list Cell)) (kestrel_df : DataFrame)
  : DataFrame * result (list Series) :=
  match rs with
  | [] => (kestrel_df, Ok [])
  | r :: rs' =>
      match find_closest (mkSeries cols r) kestrel_df with
      | (kestrel_df, Raise e) => (kestrel_df, Raise e)
      | (kestrel_df, Ok s) =>
          let '(kestrel_df, ss) := apply_rows cols rs' kestrel_df in
          (kestrel_df, cons s <$> ss)
      end
  end.

(** The same call on any table.  On a table without rows pandas calls the
    function once on a row of missing values to learn the kind of its result,
    drops whatever exception that raises, and hands back a copy of the
    table. *)
Definition apply_find_closest (garmin_df kestrel_df : DataFrame)
  : DataFrame * result DataFrame :=
  match rows garmin_df with
  | [] =>
      let probe := mkSeries (columns garmin_df) (replicate (shape1 garmin_df) NaN) in
      ((find_closest probe kestrel_df).1, Ok garmin_df)
  | _ =>
      let '(kestrel_df', ss) := apply_rows (columns garmin_df) (rows garmin_df) kestrel_df in
      (kestrel_df',
       ss ← ss; Ok (mkDataFrame (default [] (index <$> head ss)) (values <$> ss)))
  end.

(** Lines 28-30 of [process_garmin_sheet]: the sixth column is renamed, its
    values are rendered as [HH:MM:SS] and the rows left without a time are
    dropped, all in place. *)
Definition process_garmin_sheet_timestamps (garmin_df : DataFrame)
  : DataFrame * result unit :=
  match Pandas.column_label 5 garmin_df with
  | Raise e => (garmin_df, Raise e)
  | Ok l =>
      let garmin_df := Pandas.rename [(l, "Timestamp")] garmin_df in
      match Pandas.column_position "Timestamp" (columns garmin_df) with
      | Raise e => (garmin_df, Raise e)
      | Ok p =>
          (Pandas.dropna p
             (Pandas.map_column p (hms_text TimeText.strptime_hms) garmin_df),
           Ok ())
      end
  end.

(** [process_garmin_sheet(sheet_name, garmin_df, kestrel_df)]: both tables as
    the call leaves them, and the combined table or the exception. *)
Definition process_garmin_sheet (sheet_name : string) (garmin_df kestrel_df : DataFrame)
  : DataFrame * DataFrame * result DataFrame :=
  match process_garmin_sheet_timestamps garmin_df with
  | (garmin_df, Raise e) => (garmin_df, kestrel_df, Raise e)
  | (garmin_df, Ok _) =>
      let '(kestrel_df, closest_rows) := apply_find_closest garmin_df kestrel_df in
      (garmin_df, kestrel_df,
       closest_rows ← closest_rows;
       Ok (Pandas.concat_columns garmin_df closest_rows))
  end.

(** What the pandas readers find on disk: for a path and a number of rows
    skipped, the sheets of a workbook in order ([pd.read_excel],
    [pd.ExcelFile] and [parse]), or the one table of a delimited text
    ([pd.read_csv]), with all their columns; [usecols] is applied on top. *)
Record Files := mkFiles {
  workbook : string → nat → result (list (string * DataFrame));
  delimited : string → nat → result DataFrame;
}.

(** [read_file] returns one table or a dict of tables by sheet name. *)
Inductive Read :=
| Frame (df : DataFrame)
| Sheets (df_dict : list (string * DataFrame)).

Definition kestrel_names : list string :=
  ["Timestamp"; "Temperature"; "Relative Humidity"; "Station Pressure"].

Definition kestrel_csv_columns : list string :=
  ["Timestamp"; "Temperature"; "Relative Humidity"; "Station Pressure";
   "Heat Index"; "Dew Point"; "Density Altitude"; "Data Type";
   "Record name"; "Start time"; "Duration (H:M:S)"; "Location description";
   "Location address"; "Location coordinates"; "Notes"].

(** Lines 47-50: the weather table of a spreadsheet. *)
Definition read_file_kestrel_xlsx (df : DataFrame) : result DataFrame :=
  c0 ← Pandas.column_label 0 df;
  c1 ← Pandas.column_label 1 df;
  c2 ← Pandas.column_label 2 df;
  c3 ← Pandas.column_label 3 df;
  let df := Pandas.rename [(c0, "Timestamp"); (c1, "Temperature");
                           (c2, "Relative Humidity"); (c3, "Station Pressure")] df in
  df ← Pandas.select (kestrel_names ++ drop 4 (columns df)) df;
  reformat_timestamp TimeText.strptime_kestrel df.

(** Lines 61-68: the weather table of a delimited text. *)
Definition read_file_kestrel_csv (df : DataFrame) : result DataFrame :=
  df ← Pandas.set_columns kestrel_csv_columns df;
  df ← reformat_timestamp TimeText.strptime_kestrel df;
  Pandas.select (kestrel_names ++ drop 4 (columns df)) df.

(** Lines 55-56: one session sheet of a spreadsheet. *)
Definition read_file_garmin_sheet (df : DataFrame) : result DataFrame :=
  l ← Pandas.column_label 5 df;
  reformat_timestamp TimeText.strptime_hms (Pandas.rename [(l, "Timestamp")] df).

(** The first sheet of a workbook; a workbook has at least one. *)
Definition first_sheet (path : string) (sheets : list (string * DataFrame))
  : result DataFrame :=
  match sheets with
  | (_, df) :: _ => Ok df
  | [] => Raise (ReadError path)
  end.

(** All the sheets of a workbook, of which there is at least one. *)
Definition all_sheets (path : string) (sheets : list (string * DataFrame))
  : result (list (string * DataFrame)) :=
  match sheets with
  | _ :: _ => Ok sheets
  | [] => Raise (ReadError path)
  end.

(** A dict of tables by sheet name, a call made for each table in turn. *)
Definition for_sheets (f : DataFrame → result DataFrame)
    (sheets : list (string * DataFrame)) : result (list (string * DataFrame)) :=
  traverse (λ sd : string * DataFrame, df ← f sd.2; Ok (sd.1, df)) sheets.

(** [read_file(file_path, is_kestrel)]. *)
Definition read_file (files : Files) (file_path : string) (is_kestrel : bool)
  : result Read :=
  if Path.endswith file_path ".xlsx" then
    if is_kestrel then
      sheets ← workbook files file_path 5;
      df ← first_sheet file_path sheets;
      df ← Pandas.usecols 15 df;
      Frame <$> read_file_kestrel_xlsx df
    else
      sheets ← workbook files file_path 1;
      sheets ← all_sheets file_path sheets;
      df_dict ← for_sheets (Pandas.usecols 9) sheets;
      df_dict ← for_sheets read_file_garmin_sheet df_dict;
      Ok (Sheets df_dict)
  else if Path.endswith file_path ".csv" then
    if is_kestrel then
      df ← delimited files file_path 5;
      Frame <$> read_file_kestrel_csv df
    else
      df ← delimited files file_path 1;
      df ← Pandas.usecols 9 df;
      Frame <$> reformat_timestamp TimeText.strptime_hms df
  else Raise UnsupportedFormat.

(** [f"{base}_{counter}{extension}"]. *)
Definition candidate (base extension : string) (counter : nat) : string :=
  base +:+ "_" +:+ pretty counter +:+ extension.

(** The loop of [generate_unique_filename]; [paths] are the paths that exist.
    [None] when the loop has not ended within [fuel] rounds. *)
Fixpoint generate_unique_filename_loop (fuel : nat) (paths : gset string)
    (base extension : string) (counter : nat) (new_filepath : string)
  : option string :=
  if decide (new_filepath ∈ paths) then
    match fuel with
    | O => None
    | S fuel' =>
        generate_unique_filename_loop fuel' paths base extension (S counter)
          (candidate base extension counter)
    end
  else Some new_filepath.

(** [generate_unique_filename(filepath)]: at most one round per existing
    path is ever needed. *)
Definition generate_unique_filename (paths : gset string) (filepath : string)
  : option string :=
  let '(base, extension) := Path.splitext filepath in
  generate_unique_filename_loop (size paths) paths base extension 1 filepath.

Definition headers : list string :=
  ["Shot Count"; "Speed (MPS)"; "Δ AVG (MPS)"; "KE (J)"; "Power Factor (N⋅s)"; "Time";
   "Clean Bore"; "Cold Bore"; "Shot Notes"; "Timestamp"; "Temperature"; "Relative Humidity";
   "Station Pressure"; "Heat Index"; "Dew Point"; "Density Altitude"; "Data Type"; "Record name";
   "Start time"; "Duration (H:M:S)"; "Location description"; "Location address";
   "Location coordinates"; "Notes"].

(** Lines 106-112: every session aligned in turn against the one weather
    table, which the alignments share. *)
Fixpoint align_sheets (garmin_sheets : list (string * DataFrame)) (kestrel_df : DataFrame)
  : DataFrame * result (list (string * DataFrame)) :=
  match garmin_sheets with
  | [] => (kestrel_df, Ok [])
  | (sheet_name, garmin_df) :: rest =>
      match process_garmin_sheet sheet_name garmin_df kestrel_df with
      | (_, kestrel_df, Raise e) => (kestrel_df, Raise e)
      | (_, kestrel_df, Ok combined_df) =>
          let '(kestrel_df, all) := align_sheets rest kestrel_df in
          (kestrel_df, cons (sheet_name, combined_df) <$> all)
      end
  end.

Definition align (garmin_sheets : Read) (kestrel_df : DataFrame)
  : result (list (string * DataFrame)) :=
  match garmin_sheets with
  | Sheets df_dict => (align_sheets df_dict kestrel_df).2
  | Frame garmin_df =>
      combined_df ← (process_garmin_sheet "Sheet1" garmin_df kestrel_df).2;
      Ok [("Sheet1", combined_df)]
  end.

(** Lines 116-122: the sheets written to the open workbook before the loop
    ends or an exception leaves it. *)
Fixpoint write_sheets (all_combined_dfs : list (string * DataFrame))
  : list (string * DataFrame) * option exn :=
  match all_combined_dfs with
  | [] => ([], None)
  | (sheet_name, combined_df) :: rest =>
      match Pandas.set_columns (take (shape1 combined_df) headers) combined_df with
      | Raise e => ([], Some e)
      | Ok combined_df =>
          let '(written, e) := write_sheets rest in
          ((sheet_name, combined_df) :: written, e)
      end
  end.

(** What the user is told: [showinfo] with the path written, [showerror]
    with the exception, or nothing when the run does not end. *)
Inductive Notice :=
| Success (output_file : string)
| Error (e : exn)
| Hang.

(** A run: the file it created with the sheets put there, the paths that
    exist after it, and the notice. *)
Record Run := mkRun {
  created : option (string * list (string * DataFrame));
  paths_after : gset string;
  notice : Notice;
}.

(** [process_files(kestrel_path, garmin_path)] with the files [files] to read
    and the existing [paths].  [pd.ExcelWriter] creates the output file when
    it is opened. *)
Definition process_files (files : Files) (paths : gset string)
    (kestrel_path garmin_path : string) : Run :=
  match
    kestrel_df ← read_file files kestrel_path true;
    match kestrel_df with
    | Frame kestrel_df =>
        garmin_sheets ← read_file files garmin_path false;
        align garmin_sheets kestrel_df
    | Sheets _ => Raise (AttributeError "head")
    end
  with
  | Raise e => mkRun None paths (Error e)
  | Ok all_combined_dfs =>
      match generate_unique_filename paths
              (Path.join (Path.dirname kestrel_path) "Combined_Output.xlsx") with
      | None => mkRun None paths Hang
      | Some output_file =>
          let '(written, e) := write_sheets all_combined_dfs in
          mkRun (Some (output_file, written)) ({[output_file]} ∪ paths)
                (from_option Error (Success output_file) e)
      end
  end.

(** ** The window

    The window has an entry for each of the two paths.  A file dialog answers
    with the path chosen, with the empty text when it is dismissed, or
    raises. *)

Record Entries := mkEntries {
  kestrel_entry : string;
  garmin_entry : string;
}.

(** [select_kestrel_file()]: [answer] is what [askopenfilename] gives; the
    entry is replaced only by a path that is not empty.  Returned with the
    entries is the exception shown by [showerror], if any. *)
Definition select_kestrel_file (answer : result string) (gui : Entries)
  : Entries * option exn :=
  match answer with
  | Raise e => (gui, Some e)
  | Ok kestrel_path =>
      if decide (kestrel_path = "") then (gui, None)
      else (mkEntries kestrel_path (garmin_entry gui), None)
  end.

(** [select_garmin_file()]. *)
Definition select_garmin_file (answer : result string) (gui : Entries)
  : Entries * option exn :=
  match answer with
  | Raise e => (gui, Some e)
  | Ok garmin_path =>
      if decide (garmin_path = "") then (gui, None)
      else (mkEntries (kestrel_entry gui) garmin_path, None)
  end.

(** [s.endswith((a, b, ...))]: one of the suffixes ends [s]. *)
Definition endswith_any (s : string) (suffixes : list string) : bool :=
  existsb (Path.endswith s) suffixes.

(** What [combine_files] does: a warning shown, or a run. *)
Inductive Combined :=
| Warning (message : string)
| Processed (run : Run).

(** [combine_files()] with the entries as they stand. *)
Definition combine_files (files : Files) (paths : gset string) (gui : Entries)
  : Combined :=
  let kestrel_path := kestrel_entry gui in
  let garmin_path := garmin_entry gui in
  if bool_decide (kestrel_path = "") || bool_decide (garmin_path = "") then
    Warning "Please select both files"
  else if negb (endswith_any kestrel_path [".xlsx"; ".csv"]
                && endswith_any garmin_path [".xlsx"; ".csv"]) then
    Warning "Selected files must be Excel or CSV files"
  else Processed (process_files files paths kestrel_path garmin_path).

(** The two buttons that open a dialog, with the answer of the dialog. *)
Inductive Browse :=
| BrowseKestrel (answer : result string)
| BrowseGarmin (answer : result string).

(** The entries after a button is pressed and its dialog answered. *)
Definition browse (gui : Entries) (b : Browse) : Entries :=
  match b with
  | BrowseKestrel answer => (select_kestrel_file answer gui).1
  | BrowseGarmin answer => (select_garmin_file answer gui).1
  end.

(** ** The two kinds of source

    The weather table is made ready by [read_file] alone.  A session table
    is made ready by [read_file] and then by the first lines of
    [process_garmin_sheet], which render the times once more and drop the
    rows without one. *)

Inductive SourceKind := Weather | Session.
Inductive Container := Spreadsheet | Delimited.

(** The reading of a time text in a source of that kind. *)
Definition strptime (kind : SourceKind) : string → option Z :=
  match kind with
  | Weather => TimeText.strptime_kestrel
  | Session => TimeText.strptime_hms
  end.

(** The place of the time in a row of that kind. *)
Definition timestamp_position (kind : SourceKind) : nat :=
  match kind with Weather => 0%nat | Session => 5%nat end.

(** The time of a raw row parses. *)
Definition timestamp_parses (kind : SourceKind) (r : list Cell) : bool :=
  negb (isna (Pandas.to_datetime_coerce (strptime kind)
                (cell_at (timestamp_position kind) r))).

Definition normalize (kind : SourceKind) (container : Container) (raw : DataFrame)
  : result DataFrame :=
  match kind, container with
  | Weather, Spreadsheet => read_file_kestrel_xlsx raw
  | Weather, Delimited => read_file_kestrel_csv raw
  | Session, _ =>
      df ← match container with
           | Spreadsheet => read_file_garmin_sheet raw
           | Delimited => reformat_timestamp TimeText.strptime_hms raw
           end;
      match process_garmin_sheet_timestamps df with
      | (df, Ok _) => Ok df
      | (_, Raise e) => Raise e
      end
  end.

(** What stands after a field in the texts rendered: a colon or the end. *)
Definition no_digit_ahead (s : string) : Prop :=
  match s with
  | String c _ => TimeText.digit_value c = None
  | EmptyString => True
  end.

(** A time rendered by [strftime('%H:%M:%S')]. *)
Definition rendered (c : Cell) : Prop := ∃ t, c = Text (TimeText.strftime_hms t).

(** The row [r] with its time, at position [p], rendered in place. *)
Definition render_row (parse : string → option Z) (p : nat) (r : list Cell) : list Cell :=
  <[p := hms_text parse (cell_at p r)]> r.

(** A session table as [read_file] hands it over: the sixth column is the one
    labelled [Timestamp] and holds rendered times or nothing. *)
Definition session_read (df : DataFrame) : Prop :=
  Pandas.column_position "Timestamp" (columns df) = Ok 5%nat
  ∧ Forall (λ r, cell_at 5 r = NaN ∨ rendered (cell_at 5 r)) (rows df).

(** A session table whose rows all have a rendered time. *)
Definition session_ready (df : DataFrame) : Prop :=
  Pandas.column_position "Timestamp" (columns df) = Ok 5%nat
  ∧ Forall (λ r, rendered (cell_at 5 r)) (rows df).

(** ** Readings and their times *)

(** The moment [to_datetime] finds in a value of the [Timestamp] column, if
    any. *)
Definition time_of (c : Cell) : option Z :=
  match Pandas.to_datetime TimeText.strptime_hms c with
  | Ok (Stamp t) => Some t
  | _ => None
  end.

(** The times of the readings of a table, row by row, the time being at
    position [p]. *)
Definition reading_times (p : nat) (df : DataFrame) : list (option Z) :=
  (λ r, time_of (cell_at p r)) <$> rows df.

(** Among [times], the one at position [i] is nearest to [t], and no position
    before [i] is as near. *)
Definition nearest_first (times : list (option Z)) (t : Z) (i : nat) : Prop :=
  ∃ ti, times !! i = Some (Some ti)
        ∧ ∀ j tj, times !! j = Some (Some tj) →
            Z.abs (ti - t) ≤ Z.abs (tj - t)
            ∧ ((j < i)%nat → Z.abs (ti - t) < Z.abs (tj - t)).

(** The values of the [Timestamp] column of a weather table: nothing, a
    rendered time, or the datetime a lookup has put there. *)
Definition weather_cell (c : Cell) : Prop :=
  c = NaN ∨ rendered c ∨ ∃ t, c = Stamp t.

(** A weather table as [read_file] hands it over or as a lookup leaves it:
    one column is labelled [Timestamp], at position [p]. *)
Definition weather_table (p : nat) (df : DataFrame) : Prop :=
  Pandas.column_position "Timestamp" (columns df) = Ok p
  ∧ Forall (λ r, weather_cell (cell_at p r)) (rows df).

(** The value [to_datetime] puts in the place of [c]. *)
Definition to_stamp (c : Cell) : Cell :=
  match Pandas.to_datetime TimeText.strptime_hms c with
  | Ok c' => c'
  | Raise _ => c
  end.

(** The weather table after the assignment in [find_closest]. *)
Definition converted (p : nat) (df : DataFrame) : DataFrame :=
  mkDataFrame (columns df) ((λ r, <[p := to_stamp (cell_at p r)]> r) <$> rows df).

(** The time a shot row asks for. *)
Definition query_time (row : Series) : option Z :=
  match Pandas.series_get "Timestamp" row with
  | Ok c => time_of c
  | Raise _ => None
  end.

(** ** Sessions of a run *)

(** The session tables [read_file] returns, and the names their sheets get. *)
Definition tables (garmin_sheets : Read) : list DataFrame :=
  match garmin_sheets with
  | Frame df => [df]
  | Sheets df_dict => df_dict.*2
  end.

Definition sheet_names (garmin_sheets : Read) : list string :=
  match garmin_sheets with
  | Frame _ => ["Sheet1"]
  | Sheets df_dict => df_dict.*1
  end.

(** Some session has a shot with a time. *)
Definition has_shot (garmin_sheets : Read) : Prop :=
  Exists (λ df, Exists (λ r, isna (cell_at 5 r) = false) (rows df)) (tables garmin_sheets).

(** ** Shots and readings *)

(** The shots of a session that have a time: the rows [dropna] keeps. *)
Definition timed_shots (df : DataFrame) : list (list Cell) :=
  filter (λ r, isna (cell_at 5 r) = false) (rows df).

(** A time of day written [HH:MM:SS], two digits a field. *)
Definition clock_text (c : Cell) : Prop :=
  ∃ h m s, 0 ≤ h < 24 ∧ 0 ≤ m < 60 ∧ 0 ≤ s < 60
           ∧ c = Text (TimeText.two_digits h +:+ ":" +:+ TimeText.two_digits m
                       +:+ ":" +:+ TimeText.two_digits s).

(** The combined row [row] is the shot [s], a row of a session with the labels
    [cols], followed by the reading of the weather table [k] nearest to the
    time of the shot, the time of the reading held as a datetime. *)
Definition paired (p : nat) (k : DataFrame) (cols : list string)
    (s row : list Cell) : Prop :=
  ∃ t j r, query_time (mkSeries cols s) = Some t
           ∧ rows k !! j = Some r
           ∧ nearest_first (reading_times p k) t j
           ∧ row = (s ++ <[p := to_stamp (cell_at p r)]> r)%list.

(** A path [read_file] has a reader for. *)
Definition supported (file_path : string) : bool :=
  Path.endswith file_path ".xlsx" || Path.endswith file_path ".csv".

(** A reader that raises only exceptions of its own, never the [ValueError]
    by which [read_file] turns a path down. *)
Definition readers_own (files : Files) : Prop :=
  (∀ path skiprows, workbook files path skiprows ≠ Raise UnsupportedFormat)
  ∧ (∀ path skiprows, delimited files path skiprows ≠ Raise UnsupportedFormat).

(** The name of the output beside the weather log: [Combined_Output.xlsx], or
    [Combined_Output_k.xlsx] for a counter [k]. *)
Definition output_name (kestrel_path : string) (counter : option nat) : string :=
  Path.join (Path.dirname kestrel_path)
    match counter with
    | None => "Combined_Output.xlsx"
    | Some k => "Combined_Output_" +:+ pretty k +:+ ".xlsx"
    end.

(** The table has one column labelled [Timestamp], and what it holds is a
    time written [HH:MM:SS] or nothing. *)
Definition clock_column (df : DataFrame) : Prop :=
  ∃ p, Pandas.column_position "Timestamp" (columns df) = Ok p
       ∧ Forall (λ r, cell_at p r = NaN ∨ clock_text (cell_at p r)) (rows df).

(** Every row of the table has a value for each column. *)
Definition well_formed (df : DataFrame) : Prop :=
  Forall (λ r, length r = shape1 df) (rows df).

(** The headings of a session sheet as a workbook has them: nine at least,
    the first nine distinct, none of them [Timestamp] unless it is the
    sixth. *)
Definition session_headings (df : DataFrame) : Prop :=
  (9 ≤ shape1 df)%nat
  ∧ NoDup (take 9 (columns df))
  ∧ ∀ q, q ≠ 5%nat → take 9 (columns df) !! q ≠ Some "Timestamp".

(** The headings of a weather sheet: fifteen at least, the first fifteen
    distinct, none of them past the fourth one of the four names the first
    four columns are given. *)
Definition weather_headings (df : DataFrame) : Prop :=
  (15 ≤ shape1 df)%nat
  ∧ NoDup (take 15 (columns df))
  ∧ Forall (λ c, c ∉ kestrel_names) (drop 4 (take 15 (columns df))).

(** ** Sample tables *)

(** A weather row of fifteen values: the time, a temperature, and the rest
    left empty. *)
Definition weather_row (time temperature : Cell) : list Cell :=
  time :: temperature :: replicate 13 NaN.

(** A session row of nine values: a shot count, the time in sixth place. *)
Definition session_row (shot time : Cell) : list Cell :=
  [shot; NaN; NaN; NaN; NaN; time; NaN; NaN; NaN].

Definition session_labels : list string :=
  ["#"; "SPEED (MPS)"; "Δ AVG (MPS)"; "KE (J)"; "POWER FACTOR (N⋅S)"; "TIME";
   "CLEAN BORE"; "COLD BORE"; "SHOT NOTES"].

(** A weather log of one reading whose time is no time. *)
Definition weather_raw_unparsed : DataFrame :=
  mkDataFrame kestrel_csv_columns [weather_row (Text "not a time") (Text "21.5")].

(** A weather log of two readings, ten seconds apart. *)
Definition weather_raw_two : DataFrame :=
  mkDataFrame kestrel_csv_columns
    [weather_row (Text "2024-05-01 10:00:00 AM") (Text "21.5");
     weather_row (Text "2024-05-01 10:00:10 AM") (Text "21.7")].

(** A session of three shots, the last with a time that is no time. *)
Definition session_raw_three : DataFrame :=
  mkDataFrame session_labels
    [session_row (Text "1") (Text "10:00:04");
     session_row (Text "2") (Text "10:00:05");
     session_row (Text "3") (Text "--")].

(** A weather log of three readings, the first with a time that is no
    time. *)
Definition weather_raw_three : DataFrame :=
  mkDataFrame kestrel_csv_columns
    [weather_row (Text "not a time") (Text "21.4");
     weather_row (Text "2024-05-01 10:00:00 AM") (Text "21.5");
     weather_row (Text "2024-05-01 10:00:10 AM") (Text "21.7")].

(** The weather tables [read_file] makes of the three logs. *)
Definition weather_unparsed : DataFrame :=
  mkDataFrame kestrel_csv_columns [weather_row NaN (Text "21.5")].

Definition weather_two : DataFrame :=
  mkDataFrame kestrel_csv_columns
    [weather_row (Text "10:00:00") (Text "21.5");
     weather_row (Text "10:00:10") (Text "21.7")].

Definition weather_three : DataFrame :=
  mkDataFrame kestrel_csv_columns
    [weather_row NaN (Text "21.4");
     weather_row (Text "10:00:00") (Text "21.5");
     weather_row (Text "10:00:10") (Text "21.7")].

(** A shot as [apply] hands it to [find_closest]. *)
Definition shot (count time : string) : Series :=
  mkSeries (<[5%nat := "Timestamp"]> session_labels) (session_row (Text count) (Text time)).

(** A session log as a delimited text has it: the sixth column is headed
    [Timestamp]. *)
Definition session_csv_raw : DataFrame :=
  mkDataFrame (<[5%nat := "Timestamp"]> session_labels) (rows session_raw_three).

(** The session table [read_file] makes of the three shots. *)
Definition session_three : DataFrame :=
  mkDataFrame (<[5%nat := "Timestamp"]> session_labels)
    [session_row (Text "1") (Text "10:00:04");
     session_row (Text "2") (Text "10:00:05");
     session_row (Text "3") NaN].

(** A weather sheet whose eighth column is headed [Temperature], like the
    second once that one is renamed. *)
Definition weather_sheet_repeated : DataFrame :=
  mkDataFrame
    ["FORMATTED DATE_TIME"; "Temp"; "RH"; "Pressure"; "Heat Index"; "Dew Point";
     "Density Altitude"; "Temperature"; "Record name"; "Start time";
     "Duration (H:M:S)"; "Location description"; "Location address";
     "Location coordinates"; "Notes"]
    [weather_row (Text "2024-05-01 10:00:00 AM") (Text "21.5")].

(** A directory [log] with three weather logs, one of them without a reading
    and one with the repeated heading, and the session log as a workbook and
    as a delimited text. *)
Definition sample_files : Files :=
  mkFiles
    (λ path skiprows,
       if decide (path = "log/garmin.xlsx") then Ok [("Session 1", session_raw_three)]
       else if decide (path = "log/kestrel.xlsx") then Ok [("Kestrel", weather_sheet_repeated)]
       else Raise (ReadError path))
    (λ path skiprows,
       if decide (path = "log/kestrel.csv") then Ok weather_raw_two
       else if decide (path = "log/empty.csv") then Ok (mkDataFrame kestrel_csv_columns [])
       else if decide (path = "log/garmin.csv") then Ok session_csv_raw
       else Raise (ReadError path)).

(** A session of one shot whose time is no time. *)
Definition session_raw_untimed : DataFrame :=
  mkDataFrame session_labels [session_row (Text "1") (Text "--")].

(** A folder where the weather log has no reading and the session log no shot
    with a time. *)
Definition sample_files_untimed : Files :=
  mkFiles
    (λ path skiprows,
       if decide (path = "log/garmin.xlsx") then Ok [("Session 1", session_raw_untimed)]
       else Raise (ReadError path))
    (λ path skiprows,
       if decide (path = "log/empty.csv") then Ok (mkDataFrame kestrel_csv_columns [])
       else Raise (ReadError path)).

(** A weather sheet of two readings under headings of its own. *)
Definition sample_weather_sheet : DataFrame :=
  mkDataFrame
    ["FORMATTED DATE_TIME"; "Temp"; "RH"; "Pressure"; "Heat Index"; "Dew Point";
     "Density Altitude"; "Data Type"; "Record name"; "Start time";
     "Duration (H:M:S)"; "Location description"; "Location address";
     "Location coordinates"; "Notes"]
    [weather_row (Text "2024-05-01 10:00:00 AM") (Text "21.5");
     weather_row (Text "2024-05-01 1:00:10 PM") (Text "21.7")].

(** A folder where the weather log is that sheet, and the session log a
    workbook or a delimited text under the headings of the workbook. *)
Definition sample_files_headings : Files :=
  mkFiles
    (λ path skiprows,
       if decide (path = "log/kestrel.xlsx") then Ok [("Kestrel", sample_weather_sheet)]
       else if decide (path = "log/garmin.xlsx") then Ok [("Session 1", session_raw_three)]
       else Raise (ReadError path))
    (λ path skiprows,
       if decide (path = "log/garmin.csv") then Ok session_raw_three
       else Raise (ReadError path)).

(** A session table as a delimited text may give it: the times under the
    heading [Timestamp], but in the first column. *)
Definition session_time_first : DataFrame :=
  mkDataFrame
    ["Timestamp"; "#"; "SPEED (MPS)"; "Δ AVG (MPS)"; "KE (J)"; "POWER FACTOR (N⋅S)";
     "CLEAN BORE"; "COLD BORE"; "SHOT NOTES"]
    [[Text "10:00:04"; Text "1"; NaN; NaN; NaN; NaN; NaN; NaN; NaN]].

(** A folder where no time of the weather log can be read. *)
Definition sample_files_unread : Files :=
  mkFiles
    (λ path skiprows,
       if decide (path = "log/garmin.xlsx") then Ok [("Session 1", session_raw_three)]
       else Raise (ReadError path))
    (λ path skiprows,
       if decide (path = "log/kestrel.csv") then Ok weather_raw_unparsed
       else Raise (ReadError path)).

(** * Properties *)

(** ** Results *)

Lemma bind_Ok_inv {A B} (m : result A) (f : A → result B) b :
  m ≫= f = Ok b ↔ ∃ a, m = Ok a ∧ f a = Ok b.
Proof. destruct m; simpl; naive_solver. Qed.

Lemma fmap_Ok_inv {A B} (m : result A) (f : A → B) b :
  f <$> m = Ok b ↔ ∃ a, m = Ok a ∧ b = f a.
Proof. destruct m; simpl; naive_solver. Qed.

(** ** Texts and paths *)

Section strings.
Implicit Types a b s : string.

Lemma chars_app a b : Path.chars (a +:+ b) = (Path.chars a ++ Path.chars b)%list.
Proof.
  unfold Path.chars, String.app. induction a as [|c a IH]; simpl; [done|].
  by rewrite IH.
Qed.

Lemma text_chars s : Path.text (Path.chars s) = s.
Proof. apply string_of_list_ascii_of_string. Qed.

Lemma chars_text l : Path.chars (Path.text l) = l.
Proof. apply list_ascii_of_string_of_list_ascii. Qed.

Lemma chars_inj a b : Path.chars a = Path.chars b → a = b.
Proof. intros H. by rewrite <-(text_chars a), <-(text_chars b), H. Qed.

Lemma text_app l1 l2 : Path.text (l1 ++ l2)%list = Path.text l1 +:+ Path.text l2.
Proof. apply chars_inj. by rewrite chars_app, !chars_text. Qed.

Lemma string_app_inv_tail a b s : a +:+ s = b +:+ s → a = b.
Proof.
  intros H. apply chars_inj. apply (f_equal Path.chars) in H.
  rewrite !chars_app in H. by apply app_inv_tail in H.
Qed.

Lemma splitext_app p : (Path.splitext p).1 +:+ (Path.splitext p).2 = p.
Proof.
  unfold Path.splitext. case_decide; [|apply chars_inj; by rewrite chars_app, app_nil_r].
  case_match; simpl.
  - apply chars_inj. by rewrite chars_app, app_nil_r.
  - by rewrite <-text_app, take_drop, text_chars.
Qed.
End strings.

(** ** [generate_unique_filename] *)

Section unique_filename.
Variables (paths : gset string) (base extension : string).

Local Abbreviation cand := (candidate base extension).

Lemma candidate_inj j k : cand j = cand k → j = k.
Proof.
  unfold candidate. intros H.
  apply (inj (String.app base)) in H. apply (inj (String.app "_")) in H.
  apply string_app_inv_tail in H. by apply (inj pretty) in H.
Qed.

Lemma candidate_ne_plain k : cand k ≠ base +:+ extension.
Proof.
  unfold candidate. intros H. apply (inj (String.app base)) in H.
  apply (f_equal (λ s, length (Path.chars s))) in H.
  rewrite !chars_app, !length_app in H. simpl in H. lia.
Qed.

(** The loop, started on [cur] with the counter at [c], after the paths
    [seen] have been tried and found to exist. *)
Lemma generate_unique_filename_loop_spec fuel (seen : gset string) c cur :
  seen ⊆ paths →
  (size paths ≤ size seen + fuel)%nat →
  cur ∉ seen →
  (∀ j, (c ≤ j)%nat → (cand j ∉ seen) ∧ cand j ≠ cur) →
  ∃ r, generate_unique_filename_loop fuel paths base extension c cur = Some r
       ∧ (r ∉ paths)
       ∧ (cur ∉ paths → r = cur)
       ∧ (cur ∈ paths →
          ∃ k, (c ≤ k)%nat ∧ r = cand k
               ∧ ∀ j, (c ≤ j < k)%nat → cand j ∈ paths).
Proof.
  revert seen c cur. induction fuel as [|fuel IH]; intros seen c cur Hsub Hsize Hcur Hfresh.
  - simpl. case_decide as Hin.
    + exfalso. apply Hcur.
      assert (seen ≡ paths) as ->; [|done].
      apply set_subseteq_size_equiv; [done|lia].
    + exists cur. naive_solver.
  - simpl. case_decide as Hin; [|exists cur; naive_solver].
    destruct (IH ({[cur]} ∪ seen) (S c) (cand c)) as (r & Hr & Hnew & Hfst & Hlater).
    + set_solver.
    + rewrite size_union, size_singleton by set_solver. lia.
    + destruct (Hfresh c) as [??]; [lia|]. set_solver.
    + intros j Hj. destruct (Hfresh j) as [??]; [lia|]. split; [set_solver|].
      intros ?%candidate_inj. lia.
    + exists r. split; [done|]. split; [done|]. split; [done|]. intros _.
      destruct (decide (cand c ∈ paths)) as [Hc|Hc].
      * destruct (Hlater Hc) as (k & Hk & -> & Hbelow). exists k.
        split; [lia|]. split; [done|]. intros j Hj.
        destruct (decide (j = c)) as [->|]; [done|]. apply Hbelow. lia.
      * exists c. split; [lia|]. split; [by apply Hfst|]. intros j ?. lia.
Qed.
End unique_filename.

(** [generate_unique_filename] always ends, on a path that does not exist. *)
Lemma generate_unique_filename_total (paths : gset string) (filepath : string) :
  ∃ r, generate_unique_filename paths filepath = Some r ∧ r ∉ paths.
Proof.
  unfold generate_unique_filename.
  pose proof (splitext_app filepath) as Hsplit.
  destruct (Path.splitext filepath) as [base extension]; simpl in *.
  destruct (generate_unique_filename_loop_spec paths base extension (size paths) ∅ 1 filepath)
    as (r & Hr & Hnew & _); [set_solver|rewrite size_empty; lia|set_solver| |by exists r].
  intros j _. split; [set_solver|]. rewrite <-Hsplit. apply candidate_ne_plain.
Qed.

(** C6.  [generate_unique_filename] ends on every input and returns a path
    that does not exist.  It is the path given when that one is free;
    otherwise it is the base with the suffix [_k] before the extension, for
    the least [k ≥ 1] whose path is free. *)
Theorem generate_unique_filename_smallest_unused (paths : gset string) (filepath : string) :
  ∃ r, generate_unique_filename paths filepath = Some r
       ∧ (r ∉ paths)
       ∧ (filepath ∉ paths → r = filepath)
       ∧ (filepath ∈ paths →
          ∃ k, (1 ≤ k)%nat
               ∧ r = candidate (Path.splitext filepath).1 (Path.splitext filepath).2 k
               ∧ ∀ j, (1 ≤ j < k)%nat →
                   candidate (Path.splitext filepath).1 (Path.splitext filepath).2 j ∈ paths).
Proof.
  unfold generate_unique_filename.
  pose proof (splitext_app filepath) as Hsplit.
  destruct (Path.splitext filepath) as [base extension]; simpl in *.
  apply (generate_unique_filename_loop_spec _ _ _ _ ∅); [set_solver| |set_solver|].
  - rewrite size_empty. lia.
  - intros j _. split; [set_solver|]. rewrite <-Hsplit. apply candidate_ne_plain.
Qed.

(** Scenario E: with [Combined_Output.xlsx] and [Combined_Output_1.xlsx]
    there, the name chosen is [Combined_Output_2.xlsx]. *)
Example generate_unique_filename_scenario_E :
  generate_unique_filename
    {["out/Combined_Output.xlsx"; "out/Combined_Output_1.xlsx"]}
    "out/Combined_Output.xlsx"
  = Some "out/Combined_Output_2.xlsx".
Proof. vm_compute. reflexivity. Qed.

(** ** Rendering and reading a time of day *)

Section time_text.
Import TimeText.

Local Ltac div_lia := Z.to_euclidean_division_equations; lia.

Lemma digit_value_char d : 0 ≤ d ≤ 9 → digit_value (digit_char d) = Some d.
Proof.
  intros ?. assert (d = 0 ∨ d = 1 ∨ d = 2 ∨ d = 3 ∨ d = 4 ∨ d = 5 ∨ d = 6
                    ∨ d = 7 ∨ d = 8 ∨ d = 9) by lia.
  naive_solver.
Qed.

Lemma span_digits_stop s : no_digit_ahead s → span_digits s = ([], s).
Proof. destruct s as [|c s]; simpl; [done|]. by intros ->. Qed.

Lemma span_digits_two n rest :
  0 ≤ n < 100 → no_digit_ahead rest →
  span_digits (two_digits n +:+ rest) = ([n / 10; n mod 10], rest).
Proof.
  intros Hn Hrest. unfold two_digits, String.app. simpl.
  rewrite !digit_value_char by div_lia. by rewrite span_digits_stop.
Qed.

Lemma field_two_digits lo hi n rest :
  0 ≤ n < 100 → lo ≤ n ≤ hi → no_digit_ahead rest →
  field lo hi (two_digits n +:+ rest) = Some (n, rest).
Proof.
  intros Hn Hr Hrest. unfold field. rewrite span_digits_two by done.
  assert (10 * (n / 10) + n mod 10 = n) as -> by div_lia.
  by rewrite decide_True.
Qed.

Lemma strftime_hms_unfold t :
  strftime_hms t =
  two_digits (t mod 86400 / 3600) +:+ String ":"
    (two_digits (t mod 86400 mod 3600 / 60) +:+ String ":"
       (two_digits (t mod 86400 mod 60) +:+ "")).
Proof. reflexivity. Qed.

(** A rendered time reads back as the time of day it shows. *)
Lemma strptime_hms_strftime t : strptime_hms (strftime_hms t) = Some (t mod 86400).
Proof.
  rewrite strftime_hms_unfold. unfold strptime_hms.
  set (tod := t mod 86400). assert (0 ≤ tod < 86400) by (apply Z.mod_pos_bound; lia).
  rewrite field_two_digits; [|div_lia|div_lia|done]. simpl.
  rewrite field_two_digits; [|div_lia|div_lia|done]. simpl.
  rewrite field_two_digits; [|div_lia|div_lia|done]. simpl.
  f_equal. div_lia.
Qed.

(** A rendered time is no text of the weather log's format: a colon stands
    where the year goes on. *)
Lemma strptime_kestrel_strftime t : strptime_kestrel (strftime_hms t) = None.
Proof.
  rewrite strftime_hms_unfold. unfold strptime_kestrel, year_field.
  set (tod := t mod 86400). assert (0 ≤ tod < 86400) by (apply Z.mod_pos_bound; lia).
  rewrite span_digits_two; [done|div_lia|done].
Qed.

Lemma strftime_hms_mod t : strftime_hms (t mod 86400) = strftime_hms t.
Proof. unfold strftime_hms. by rewrite Z.mod_mod by lia. Qed.

Lemma strftime_hms_not_missing t : strftime_hms t ∉ Pandas.nat_strings.
Proof.
  rewrite strftime_hms_unfold. unfold two_digits, String.app. simpl.
  unfold Pandas.nat_strings. rewrite !elem_of_cons, elem_of_nil. naive_solver.
Qed.

(** The rendering idiom on one value: a text with a time, or nothing. *)
Lemma hms_text_cases parse c :
  hms_text parse c = NaN ∨ ∃ t, hms_text parse c = Text (strftime_hms t).
Proof.
  unfold hms_text, Pandas.dt_strftime, Pandas.to_datetime_coerce.
  repeat case_match; eauto.
Qed.

Lemma hms_text_rendered t : hms_text strptime_hms (Text (strftime_hms t)) = Text (strftime_hms t).
Proof.
  unfold hms_text. simpl. rewrite decide_False by apply strftime_hms_not_missing.
  rewrite strptime_hms_strftime. simpl. by rewrite strftime_hms_mod.
Qed.

(** Rendering under [%H:%M:%S] a second time changes nothing. *)
Lemma hms_text_idemp parse c :
  hms_text strptime_hms (hms_text parse c) = hms_text parse c.
Proof.
  destruct (hms_text_cases parse c) as [->|[t ->]]; [done|apply hms_text_rendered].
Qed.

(** Rendering under the weather log's format a second time loses the time. *)
Lemma hms_text_kestrel_twice parse c :
  hms_text strptime_kestrel (hms_text parse c) = NaN.
Proof.
  destruct (hms_text_cases parse c) as [->|[t ->]]; [done|].
  unfold hms_text. simpl. rewrite decide_False by apply strftime_hms_not_missing.
  by rewrite strptime_kestrel_strftime.
Qed.
End time_text.

(** The two readers and the writer on a few texts. *)

Example strptime_hms_plain : TimeText.strptime_hms "10:00:04" = Some 36004.
Proof. reflexivity. Qed.
Example strptime_hms_short_fields : TimeText.strptime_hms "9:5:3" = Some 32703.
Proof. reflexivity. Qed.
Example strptime_hms_hour_24 : TimeText.strptime_hms "24:00:00" = None.
Proof. reflexivity. Qed.
Example strptime_hms_trailing_space : TimeText.strptime_hms "10:00:04 " = None.
Proof. reflexivity. Qed.
Example strptime_kestrel_midnight_hour :
  TimeText.strptime_kestrel "2024-05-01 12:30:15 AM" = Some 1815.
Proof. reflexivity. Qed.
Example strptime_kestrel_lower_pm :
  TimeText.strptime_kestrel "2024-05-01 01:30:15 pm" = Some 48615.
Proof. reflexivity. Qed.
Example strptime_kestrel_no_such_day :
  TimeText.strptime_kestrel "2023-02-29 01:30:15 PM" = None.
Proof. reflexivity. Qed.
Example strptime_kestrel_time_only : TimeText.strptime_kestrel "13:30:15" = None.
Proof. reflexivity. Qed.
Example strftime_hms_afternoon : TimeText.strftime_hms 48615 = "13:30:15".
Proof. reflexivity. Qed.

(** ** Columns by label and by position *)

Section columns.
Import Pandas.
Implicit Types (l : string) (cols : list string) (r : list Cell).

Lemma elem_of_positions_from i l cols p :
  p ∈ positions_from i l cols ↔ ∃ q, p = (i + q)%nat ∧ cols !! q = Some l.
Proof.
  revert i. induction cols as [|c cols IH]; intros i; simpl.
  - rewrite elem_of_nil. naive_solver.
  - case_decide as Hc; rewrite ?elem_of_cons, IH; split.
    + intros [->|(q & -> & ?)]; [exists 0%nat|exists (S q)]; split; (lia || by subst).
    + intros ([|q] & -> & Hq); [left; lia|right; exists q; split; [lia|done]].
    + intros (q & -> & ?). exists (S q). split; [lia|done].
    + intros ([|q] & -> & Hq); simplify_eq/=. exists q. split; [lia|done].
Qed.

Lemma NoDup_positions_from i l cols : NoDup (positions_from i l cols).
Proof.
  revert i. induction cols as [|c cols IH]; intros i; simpl; [constructor|].
  case_decide; [|done]. constructor; [|done].
  rewrite elem_of_positions_from. intros (q & ? & _). lia.
Qed.

Lemma elem_of_positions l cols p : p ∈ positions l cols ↔ cols !! p = Some l.
Proof. unfold positions. rewrite elem_of_positions_from. naive_solver. Qed.

(** A label names a column when one column and no other carries it. *)
Lemma column_position_Ok l cols p :
  column_position l cols = Ok p ↔
  cols !! p = Some l ∧ ∀ q, cols !! q = Some l → q = p.
Proof.
  unfold column_position.
  pose proof (elem_of_positions l cols) as Hin.
  pose proof (NoDup_positions_from 0 l cols) as Hnd. fold (positions l cols) in Hnd.
  destruct (positions l cols) as [|p1 [|p2 ps]]; split.
  - done.
  - intros [Hp _]. apply Hin in Hp. by apply elem_of_nil in Hp.
  - intros [= ->]. split; [apply Hin; left|].
    intros q Hq%Hin. by apply list_elem_of_singleton in Hq.
  - intros [Hp _]. apply Hin, list_elem_of_singleton in Hp. by subst.
  - done.
  - intros [_ Huniq]. exfalso.
    assert (p1 = p) by (apply Huniq, Hin; left).
    assert (p2 = p) by (apply Huniq, Hin; right; left).
    subst. apply NoDup_cons in Hnd as [Hnd _]. apply Hnd. left.
Qed.

Lemma rename_one_columns old new df :
  columns (rename [(old, new)] df)
  = (λ c, if decide (old = c) then new else c) <$> columns df.
Proof.
  unfold rename. simpl. apply list_fmap_ext. intros _ c _. by case_decide.
Qed.

Lemma rename_same l df : rename [(l, l)] df = df.
Proof.
  destruct df as [cols rs]. unfold rename. simpl. f_equal.
  rewrite <-(list_fmap_id cols) at 2. apply list_fmap_ext.
  intros _ c _. by case_decide; subst.
Qed.

Lemma cell_at_insert p v r :
  cell_at p (<[p := v]> r) = if decide (p < length r)%nat then v else NaN.
Proof.
  unfold cell_at. case_decide.
  - by rewrite list_lookup_insert_eq.
  - rewrite list_insert_ge by lia. by rewrite lookup_ge_None_2 by lia.
Qed.

Lemma cell_at_beyond p r : (length r ≤ p)%nat → cell_at p r = NaN.
Proof. intros ?. unfold cell_at. by rewrite lookup_ge_None_2. Qed.

(** A value set to what it holds leaves the row as it is. *)
Lemma insert_cell_at p r : <[p := cell_at p r]> r = r.
Proof.
  unfold cell_at. destruct (r !! p) as [c|] eqn:Hp; simpl.
  - by apply list_insert_id.
  - apply list_insert_ge. by apply lookup_ge_None.
Qed.

Lemma isna_hms_text parse c :
  isna (hms_text parse c) = isna (to_datetime_coerce parse c).
Proof. unfold hms_text, to_datetime_coerce. by repeat case_match. Qed.

(** The time of a row rendered in place is missing exactly when the time
    does not parse. *)
Lemma isna_rendered kind r :
  let p := timestamp_position kind in
  isna (cell_at p (<[p := hms_text (strptime kind) (cell_at p r)]> r))
  = negb (timestamp_parses kind r).
Proof.
  simpl. unfold timestamp_parses. rewrite cell_at_insert, negb_involutive.
  case_decide; [apply isna_hms_text|].
  by rewrite cell_at_beyond by lia.
Qed.

Lemma length_rows_select labels df df' :
  select labels df = Ok df' → length (rows df') = length (rows df).
Proof.
  unfold select. destruct (traverse _ labels); simpl; [|done].
  intros [= <-]. simpl. by rewrite length_fmap.
Qed.
End columns.

(** ** Session tables made ready *)

Section session_tables.
Import Pandas.
Local Abbreviation hms := (hms_text TimeText.strptime_hms).

Lemma filter_fmap_iff {A B} (f : A → B) (P : B → Prop) (Q : A → Prop)
    `{!∀ x, Decision (P x), !∀ x, Decision (Q x)} (l : list A) :
  (∀ x, P (f x) ↔ Q x) → filter P (f <$> l) = f <$> filter Q l.
Proof.
  intros HPQ. induction l as [|x l IH]; [done|]. csimpl.
  rewrite !filter_cons. destruct (decide (P (f x))) as [HP|HP], (decide (Q x)) as [HQ|HQ];
    try (by apply HPQ in HP); try (by apply HPQ in HQ); csimpl; by rewrite IH.
Qed.

Lemma length_filter_eq {A} (P : A → Prop) `{!∀ x, Decision (P x)} (l : list A) :
  length (filter P l) = length l ↔ Forall P l.
Proof.
  induction l as [|x l IH]; [by split|].
  rewrite filter_cons, Forall_cons. pose proof (length_filter P l).
  case_decide; simpl; [rewrite <-IH; naive_solver lia|]. split; [lia|tauto].
Qed.

Lemma render_row_rendered parse p r :
  cell_at p (render_row parse p r) = NaN ∨ rendered (cell_at p (render_row parse p r)).
Proof.
  unfold render_row. rewrite cell_at_insert. case_decide; [|by left].
  destruct (hms_text_cases parse (cell_at p r)) as [->|[t ->]]; [by left|right; by exists t].
Qed.

Lemma render_row_idemp parse p r :
  render_row TimeText.strptime_hms p (render_row parse p r) = render_row parse p r.
Proof.
  unfold render_row at 1. destruct (decide (p < length r)%nat).
  - unfold render_row. rewrite cell_at_insert, decide_True by done.
    by rewrite hms_text_idemp, list_insert_insert_eq.
  - assert (render_row parse p r = r) as -> by (apply list_insert_ge; lia).
    rewrite cell_at_beyond by lia. apply list_insert_ge. lia.
Qed.

Lemma render_row_fixed p r : rendered (cell_at p r) → render_row TimeText.strptime_hms p r = r.
Proof.
  intros [t Ht]. unfold render_row. rewrite Ht, hms_text_rendered, <-Ht.
  apply insert_cell_at.
Qed.

Lemma reformat_timestamp_Ok parse df df' :
  reformat_timestamp parse df = Ok df' ↔
  ∃ p, column_position "Timestamp" (columns df) = Ok p
       ∧ df' = mkDataFrame (columns df) (render_row parse p <$> rows df).
Proof.
  unfold reformat_timestamp. destruct (column_position _ _) as [p|e]; simpl.
  - split; [intros [= <-]; by exists p|]. by intros (? & [= <-] & ->).
  - split; [done|]. by intros (? & ? & _).
Qed.

(** After the sixth column is renamed, the label [Timestamp] can only name
    that column. *)
Lemma renamed_position l df p :
  columns df !! 5%nat = Some l →
  column_position "Timestamp" (columns (rename [(l, "Timestamp")] df)) = Ok p →
  p = 5%nat.
Proof.
  intros Hl [_ Huniq]%column_position_Ok. symmetry. apply Huniq.
  rewrite rename_one_columns, list_lookup_fmap, Hl. simpl. by rewrite decide_True.
Qed.

Lemma read_file_garmin_sheet_Ok raw df :
  read_file_garmin_sheet raw = Ok df →
  column_position "Timestamp" (columns df) = Ok 5%nat
  ∧ rows df = render_row TimeText.strptime_hms 5 <$> rows raw.
Proof.
  unfold read_file_garmin_sheet, column_label.
  destruct (columns raw !! 5%nat) as [l|] eqn:Hl; simpl; [|done].
  intros (p & Hp & ->)%reformat_timestamp_Ok.
  pose proof (renamed_position _ _ _ Hl Hp) as ->. done.
Qed.

Lemma process_garmin_sheet_timestamps_Ok g g' u :
  process_garmin_sheet_timestamps g = (g', Ok u) →
  (∃ l, columns g !! 5%nat = Some l
        ∧ columns g' = columns (rename [(l, "Timestamp")] g))
  ∧ column_position "Timestamp" (columns g') = Ok 5%nat
  ∧ rows g' = filter (λ r, isna (cell_at 5 r) = false)
                (render_row TimeText.strptime_hms 5 <$> rows g).
Proof.
  unfold process_garmin_sheet_timestamps, column_label.
  destruct (columns g !! 5%nat) as [l|] eqn:Hl; [|done].
  destruct (column_position _ _) as [p|] eqn:Hp; [|done].
  pose proof (renamed_position _ _ _ Hl Hp) as ->. intros [= <- _]. eauto.
Qed.

(** Rendering once more the rows of a table that has been rendered. *)
Lemma render_rows_read p rs :
  Forall (λ r, cell_at p r = NaN ∨ rendered (cell_at p r)) rs →
  render_row TimeText.strptime_hms p <$> rs = rs.
Proof.
  intros H. rewrite <-(list_fmap_id rs) at 2. apply Forall_fmap_ext_1.
  eapply Forall_impl; [done|]. intros r [Hr|Hr]; [|by apply render_row_fixed].
  transitivity (<[p := cell_at p r]> r); [|apply insert_cell_at].
  unfold render_row. by rewrite Hr.
Qed.

Lemma reformat_timestamp_read df :
  session_read df → reformat_timestamp TimeText.strptime_hms df = Ok df.
Proof.
  intros [Hp Hrows]. apply reformat_timestamp_Ok. exists 5%nat. split; [done|].
  rewrite render_rows_read by done. by destruct df.
Qed.

Lemma read_file_garmin_sheet_read df :
  session_read df → read_file_garmin_sheet df = Ok df.
Proof.
  intros H. unfold read_file_garmin_sheet, column_label.
  pose proof (proj1 H) as [Hl _]%column_position_Ok. rewrite Hl. simpl.
  rewrite rename_same. by apply reformat_timestamp_read.
Qed.

(** A table that [read_file] has been through goes through the first lines
    of [process_garmin_sheet] without an exception. *)
Lemma process_garmin_sheet_timestamps_read df :
  session_read df →
  process_garmin_sheet_timestamps df
  = (mkDataFrame (columns df) (filter (λ r, isna (cell_at 5 r) = false) (rows df)), Ok ()).
Proof.
  intros [Hp Hrows]. unfold process_garmin_sheet_timestamps, column_label.
  pose proof Hp as [Hl _]%column_position_Ok. rewrite Hl, rename_same, Hp.
  unfold dropna, map_column. simpl. do 3 f_equal. by apply render_rows_read.
Qed.

Lemma session_ready_read df : session_ready df → session_read df.
Proof. intros [? H]. split; [done|]. eapply Forall_impl; [done|]. naive_solver. Qed.

Lemma session_ready_filter df :
  session_ready df → filter (λ r, isna (cell_at 5 r) = false) (rows df) = rows df.
Proof.
  intros [_ H]. induction H as [|r rs [t Hr] _ IH]; [done|].
  rewrite filter_cons_True by (by rewrite Hr). by rewrite IH.
Qed.

Lemma rows_rendered parse p rs :
  Forall (λ r, cell_at p r = NaN ∨ rendered (cell_at p r)) (render_row parse p <$> rs).
Proof. apply Forall_fmap, Forall_true. intros r. apply render_row_rendered. Qed.

Lemma rows_ready_filter p rs :
  Forall (λ r, cell_at p r = NaN ∨ rendered (cell_at p r)) rs →
  Forall (λ r, rendered (cell_at p r)) (filter (λ r, isna (cell_at p r) = false) rs).
Proof.
  intros H. apply Forall_forall. intros r [Hna Hr]%list_elem_of_filter.
  rewrite Forall_forall in H. destruct (H r Hr) as [Hnan|]; [|done].
  by rewrite Hnan in Hna.
Qed.

(** The two stages of a session table, taken together. *)
Lemma normalize_session_Ok container raw df :
  normalize Session container raw = Ok df →
  session_ready df
  ∧ rows df = filter (λ r, isna (cell_at 5 r) = false)
                (render_row TimeText.strptime_hms 5 <$> rows raw).
Proof.
  unfold normalize.
  set (stage1 := match container with
                 | Spreadsheet => read_file_garmin_sheet raw
                 | Delimited => reformat_timestamp TimeText.strptime_hms raw
                 end).
  destruct stage1 as [df1|e] eqn:H1; simpl; [|done].
  destruct (process_garmin_sheet_timestamps df1) as [g' [u|e]] eqn:H2; [|done].
  intros [= ->].
  destruct (process_garmin_sheet_timestamps_Ok _ _ _ H2) as ((l & Hl & Hcols) & Hp & Hrows).
  assert (rows df1 = render_row TimeText.strptime_hms 5 <$> rows raw) as Hdf1.
  { subst stage1. destruct container.
    - by apply read_file_garmin_sheet_Ok in H1 as [_ ->].
    - apply reformat_timestamp_Ok in H1 as (p & Hp1 & ->). simpl.
      enough (p = 5%nat) as -> by done.
      rewrite Hcols in Hp. apply column_position_Ok in Hp as [_ Huniq]. apply Huniq.
      apply column_position_Ok in Hp1 as [Hp1 _].
      rewrite rename_one_columns, list_lookup_fmap. simpl. rewrite Hp1. simpl.
      by case_decide. }
  assert (rows df = filter (λ r, isna (cell_at 5 r) = false)
                      (render_row TimeText.strptime_hms 5 <$> rows raw)) as Hrows'.
  { rewrite Hrows, Hdf1, <-list_fmap_compose. f_equal. apply list_fmap_ext.
    intros _ r _. apply render_row_idemp. }
  split; [|done]. split; [done|]. rewrite Hrows'. apply rows_ready_filter, rows_rendered.
Qed.
End session_tables.

(** ** Row counts and a second pass *)

Lemma read_file_kestrel_length container raw df :
  normalize Weather container raw = Ok df → length (rows df) = length (rows raw).
Proof.
  destruct container; simpl.
  - unfold read_file_kestrel_xlsx.
    intros (c0 & _ & (c1 & _ & (c2 & _ & (c3 & _ & H)%bind_Ok_inv)%bind_Ok_inv)
              %bind_Ok_inv)%bind_Ok_inv.
    apply bind_Ok_inv in H as (df1 & Hsel%length_rows_select & (p & _ & ->)%reformat_timestamp_Ok).
    simpl. by rewrite length_fmap.
  - unfold read_file_kestrel_csv.
    intros (df0 & Hset & (df1 & Href & Hsel%length_rows_select)%bind_Ok_inv)%bind_Ok_inv.
    apply reformat_timestamp_Ok in Href as (p & _ & ->).
    unfold Pandas.set_columns in Hset. case_decide; simplify_eq.
    rewrite Hsel. simpl. by rewrite length_fmap.
Qed.

(** C3 (as amended).  Normalization of a session table drops exactly the rows
    whose time fails to parse and renders the time of the others, so it keeps
    at most as many rows as the raw table has, and as many if and only if
    every time parses.  Normalization of a weather table drops no row: it
    keeps as many rows as the raw table has, whether their times parse or
    not. *)
Theorem normalize_row_count kind container raw df :
  normalize kind container raw = Ok df →
  match kind with
  | Session =>
      rows df = render_row TimeText.strptime_hms 5
                  <$> filter (λ r, timestamp_parses Session r = true) (rows raw)
      ∧ (length (rows df) ≤ length (rows raw))%nat
      ∧ (length (rows df) = length (rows raw)
         ↔ Forall (λ r, timestamp_parses Session r = true) (rows raw))
  | Weather => length (rows df) = length (rows raw)
  end.
Proof.
  destruct kind; [apply read_file_kestrel_length|].
  intros [_ Hrows]%normalize_session_Ok.
  assert (rows df = render_row TimeText.strptime_hms 5
                      <$> filter (λ r, timestamp_parses Session r = true) (rows raw)) as ->.
  { rewrite Hrows. apply filter_fmap_iff. intros r. unfold render_row.
    pose proof (isna_rendered Session r) as Hna. simpl in Hna. rewrite Hna.
    by destruct (timestamp_parses Session r). }
  rewrite length_fmap. split; [done|]. split; [apply length_filter|apply length_filter_eq].
Qed.

(** The theorem at a session of three shots, one of them without a time. *)
Lemma normalize_row_count_witness :
  ∃ df, normalize Session Spreadsheet session_raw_three = Ok df
        ∧ length (rows df) = 2%nat
        ∧ (length (rows df) ≤ length (rows session_raw_three))%nat.
Proof.
  eexists. split; [vm_compute; reflexivity|]. split; [vm_compute; reflexivity|].
  exact (proj1 (proj2 (normalize_row_count Session Spreadsheet session_raw_three _ eq_refl))).
Defined.

(** C3 fails as stated: the weather table keeps the row whose time does not
    parse, so the counts are equal although not every time parses. *)
Lemma normalize_row_count_counterexample :
  ∃ df, normalize Weather Delimited weather_raw_unparsed = Ok df
        ∧ length (rows df) = length (rows weather_raw_unparsed)
        ∧ ¬ Forall (λ r, timestamp_parses Weather r = true) (rows weather_raw_unparsed).
Proof.
  eexists. split; [vm_compute; reflexivity|]. split; [vm_compute; reflexivity|].
  intros H. by apply Forall_cons in H as [? _].
Qed.

(** C8 (as amended).  Normalization of a session table is idempotent: a
    second pass over the output of the first gives that output again. *)
Theorem normalize_session_idempotent container raw df :
  normalize Session container raw = Ok df →
  normalize Session container df = Ok df.
Proof.
  intros [Hready _]%normalize_session_Ok.
  pose proof (session_ready_read _ Hready) as Hread.
  unfold normalize.
  assert (match container with
          | Spreadsheet => read_file_garmin_sheet df
          | Delimited => reformat_timestamp TimeText.strptime_hms df
          end = Ok df) as ->.
  { destruct container;
      [by apply read_file_garmin_sheet_read|by apply reformat_timestamp_read]. }
  simpl. rewrite process_garmin_sheet_timestamps_read by done.
  rewrite session_ready_filter by done. by destruct df.
Qed.

Lemma normalize_session_idempotent_witness :
  ∃ df, normalize Session Spreadsheet session_raw_three = Ok df
        ∧ normalize Session Spreadsheet df = Ok df.
Proof.
  eexists. split; [vm_compute; reflexivity|].
  exact (normalize_session_idempotent Spreadsheet session_raw_three _ eq_refl).
Defined.

(** C8 fails as stated: a second pass over a weather table reads the
    rendered [HH:MM:SS] under the format with a date, and loses every time. *)
Lemma normalize_idempotent_counterexample :
  ∃ df df2, normalize Weather Delimited weather_raw_two = Ok df
            ∧ normalize Weather Delimited df = Ok df2
            ∧ df2 ≠ df.
Proof. do 2 eexists. split; [vm_compute; reflexivity|]. split; [vm_compute; reflexivity|]. done. Qed.

(** ** The nearest reading *)

Section nearest.
Import Pandas.

Lemma idxmin_from_Some i best l k d :
  idxmin_from i best l = Some (k, d) →
  (best = Some (k, d) ∧ ∀ j dj, l !! j = Some (Some dj) → d ≤ dj)
  ∨ (∃ q, k = (i + q)%nat ∧ l !! q = Some (Some d)
          ∧ (∀ kb b, best = Some (kb, b) → d < b)
          ∧ ∀ j dj, l !! j = Some (Some dj) → d ≤ dj ∧ ((j < q)%nat → d < dj)).
Proof.
  revert i best. induction l as [|[x|] l IH]; intros i best Hres; simpl in Hres.
  - left. split; [done|]. intros j dj Hj. by rewrite lookup_nil in Hj.
  - assert (∃ best', idxmin_from (S i) best' l = Some (k, d)
              ∧ ((best' = best ∧ ∃ kb b, best = Some (kb, b) ∧ b ≤ x)
                 ∨ (best' = Some (i, x) ∧ ∀ kb b, best = Some (kb, b) → x < b)))
      as (best' & Hres' & Hbest').
    { destruct best as [[kb b]|]; [case_decide|]; eexists; (split; [exact Hres|]).
      - right. split; [done|]. by intros ?? [= <- <-].
      - left. split; [done|]. exists kb, b. split; [done|lia].
      - right. split; [done|]. by intros. }
    destruct (IH _ _ Hres') as [[-> Hmin]|(q & -> & Hq & Hlt & Hmin)].
    + destruct Hbest' as [[<- (kb & b & [= -> ->] & ?)]|[[= -> ->] Hlt]].
      * left. split; [done|]. intros [|j] dj Hj; simplify_eq/=; [lia|by eapply Hmin].
      * right. exists 0%nat. split; [lia|]. split; [done|]. split; [done|].
        intros [|j] dj Hj; simplify_eq/=; [lia|]. split; [by eapply Hmin|lia].
    + right. exists (S q). split; [lia|]. split; [done|].
      destruct Hbest' as [[-> (kb & b & -> & ?)]|[-> Hx]].
      * split; [done|]. intros [|j] dj Hj; simplify_eq/=.
        -- specialize (Hlt _ _ eq_refl). lia.
        -- destruct (Hmin _ _ Hj) as [? Hbefore]. split; [done|]. intros ?.
           apply Hbefore. lia.
      * specialize (Hlt _ _ eq_refl). split; [intros kb b Hb; specialize (Hx _ _ Hb); lia|].
        intros [|j] dj Hj; simplify_eq/=; [lia|].
        destruct (Hmin _ _ Hj) as [? Hbefore]. split; [done|]. intros ?.
        apply Hbefore. lia.
  - destruct (IH _ _ Hres) as [[-> Hmin]|(q & -> & Hq & Hlt & Hmin)].
    + left. split; [done|]. intros [|j] dj Hj; simplify_eq/=. by eapply Hmin.
    + right. exists (S q). split; [lia|]. split; [done|]. split; [done|].
      intros [|j] dj Hj; simplify_eq/=. destruct (Hmin _ _ Hj) as [? Hbefore].
      split; [done|]. intros ?. apply Hbefore. lia.
Qed.

Lemma idxmin_from_None i best l :
  idxmin_from i best l = None → best = None ∧ Forall (λ x, x = None) l.
Proof.
  revert i best. induction l as [|[x|] l IH]; intros i best Hres; simpl in Hres.
  - by split.
  - destruct best as [[kb b]|]; [case_decide|]; by apply IH in Hres as [? _].
  - apply IH in Hres as [? ?]. split; [done|]. by constructor.
Qed.

(** [idxmin] picks the first of the smallest values. *)
Lemma idxmin_Ok l i :
  idxmin l = Ok i →
  ∃ d, l !! i = Some (Some d)
       ∧ ∀ j dj, l !! j = Some (Some dj) → d ≤ dj ∧ ((j < i)%nat → d < dj).
Proof.
  unfold idxmin. destruct (idxmin_from 0 None l) as [[k d]|] eqn:Hres; [|done].
  intros [= ->]. apply idxmin_from_Some in Hres as [[? _]|(q & -> & ? & _ & ?)]; [done|].
  by exists d.
Qed.

(** [idxmin] raises only when there is no value at all. *)
Lemma idxmin_Raise l e : idxmin l = Raise e → e = EmptyArgmin ∧ Forall (λ x, x = None) l.
Proof.
  unfold idxmin. destruct (idxmin_from 0 None l) as [[k d]|] eqn:Hres; [done|].
  intros [= <-]. by apply idxmin_from_None in Hres as [_ ?].
Qed.
End nearest.

Section find_closest.
Import Pandas.

Lemma to_datetime_rendered t :
  to_datetime TimeText.strptime_hms (Text (TimeText.strftime_hms t))
  = Ok (Stamp (t mod 86400)).
Proof.
  simpl. rewrite decide_False by apply strftime_hms_not_missing.
  by rewrite strptime_hms_strftime.
Qed.

Lemma to_datetime_weather_cell c :
  weather_cell c →
  to_datetime TimeText.strptime_hms c = Ok (to_stamp c)
  ∧ (to_stamp c = NaN ∨ ∃ t, to_stamp c = Stamp t).
Proof.
  unfold to_stamp. intros [->|[[t ->]|[t ->]]].
  - simpl. auto.
  - rewrite to_datetime_rendered. eauto.
  - simpl. eauto.
Qed.

Lemma time_of_to_stamp c : weather_cell c → time_of (to_stamp c) = time_of c.
Proof.
  intros Hc. unfold time_of at 2.
  destruct (to_datetime_weather_cell c Hc) as [-> [->|[t ->]]]; done.
Qed.

Lemma abs_diff_to_stamp c t :
  weather_cell c →
  abs_diff (to_stamp c) (Stamp t) = (λ ti, Z.abs (ti - t)) <$> time_of c.
Proof.
  intros Hc. unfold time_of.
  destruct (to_datetime_weather_cell c Hc) as [-> [->|[ti ->]]]; done.
Qed.

(** The assignment [df['Timestamp'] = pd.to_datetime(df['Timestamp'], ...)]
    on a weather table raises nothing. *)
Lemma traverse_to_datetime p rs :
  Forall (λ r, weather_cell (cell_at p r)) rs →
  traverse (λ r, c ← to_datetime TimeText.strptime_hms (cell_at p r); Ok (<[p := c]> r)) rs
  = Ok ((λ r, <[p := to_stamp (cell_at p r)]> r) <$> rs).
Proof.
  induction 1 as [|r rs Hr _ IH]; [done|]. simpl.
  destruct (to_datetime_weather_cell _ Hr) as [-> _]. simpl. by rewrite IH.
Qed.

Lemma cell_at_converted p r :
  weather_cell (cell_at p r) →
  cell_at p (<[p := to_stamp (cell_at p r)]> r) = to_stamp (cell_at p r).
Proof.
  intros Hc. rewrite cell_at_insert. case_decide; [done|].
  by rewrite cell_at_beyond by lia.
Qed.

Lemma weather_table_converted p df : weather_table p df → weather_table p (converted p df).
Proof.
  intros [Hp Hrows]. split; [done|]. simpl. apply Forall_fmap.
  eapply Forall_impl; [done|]. intros r Hr. simpl. rewrite cell_at_converted by done.
  destruct (to_datetime_weather_cell _ Hr) as [_ [->|[t ->]]]; [by left|right; right; eauto].
Qed.

Lemma reading_times_converted p df :
  weather_table p df → reading_times p (converted p df) = reading_times p df.
Proof.
  intros [_ Hrows]. unfold reading_times. simpl. rewrite <-list_fmap_compose.
  apply Forall_fmap_ext_1. eapply Forall_impl; [done|]. intros r Hr. simpl.
  rewrite cell_at_converted by done. by apply time_of_to_stamp.
Qed.

(** The differences [find_closest] takes the least of. *)
Lemma time_diff_converted p df t :
  weather_table p df →
  (λ r, abs_diff (cell_at p r) (Stamp t)) <$> rows (converted p df)
  = fmap (λ ti, Z.abs (ti - t)) <$> reading_times p df.
Proof.
  intros [_ Hrows]. unfold reading_times. simpl. rewrite <-!list_fmap_compose.
  apply Forall_fmap_ext_1. eapply Forall_impl; [done|]. intros r Hr. simpl.
  rewrite cell_at_converted by done. by apply abs_diff_to_stamp.
Qed.

(** [find_closest] on a weather table, for a row whose time reads as
    [row_time]: the table is left with its times converted. *)
Lemma find_closest_weather p df row c row_time :
  weather_table p df →
  series_get "Timestamp" row = Ok c →
  to_datetime TimeText.strptime_hms c = Ok row_time →
  find_closest row df
  = (converted p df,
     idxmin ((λ r, abs_diff (cell_at p r) row_time) <$> rows (converted p df))
       ≫= λ i, loc i (converted p df)).
Proof.
  intros [Hp Hrows] Hc Ht. unfold find_closest. rewrite Hc. simpl. rewrite Ht, Hp. simpl.
  by rewrite traverse_to_datetime.
Qed.

Lemma query_time_Some row t :
  query_time row = Some t →
  ∃ c, series_get "Timestamp" row = Ok c
       ∧ to_datetime TimeText.strptime_hms c = Ok (Stamp t).
Proof.
  unfold query_time, time_of. destruct (series_get _ _) as [c|]; [|done].
  destruct (to_datetime _ c) as [[| |]|] eqn:Hc; try done. intros [= ->]. by exists c.
Qed.

Lemma lookup_fmap_Some_Some {A B} (f : A → B) (l : list (option A)) i y :
  (fmap (M:=option) f <$> l) !! i = Some (Some y) ↔ ∃ x, l !! i = Some (Some x) ∧ y = f x.
Proof.
  rewrite list_lookup_fmap. destruct (l !! i) as [[x|]|]; simpl; naive_solver.
Qed.

(** The outcome of a lookup that finds a time in the table. *)
Lemma find_closest_found p df row t :
  weather_table p df →
  query_time row = Some t →
  Exists is_Some (reading_times p df) →
  ∃ i r, find_closest row df = (converted p df, Ok (mkSeries (columns df) r))
         ∧ rows (converted p df) !! i = Some r
         ∧ nearest_first (reading_times p df) t i.
Proof.
  intros Hw (c & Hc & Ht)%query_time_Some Hsome.
  rewrite (find_closest_weather p df row c (Stamp t)) by done.
  rewrite time_diff_converted by done.
  destruct (idxmin _) as [i|e] eqn:Hmin.
  - apply idxmin_Ok in Hmin as (d & (ti & Hi & ->)%lookup_fmap_Some_Some & Hleast).
    assert (is_Some (rows (converted p df) !! i)) as [r Hr].
    { apply lookup_lt_is_Some. simpl. rewrite length_fmap.
      apply lookup_lt_Some in Hi. unfold reading_times in Hi. by rewrite length_fmap in Hi. }
    exists i, r. simpl. unfold loc. rewrite Hr. split; [done|]. split; [done|].
    exists ti. split; [done|]. intros j tj Hj. apply Hleast.
    apply lookup_fmap_Some_Some. eauto.
  - apply idxmin_Raise in Hmin as [_ Hnone]. exfalso.
    apply Exists_exists in Hsome as (x & Hx & [ti ->]).
    apply list_elem_of_lookup in Hx as [j Hj].
    rewrite Forall_lookup in Hnone.
    by specialize (Hnone j (Some (Z.abs (ti - t)))
                     (proj2 (lookup_fmap_Some_Some _ _ _ _) (ex_intro _ ti (conj Hj eq_refl)))).
Qed.

(** The outcome of a lookup in a table that has no time. *)
Lemma find_closest_not_found p df row t :
  weather_table p df →
  query_time row = Some t →
  Forall (λ x, x = None) (reading_times p df) →
  find_closest row df = (converted p df, Raise EmptyArgmin).
Proof.
  intros Hw (c & Hc & Ht)%query_time_Some Hnone.
  rewrite (find_closest_weather p df row c (Stamp t)) by done.
  rewrite time_diff_converted by done.
  destruct (idxmin _) as [i|e] eqn:Hmin.
  - apply idxmin_Ok in Hmin as (d & (ti & Hi & ->)%lookup_fmap_Some_Some & _).
    rewrite Forall_lookup in Hnone. by specialize (Hnone _ _ Hi).
  - by apply idxmin_Raise in Hmin as [-> _].
Qed.
End find_closest.

(** ** Weather tables made ready *)

Section weather_tables.
Import Pandas.

Lemma weather_table_rendered parse p cols rs :
  column_position "Timestamp" cols = Ok p →
  weather_table p (mkDataFrame cols (render_row parse p <$> rs)).
Proof.
  intros Hp. split; [done|]. simpl. apply Forall_fmap, Forall_true. intros r. simpl.
  destruct (render_row_rendered parse p r) as [->|?]; [by left|right; by left].
Qed.

Lemma select_kestrel_csv rs :
  select (kestrel_names ++ drop 4 kestrel_csv_columns) (mkDataFrame kestrel_csv_columns rs)
  = Ok (mkDataFrame kestrel_csv_columns ((λ r, (λ p, cell_at p r) <$> seq 0 15) <$> rs)).
Proof. reflexivity. Qed.

(** What [read_file] returns for a weather log is a weather table. *)
Lemma normalize_weather_table container raw df :
  normalize Weather container raw = Ok df → ∃ p, weather_table p df.
Proof.
  destruct container; simpl.
  - unfold read_file_kestrel_xlsx.
    intros (c0 & _ & (c1 & _ & (c2 & _ & (c3 & _ & H)%bind_Ok_inv)%bind_Ok_inv)
              %bind_Ok_inv)%bind_Ok_inv.
    apply bind_Ok_inv in H as (df1 & _ & (p & Hp & ->)%reformat_timestamp_Ok).
    exists p. by apply weather_table_rendered.
  - unfold read_file_kestrel_csv.
    intros (df0 & Hset & (df1 & Href & Hsel)%bind_Ok_inv)%bind_Ok_inv.
    unfold set_columns in Hset. case_decide; simplify_eq.
    apply reformat_timestamp_Ok in Href as (p & Hp & ->). simpl in *.
    rewrite select_kestrel_csv in Hsel. injection Hsel as <-.
    injection Hp as <-. exists 0%nat. split; [done|]. simpl.
    apply Forall_fmap, Forall_fmap, Forall_true. intros r. simpl.
    change (cell_at 0 (cell_at 0 (render_row TimeText.strptime_kestrel 0 r) :: _))
      with (cell_at 0 (render_row TimeText.strptime_kestrel 0 r)).
    destruct (render_row_rendered TimeText.strptime_kestrel 0 r) as [->|?];
      [by left|right; by left].
Qed.
End weather_tables.

(** ** The sample tables *)

Lemma normalize_weather_raw_unparsed :
  normalize Weather Delimited weather_raw_unparsed = Ok weather_unparsed.
Proof. vm_compute. reflexivity. Qed.

Lemma normalize_weather_raw_two :
  normalize Weather Delimited weather_raw_two = Ok weather_two.
Proof. vm_compute. reflexivity. Qed.

Lemma normalize_weather_raw_three :
  normalize Weather Delimited weather_raw_three = Ok weather_three.
Proof. vm_compute. reflexivity. Qed.

Lemma weather_three_table : weather_table 0 weather_three.
Proof.
  split; [reflexivity|]. repeat (apply Forall_cons_2); [..|apply Forall_nil_2].
  - by left.
  - right. left. by exists 36000.
  - right. left. by exists 36010.
Defined.

Lemma weather_two_table : weather_table 0 weather_two.
Proof.
  split; [reflexivity|]. repeat (apply Forall_cons_2); [..|apply Forall_nil_2].
  - right. left. by exists 36000.
  - right. left. by exists 36010.
Defined.

(** Scenario A: readings at 10:00:00 and 10:00:10; a shot at 10:00:04 gets
    the first (4 seconds against 6). *)
Example find_closest_scenario_A :
  (find_closest (shot "1" "10:00:04") weather_two).2
  = Ok (mkSeries kestrel_csv_columns (weather_row (Stamp 36000) (Text "21.5"))).
Proof. vm_compute. reflexivity. Qed.

(** Scenario B: a shot at 10:00:05 is as far from both and gets the first. *)
Example find_closest_scenario_B :
  (find_closest (shot "2" "10:00:05") weather_two).2
  = Ok (mkSeries kestrel_csv_columns (weather_row (Stamp 36000) (Text "21.5"))).
Proof. vm_compute. reflexivity. Qed.

(** No wrap at midnight: five seconds after midnight, a reading at 23:59:59
    is 86394 seconds away, and the one at 00:10:00 is taken. *)
Example find_closest_no_wraparound :
  (find_closest (shot "1" "00:00:05")
     (mkDataFrame kestrel_csv_columns
        [weather_row (Text "23:59:59") (Text "20.0");
         weather_row (Text "00:10:00") (Text "19.0")])).2
  = Ok (mkSeries kestrel_csv_columns (weather_row (Stamp 600) (Text "19.0"))).
Proof. vm_compute. reflexivity. Qed.

(** ** The claims on [find_closest] *)

(** C1 (as amended).  For every weather table [W] that has at least one
    reading with a time, and every query time [t], [find_closest] returns the
    reading of [W] (its time now held as a datetime) whose time is nearest to
    [t] in plain seconds of the clock, readings without a time left aside;
    among readings as near, it is the one at the lowest position. *)
Theorem find_closest_nearest p W row t :
  weather_table p W →
  query_time row = Some t →
  Exists is_Some (reading_times p W) →
  ∃ i r, rows W !! i = Some r
         ∧ (find_closest row W).2
           = Ok (mkSeries (columns W) (<[p := to_stamp (cell_at p r)]> r))
         ∧ nearest_first (reading_times p W) t i.
Proof.
  intros Hw Ht Hsome.
  destruct (find_closest_found p W row t Hw Ht Hsome) as (i & r' & -> & Hr' & Hnear).
  simpl in Hr'. rewrite list_lookup_fmap in Hr'.
  destruct (rows W !! i) as [r|] eqn:Hr; simplify_eq/=. by exists i, r.
Qed.

Lemma find_closest_nearest_witness :
  ∃ i r, rows weather_three !! i = Some r
         ∧ (find_closest (shot "2" "10:00:05") weather_three).2
           = Ok (mkSeries (columns weather_three) (<[0%nat := to_stamp (cell_at 0 r)]> r))
         ∧ nearest_first (reading_times 0 weather_three) 36005 i.
Proof.
  apply (find_closest_nearest 0 weather_three (shot "2" "10:00:05") 36005).
  - exact weather_three_table.
  - reflexivity.
  - apply Exists_cons_tl, Exists_cons_hd. by exists 36000.
Defined.

(** C1 fails as stated: a weather table that is not empty but whose only
    reading has no time gives no reading back; the lookup raises. *)
Lemma find_closest_nearest_counterexample :
  normalize Weather Delimited weather_raw_unparsed = Ok weather_unparsed
  ∧ rows weather_unparsed ≠ []
  ∧ (find_closest (shot "1" "10:00:04") weather_unparsed).2 = Raise EmptyArgmin.
Proof. split; [vm_compute; reflexivity|]. split; [done|]. vm_compute. reflexivity. Qed.

(** C9.  In a weather table with at least one reading whose time parsed, the
    lookup returns a reading of the table that has a time: the rows left
    without one are passed over. *)
Theorem find_closest_skips_missing p W row t :
  weather_table p W →
  query_time row = Some t →
  Exists is_Some (reading_times p W) →
  ∃ i r ti, rows W !! i = Some r
            ∧ time_of (cell_at p r) = Some ti
            ∧ (find_closest row W).2 = Ok (mkSeries (columns W) (<[p := Stamp ti]> r)).
Proof.
  intros Hw Ht Hsome.
  destruct (find_closest_found p W row t Hw Ht Hsome) as (i & r' & -> & Hr' & ti & Hti & _).
  simpl in Hr'. rewrite list_lookup_fmap in Hr'.
  unfold reading_times in Hti. rewrite list_lookup_fmap in Hti.
  destruct (rows W !! i) as [r|] eqn:Hr; [|done].
  injection Hr' as <-. injection Hti as Hti.
  exists i, r, ti. split; [done|]. split; [done|].
  unfold to_stamp. unfold time_of in Hti.
  by destruct (Pandas.to_datetime _ _) as [[]|]; simplify_eq.
Qed.

Lemma find_closest_skips_missing_witness :
  ∃ i r ti, rows weather_three !! i = Some r
            ∧ time_of (cell_at 0 r) = Some ti
            ∧ (find_closest (shot "1" "10:00:04") weather_three).2
              = Ok (mkSeries (columns weather_three) (<[0%nat := Stamp ti]> r)).
Proof.
  apply (find_closest_skips_missing 0 weather_three (shot "1" "10:00:04") 36004).
  - exact weather_three_table.
  - reflexivity.
  - apply Exists_cons_tl, Exists_cons_hd. by exists 36000.
Defined.

(** ** One session aligned *)

Section alignment.
Import Pandas.

Lemma to_stamp_idemp c : weather_cell c → to_stamp (to_stamp c) = to_stamp c.
Proof. intros Hc. by destruct (to_datetime_weather_cell c Hc) as [_ [->|[t ->]]]. Qed.

(** A second conversion of the weather table changes nothing. *)
Lemma converted_idemp p k : weather_table p k → converted p (converted p k) = converted p k.
Proof.
  intros [_ Hrows]. unfold converted. simpl. f_equal. rewrite <-list_fmap_compose.
  apply Forall_fmap_ext_1. eapply Forall_impl; [done|]. intros r Hr. simpl.
  rewrite cell_at_converted, to_stamp_idemp by done. apply list_insert_insert_eq.
Qed.

Lemma times_cases (l : list (option Z)) : Exists is_Some l ∨ Forall (λ x, x = None) l.
Proof.
  induction l as [|[t|] l [IH|IH]]; auto using Forall_nil_2, Exists_cons_tl, Forall_cons_2.
  all: left; apply Exists_cons_hd; eauto.
Qed.

Lemma query_time_ready cols r :
  column_position "Timestamp" cols = Ok 5%nat →
  rendered (cell_at 5 r) →
  ∃ t, query_time (mkSeries cols r) = Some t.
Proof.
  intros Hp [t Ht]. exists (t mod 86400). unfold query_time, series_get. simpl.
  rewrite Hp. simpl. rewrite Ht. unfold time_of. by rewrite to_datetime_rendered.
Qed.

(** The rows of a ready session looked up in turn, in a table that has a
    time: every row gets a reading. *)
Lemma apply_rows_found p k cols rs :
  weather_table p k →
  Exists is_Some (reading_times p k) →
  column_position "Timestamp" cols = Ok 5%nat →
  Forall (λ r, rendered (cell_at 5 r)) rs →
  ∃ ss, apply_rows cols rs k = (match rs with [] => k | _ => converted p k end, Ok ss)
        ∧ length ss = length rs
        ∧ Forall (λ s, index s = columns k) ss.
Proof.
  intros Hw Hsome Hcols Hrs. revert k Hw Hsome.
  induction Hrs as [|r rs Hr Hrs IH]; intros k Hw Hsome; [by exists []|].
  destruct (query_time_ready cols r Hcols Hr) as [t Ht].
  destruct (find_closest_found p k _ t Hw Ht Hsome) as (i & r' & Hfc & _ & _).
  destruct (IH (converted p k)) as (ss & Hss & Hlen & Hidx).
  { by apply weather_table_converted. }
  { by rewrite reading_times_converted. }
  simpl. rewrite Hfc, Hss. exists (mkSeries (columns k) r' :: ss). split; [|split].
  - destruct rs; [done|]. by rewrite converted_idemp.
  - simpl. by rewrite Hlen.
  - by constructor.
Qed.

(** The same in a table that has no time: the first lookup raises. *)
Lemma apply_rows_not_found p k cols r rs :
  weather_table p k →
  Forall (λ x, x = None) (reading_times p k) →
  column_position "Timestamp" cols = Ok 5%nat →
  rendered (cell_at 5 r) →
  apply_rows cols (r :: rs) k = (converted p k, Raise EmptyArgmin).
Proof.
  intros Hw Hnone Hcols Hr. destruct (query_time_ready cols r Hcols Hr) as [t Ht].
  simpl. by rewrite (find_closest_not_found p k _ t).
Qed.

Lemma cell_at_replicate p n : cell_at p (replicate n NaN) = NaN.
Proof.
  unfold cell_at. destruct (replicate n NaN !! p) as [c|] eqn:Hc; [|done].
  by apply lookup_replicate in Hc as [-> _].
Qed.

(** The call [apply] makes on a row of missing values when the session has
    no row. *)
Lemma find_closest_probe p k cols n :
  weather_table p k →
  column_position "Timestamp" cols = Ok 5%nat →
  (find_closest (mkSeries cols (replicate n NaN)) k).1 = converted p k.
Proof.
  intros Hw Hcols.
  rewrite (find_closest_weather p k _ NaN NaN); [done|done| |done].
  unfold series_get. simpl. rewrite Hcols. simpl. by rewrite cell_at_replicate.
Qed.

Lemma index_head_values k ss :
  ss ≠ [] → Forall (λ s, index s = columns k) ss →
  default [] (index <$> head ss) = columns k.
Proof. intros ? Hss. destruct Hss; [done|]. done. Qed.

(** [process_garmin_sheet] on a session whose first lines go through, against
    a weather table. *)
Lemma process_garmin_sheet_ready name g g' u k p :
  process_garmin_sheet_timestamps g = (g', Ok u) →
  session_ready g' →
  weather_table p k →
  ∃ r, process_garmin_sheet name g k = (g', converted p k, r)
       ∧ (rows g' = [] → r = Ok (concat_columns g' g'))
       ∧ (rows g' ≠ [] → Exists is_Some (reading_times p k) →
          ∃ c, r = Ok c ∧ columns c = (columns g' ++ columns k)%list
               ∧ length (rows c) = length (rows g'))
       ∧ (rows g' ≠ [] → Forall (λ x, x = None) (reading_times p k) →
          r = Raise EmptyArgmin).
Proof.
  intros Hts [Hcols Hrows] Hw. unfold process_garmin_sheet. rewrite Hts.
  unfold apply_find_closest. destruct (rows g') as [|r0 rs0] eqn:Hg'.
  - rewrite (find_closest_probe p) by done. eexists. split; [done|]. by repeat split.
  - destruct (times_cases (reading_times p k)) as [Hsome|Hnone].
    + destruct (apply_rows_found p k (columns g') (r0 :: rs0) Hw Hsome Hcols Hrows)
        as (ss & -> & Hlen & Hidx).
      assert (ss ≠ []) as Hss by (by intros ->).
      eexists. split; [done|]. split; [done|]. split.
      * intros _ _. eexists. split; [done|]. simpl. split.
        -- by rewrite (index_head_values k).
        -- rewrite length_zip_with, length_fmap, Hlen, Hg'. simpl. lia.
      * intros _ Hnone. exfalso. apply Exists_exists in Hsome as (x & Hx & [t ->]).
        rewrite Forall_forall in Hnone. by specialize (Hnone _ Hx).
    + apply Forall_cons in Hrows as [Hr0 _].
      rewrite (apply_rows_not_found p) by done. eexists. split; [done|].
      split; [done|]. split; [|done].
      intros _ Hsome. exfalso. apply Exists_exists in Hsome as (x & Hx & [t ->]).
      rewrite Forall_forall in Hnone. by specialize (Hnone _ Hx).
Qed.
End alignment.

(** ** What [read_file] returns *)

Section reading.
Import Pandas.

Lemma for_sheets_Ok f sheets df_dict :
  for_sheets f sheets = Ok df_dict →
  Forall2 (λ a b, b.1 = a.1 ∧ f a.2 = Ok b.2) sheets df_dict.
Proof.
  unfold for_sheets. revert df_dict.
  induction sheets as [|[n df] sheets IH]; intros df_dict; simpl.
  - intros [= <-]. constructor.
  - intros (b & (df' & Hdf & [= <-])%bind_Ok_inv
              & (rest & Hrest & [= <-])%bind_Ok_inv)%bind_Ok_inv.
    constructor; [done|]. by apply IH.
Qed.

Lemma usecols_shape n df df' : usecols n df = Ok df' → shape1 df' = n.
Proof.
  unfold usecols. case_decide; [|done]. intros [= <-]. unfold shape1 in *. simpl.
  rewrite length_take. lia.
Qed.

Lemma read_file_garmin_sheet_shape df df' :
  read_file_garmin_sheet df = Ok df' → shape1 df' = shape1 df.
Proof.
  unfold read_file_garmin_sheet.
  intros (l & _ & (p & _ & ->)%reformat_timestamp_Ok)%bind_Ok_inv.
  unfold shape1, rename. simpl. by rewrite length_fmap.
Qed.

Lemma read_file_garmin_sheet_session_read df df' :
  read_file_garmin_sheet df = Ok df' → session_read df'.
Proof.
  intros [Hp Hrows]%read_file_garmin_sheet_Ok. split; [done|].
  rewrite Hrows. apply Forall_fmap, Forall_true. intros r. apply render_row_rendered.
Qed.

(** The weather table of a run. *)
Lemma read_file_kestrel files file_path r :
  read_file files file_path true = Ok r →
  ∃ container raw kestrel_df,
    r = Frame kestrel_df ∧ normalize Weather container raw = Ok kestrel_df
    ∧ (container = Spreadsheet ∨ Path.endswith file_path ".csv" = true).
Proof.
  unfold read_file. destruct (Path.endswith file_path ".xlsx").
  - intros (sheets & _ & (df0 & _ & (df & _ & (k & Hk & ->)%fmap_Ok_inv)%bind_Ok_inv)
              %bind_Ok_inv)%bind_Ok_inv.
    exists Spreadsheet, df, k. auto.
  - destruct (Path.endswith file_path ".csv"); [|done].
    intros (df & _ & (k & Hk & ->)%fmap_Ok_inv)%bind_Ok_inv.
    exists Delimited, df, k. auto.
Qed.

(** The session tables of a run read from a spreadsheet. *)
Lemma read_file_garmin_sheets files file_path df_dict :
  read_file files file_path false = Ok (Sheets df_dict) →
  df_dict ≠ [] ∧ Forall (λ sd, session_read sd.2 ∧ shape1 sd.2 = 9%nat) df_dict.
Proof.
  unfold read_file. destruct (Path.endswith file_path ".xlsx").
  - intros (sheets0 & _ & (sheets & Hall & (d1 & Hd1%for_sheets_Ok
              & (d2 & Hd2%for_sheets_Ok & [= <-])%bind_Ok_inv)%bind_Ok_inv)
              %bind_Ok_inv)%bind_Ok_inv.
    split.
    + intros ->. apply Forall2_nil_inv_r in Hd2 as ->.
      apply Forall2_nil_inv_r in Hd1 as ->. by destruct sheets0.
    + clear Hall. revert sheets Hd1. induction Hd2 as [|a b d1 d2 [_ Hab] _ IH];
        intros sheets Hd1; [constructor|].
      apply Forall2_cons_inv_r in Hd1 as (s0 & sheets' & [_ Hs0] & Hd1 & ->).
      constructor; [|by eapply IH]. split.
      * by eapply read_file_garmin_sheet_session_read.
      * apply read_file_garmin_sheet_shape in Hab. apply usecols_shape in Hs0. congruence.
  - destruct (Path.endswith file_path ".csv"); [|done].
    by intros (? & _ & (? & _ & (? & _ & ?)%fmap_Ok_inv)%bind_Ok_inv)%bind_Ok_inv.
Qed.

(** The session table of a run read from a delimited text. *)
Lemma read_file_garmin_frame files file_path df :
  read_file files file_path false = Ok (Frame df) →
  Path.endswith file_path ".xlsx" = false
  ∧ Path.endswith file_path ".csv" = true
  ∧ shape1 df = 9%nat
  ∧ ∃ raw, reformat_timestamp TimeText.strptime_hms raw = Ok df.
Proof.
  unfold read_file. destruct (Path.endswith file_path ".xlsx").
  - by intros (? & _ & (? & _ & (? & _ & (? & _ & ?)%bind_Ok_inv)%bind_Ok_inv)
              %bind_Ok_inv)%bind_Ok_inv.
  - destruct (Path.endswith file_path ".csv"); [|done].
    intros (raw0 & _ & (raw & Hcols%usecols_shape & (df' & Hdf & [= <-])%fmap_Ok_inv)
              %bind_Ok_inv)%bind_Ok_inv.
    split; [done|]. split; [done|]. split; [|by exists raw].
    apply reformat_timestamp_Ok in Hdf as (p & _ & ->). done.
Qed.

(** A delimited text gives one table, never a dict of sheets. *)
Lemma read_file_csv_frame files file_path is_kestrel r :
  Path.endswith file_path ".xlsx" = false →
  read_file files file_path is_kestrel = Ok r →
  ∃ df, r = Frame df.
Proof.
  unfold read_file. intros ->. destruct (Path.endswith file_path ".csv"); [|done].
  destruct is_kestrel.
  - intros (? & _ & (? & _ & ->)%fmap_Ok_inv)%bind_Ok_inv. eauto.
  - intros (? & _ & (? & _ & (? & _ & ->)%fmap_Ok_inv)%bind_Ok_inv)%bind_Ok_inv. eauto.
Qed.
End reading.

(** ** All sessions aligned *)

Section sessions.
Import Pandas.

Lemma times_not_both (l : list (option Z)) :
  Exists is_Some l → Forall (λ x, x = None) l → False.
Proof.
  intros (x & Hx & [t ->])%Exists_exists Hnone.
  rewrite Forall_forall in Hnone. by specialize (Hnone _ Hx).
Qed.

Lemma process_garmin_sheet_timestamps_shape g g' u :
  process_garmin_sheet_timestamps g = (g', Ok u) → shape1 g' = shape1 g.
Proof.
  intros ((l & _ & Hcols) & _)%process_garmin_sheet_timestamps_Ok.
  unfold shape1. rewrite Hcols. unfold rename. simpl. by rewrite length_fmap.
Qed.

(** The outcome of [process_garmin_sheet] once its first lines have gone
    through: a combined table as wide as the session and the weather table
    together (or twice the session, when the session has no row), or the
    exception of a lookup that found no time. *)
Lemma process_garmin_sheet_outcome name g g' u k p :
  process_garmin_sheet_timestamps g = (g', Ok u) →
  session_ready g' →
  weather_table p k →
  ∃ r, process_garmin_sheet name g k = (g', converted p k, r)
       ∧ match r with
         | Ok c =>
             shape1 c = (shape1 g + (if rows g' is [] then shape1 g else shape1 k))%nat
             ∧ length (rows c) = length (rows g')
             ∧ (rows g' = [] ∨ Exists is_Some (reading_times p k))
         | Raise e =>
             e = EmptyArgmin ∧ rows g' ≠ []
             ∧ Forall (λ x, x = None) (reading_times p k)
         end.
Proof.
  intros Hts Hready Hw.
  pose proof (process_garmin_sheet_timestamps_shape _ _ _ Hts) as Hshape.
  destruct (process_garmin_sheet_ready name g g' u k p Hts Hready Hw)
    as (r & Hr & Hempty & Hfound & Hnot).
  exists r. split; [done|]. destruct (rows g') as [|r0 rs0] eqn:Hg'.
  - rewrite Hempty by done. unfold shape1 in *. simpl.
    rewrite length_app, Hshape, Hg'. auto.
  - destruct (times_cases (reading_times p k)) as [Hsome|Hnone].
    + destruct Hfound as (c & -> & Hcols & Hlen); [done..|].
      unfold shape1 in *. rewrite Hcols, length_app, Hshape. auto.
    + rewrite Hnot by done. done.
Qed.

Lemma session_read_ready df :
  session_read df →
  session_ready (mkDataFrame (columns df) (filter (λ r, isna (cell_at 5 r) = false) (rows df))).
Proof. intros [Hp Hrows]. split; [done|]. by apply rows_ready_filter. Qed.

Lemma filter_nil_not_Exists {A} (P : A → Prop) `{!∀ x, Decision (P x)} (l : list A) :
  filter P l = [] ↔ ¬ Exists P l.
Proof.
  induction l as [|x l IH]; [rewrite Exists_nil; naive_solver|].
  rewrite filter_cons, Exists_cons. case_decide; [naive_solver|]. rewrite IH. tauto.
Qed.

(** The sheets of a spreadsheet aligned in turn. *)
Lemma align_sheets_outcome p df_dict k :
  weather_table p k →
  Forall (λ sd, session_read sd.2 ∧ shape1 sd.2 = 9%nat) df_dict →
  match (align_sheets df_dict k).2 with
  | Ok all =>
      all.*1 = df_dict.*1
      ∧ Forall (λ nc, shape1 nc.2 ≤ 9 + max 9 (shape1 k))%nat all
      ∧ (Exists is_Some (reading_times p k) ∨ ¬ has_shot (Sheets df_dict))
  | Raise e =>
      e = EmptyArgmin ∧ has_shot (Sheets df_dict)
      ∧ Forall (λ x, x = None) (reading_times p k)
  end.
Proof.
  intros Hw Hd. revert k Hw. unfold has_shot. simpl.
  induction Hd as [|[name g] d [Hread Hshape] _ IH]; intros k Hw; simpl in *.
  - split; [done|]. split; [done|]. right. by intros ?%Exists_nil.
  - pose proof (process_garmin_sheet_timestamps_read g Hread) as Hts.
    destruct (process_garmin_sheet_outcome name g _ _ k p Hts
                (session_read_ready g Hread) Hw) as (r & -> & Hr).
    simpl in Hr. destruct r as [c|e].
    + destruct Hr as (Hc & _ & Hcase).
      specialize (IH (converted p k) (weather_table_converted p k Hw)).
      rewrite reading_times_converted in IH by done.
      destruct (align_sheets d (converted p k)) as [k' [all|e]]; simpl in *.
      * destruct IH as (Hnames & Hwidths & Hcase'). split; [by f_equal|]. split.
        -- constructor; [|done]. simpl. rewrite Hc, Hshape. case_match; lia.
        -- destruct Hcase as [Hnil|?]; [|by left].
           destruct Hcase' as [?|Hno]; [by left|right].
           rewrite Exists_cons. intros [Hshot|?]; [|done].
           by apply filter_nil_not_Exists in Hnil.
      * destruct IH as (-> & Hshot & Hnone). split; [done|]. split; [|done].
        by apply Exists_cons_tl.
    + destruct Hr as (-> & Hrows & Hnone). split; [done|]. split; [|done].
      apply Exists_cons_hd. simpl.
      destruct (decide (Exists (λ r, isna (cell_at 5 r) = false) (rows g))) as [|Hno];
        [done|]. by rewrite <-filter_nil_not_Exists in Hno.
Qed.
End sessions.

(** ** A run *)

Section run.
Import Pandas.
Variables (files : Files) (paths : gset string) (kestrel_path garmin_path : string).

Local Abbreviation run := (process_files files paths kestrel_path garmin_path).
Local Abbreviation output_path :=
  (Path.join (Path.dirname kestrel_path) "Combined_Output.xlsx").

(** A path that ends in [.csv] does not end in [.xlsx]. *)
Lemma endswith_csv_not_xlsx p :
  Path.endswith p ".csv" = true → Path.endswith p ".xlsx" = false.
Proof.
  unfold Path.endswith. intros Hcsv%bool_decide_eq_true. apply bool_decide_eq_false.
  intros Hxlsx. set (l := Path.chars p) in *. simpl in *.
  assert (5 ≤ length l)%nat as Hlen.
  { apply (f_equal length) in Hxlsx. rewrite length_drop in Hxlsx. simpl in Hxlsx. lia. }
  apply (f_equal (drop 1)) in Hxlsx. rewrite drop_drop in Hxlsx.
  replace (length l - 5 + 1)%nat with (length l - 4)%nat in Hxlsx by lia.
  by rewrite Hcsv in Hxlsx.
Qed.

(** Tables of at most 24 columns are all written. *)
Lemma write_sheets_all all :
  Forall (λ nc, shape1 nc.2 ≤ 24)%nat all →
  ∃ written, write_sheets all = (written, None) ∧ written.*1 = all.*1.
Proof.
  induction 1 as [|[name c] all Hc _ (written & IH & Hnames)]; simpl; [by exists []|].
  unfold set_columns. rewrite decide_True.
  - rewrite IH. eexists. split; [done|]. csimpl. by rewrite Hnames.
  - rewrite length_take. change (length headers) with 24%nat. simpl in Hc. lia.
Qed.

(** The session of a delimited text aligned. *)
Lemma align_frame_outcome p df k all :
  weather_table p k →
  read_file files garmin_path false = Ok (Frame df) →
  align (Frame df) k = Ok all →
  ∃ c, all = [("Sheet1", c)] ∧ (shape1 c ≤ 9 + max 9 (shape1 k))%nat.
Proof.
  intros Hw (_ & _ & Hshape & raw & Hraw)%read_file_garmin_frame. unfold align.
  destruct (process_garmin_sheet_timestamps df) as [g' [u|e]] eqn:Hts.
  - assert (session_ready g') as Hready.
    { eapply (normalize_session_Ok Delimited raw). unfold normalize. rewrite Hraw. simpl.
      by rewrite Hts. }
    destruct (process_garmin_sheet_outcome "Sheet1" df g' u k p Hts Hready Hw)
      as (r & -> & Hr). simpl. destruct r as [c|]; [|done].
    intros [= <-]. exists c. split; [done|]. destruct Hr as (-> & _). case_match; lia.
  - unfold process_garmin_sheet. by rewrite Hts.
Qed.

(** Whatever is aligned keeps the names of its sessions and is at most
    [9 + max 9 n] wide, [n] being the width of the weather table. *)
Lemma align_outcome p g k all :
  weather_table p k →
  read_file files garmin_path false = Ok g →
  align g k = Ok all →
  all.*1 = sheet_names g ∧ Forall (λ nc, shape1 nc.2 ≤ 9 + max 9 (shape1 k))%nat all.
Proof.
  intros Hw Hread Hall. destruct g as [df|df_dict].
  - destruct (align_frame_outcome p df k all Hw Hread Hall) as (c & -> & Hc).
    split; [done|]. apply Forall_cons_2; [done|apply Forall_nil_2].
  - apply read_file_garmin_sheets in Hread as [_ Hd].
    pose proof (align_sheets_outcome p df_dict k Hw Hd) as Hout.
    simpl in Hall. rewrite Hall in Hout. by destruct Hout as (? & ? & _).
Qed.

(** A run that reports success has read both files, aligned every session
    and written every combined table. *)
Lemma process_files_Success out :
  notice run = Success out →
  ∃ kestrel_df garmin_sheets all written,
    read_file files kestrel_path true = Ok (Frame kestrel_df)
    ∧ read_file files garmin_path false = Ok garmin_sheets
    ∧ align garmin_sheets kestrel_df = Ok all
    ∧ generate_unique_filename paths output_path = Some out
    ∧ write_sheets all = (written, None)
    ∧ run = mkRun (Some (out, written)) ({[out]} ∪ paths) (Success out).
Proof.
  unfold process_files.
  destruct (read_file files kestrel_path true) as [[kdf|]|] eqn:Hk; simpl; [|done..].
  destruct (read_file files garmin_path false) as [g|] eqn:Hg; simpl; [|done].
  destruct (align g kdf) as [all|] eqn:Hall; [|done].
  destruct (generate_unique_filename paths _) as [out'|] eqn:Hout; [|done].
  destruct (write_sheets all) as [written [e|]] eqn:Hw; simpl; [done|].
  intros [= ->]. by exists kdf, g, all, written.
Qed.
End run.

(** ** The claims on a run *)

(** C7.  Every sheet written has for its header exactly the leading names of
    [headers], as many as the combined table has columns, and the rows of the
    combined table below it. *)
Theorem written_header_is_prefix all :
  Forall2 (λ a w, w.1 = a.1 ∧ rows w.2 = rows a.2
                  ∧ columns w.2 = take (shape1 a.2) headers
                  ∧ length (columns w.2) = shape1 a.2)
    (take (length (write_sheets all).1) all) (write_sheets all).1.
Proof.
  induction all as [|[name c] all IH]; simpl; [constructor|].
  unfold Pandas.set_columns. case_decide as Hlen; simpl; [|constructor].
  destruct (write_sheets all) as [written e]. simpl in *. by constructor.
Qed.

(** The weather table of a delimited text has the fifteen fixed columns. *)
Lemma read_file_kestrel_csv_columns raw df :
  read_file_kestrel_csv raw = Ok df → columns df = kestrel_csv_columns.
Proof.
  unfold read_file_kestrel_csv.
  intros (df0 & Hset & (df1 & Href & Hsel)%bind_Ok_inv)%bind_Ok_inv.
  unfold Pandas.set_columns in Hset. case_decide; simplify_eq.
  apply reformat_timestamp_Ok in Href as (p & Hp & ->). simpl in *.
  rewrite select_kestrel_csv in Hsel. by injection Hsel as <-.
Qed.

(** A run whose weather table has no more than the fifteen columns asked of
    the reader either reports an error, and then has created no file and left
    the paths as they were, or reports success, and then has created one
    file, at a path that did not exist, with one sheet per session, in order
    and under the session's name.  No file is created before every session
    is aligned. *)
Theorem process_files_atomic files paths kestrel_path garmin_path :
  (∀ kestrel_df, read_file files kestrel_path true = Ok (Frame kestrel_df) →
                 (shape1 kestrel_df ≤ 15)%nat) →
  (∃ e, process_files files paths kestrel_path garmin_path = mkRun None paths (Error e))
  ∨ (∃ garmin_sheets out written,
       read_file files garmin_path false = Ok garmin_sheets
       ∧ (out ∉ paths)
       ∧ written.*1 = sheet_names garmin_sheets
       ∧ process_files files paths kestrel_path garmin_path
         = mkRun (Some (out, written)) ({[out]} ∪ paths) (Success out)).
Proof.
  intros Hwidth. unfold process_files.
  destruct (read_file files kestrel_path true) as [kestrel|] eqn:Hk; simpl; [|eauto].
  destruct (read_file_kestrel _ _ _ Hk) as (container & raw & kdf & -> & Hnorm & _).
  destruct (read_file files garmin_path false) as [g|] eqn:Hg; simpl; [|eauto].
  destruct (normalize_weather_table _ _ _ Hnorm) as [p Hw].
  destruct (align g kdf) as [all|] eqn:Hall; [|eauto].
  destruct (align_outcome files garmin_path p g kdf all Hw Hg Hall) as [Hnames Hwidths].
  destruct (write_sheets_all all) as (written & -> & Hwritten).
  { eapply Forall_impl; [done|]. intros nc Hnc. simpl in Hnc.
    specialize (Hwidth kdf eq_refl). lia. }
  destruct (generate_unique_filename_total paths
              (Path.join (Path.dirname kestrel_path) "Combined_Output.xlsx"))
    as (out & -> & Hout).
  right. exists g, out, written. split; [done|]. split; [done|]. split; [congruence|done].
Qed.

Lemma process_files_atomic_witness :
  ∃ out written,
    process_files sample_files {["log/Combined_Output.xlsx"]} "log/kestrel.csv" "log/garmin.xlsx"
    = mkRun (Some (out, written)) ({[out]} ∪ {["log/Combined_Output.xlsx"]}) (Success out)
    ∧ written.*1 = ["Session 1"].
Proof.
  destruct (process_files_atomic sample_files {["log/Combined_Output.xlsx"]}
              "log/kestrel.csv" "log/garmin.xlsx") as [[e He]|(g & out & written & Hg & _ & Hn & Hrun)].
  - intros kdf Hk. vm_compute in Hk. injection Hk as <-. vm_compute. lia.
  - exfalso. apply (f_equal notice) in He. vm_compute in He. discriminate He.
  - exists out, written. split; [done|]. vm_compute in Hg. injection Hg as <-. done.
Defined.

(** C5, at the input where the code misses it: the weather sheet with the
    repeated heading gives a weather table of 17 columns where 15 were asked
    of the reader ([df[...]] takes both columns for each of the two mentions
    of [Temperature]) and a combined table of 26; the 24 headers do not fit,
    the assignment raises inside the writer block, and the run reports the
    error with the output file already created. *)
Lemma process_files_repeated_heading :
  notice (process_files sample_files ∅ "log/kestrel.xlsx" "log/garmin.xlsx")
  = Error (LengthMismatch 26 24)
  ∧ created (process_files sample_files ∅ "log/kestrel.xlsx" "log/garmin.xlsx")
    = Some ("log/Combined_Output.xlsx", [])
  ∧ "log/Combined_Output.xlsx"
    ∈ paths_after (process_files sample_files ∅ "log/kestrel.xlsx" "log/garmin.xlsx").
Proof.
  split; [vm_compute; reflexivity|]. split; [vm_compute; reflexivity|].
  assert (paths_after (process_files sample_files ∅ "log/kestrel.xlsx" "log/garmin.xlsx")
          = {["log/Combined_Output.xlsx"]} ∪ ∅) as -> by (vm_compute; reflexivity).
  set_solver.
Qed.

(** C2 (as amended).  When the weather table has no row, the lookup for a
    shot that has a time raises (the exception of [idxmin] on nothing, which
    is what the run reports), and a run in which some session has a shot with
    a time ends there: it reports the exception, creates no file and leaves
    the paths as they were. *)
Theorem empty_weather_aborts files paths kestrel_path garmin_path kestrel_df garmin_sheets :
  read_file files kestrel_path true = Ok (Frame kestrel_df) →
  rows kestrel_df = [] →
  read_file files garmin_path false = Ok garmin_sheets →
  Forall session_read (tables garmin_sheets) →
  has_shot garmin_sheets →
  (∀ row t, query_time row = Some t →
            (find_closest row kestrel_df).2 = Raise EmptyArgmin)
  ∧ process_files files paths kestrel_path garmin_path
    = mkRun None paths (Error EmptyArgmin).
Proof.
  intros Hk Hrows Hg Hread Hshot.
  destruct (read_file_kestrel _ _ _ Hk) as (container & raw & kdf & [= <-] & Hnorm & _).
  destruct (normalize_weather_table _ _ _ Hnorm) as [p Hw].
  assert (reading_times p kestrel_df = []) as Htimes
    by (unfold reading_times; by rewrite Hrows).
  assert (Forall (λ x : option Z, x = None) (reading_times p kestrel_df)) as Hnone
    by (rewrite Htimes; constructor).
  assert (¬ Exists is_Some (reading_times p kestrel_df)) as Hsome
    by (rewrite Htimes; by intros ?%Exists_nil).
  split.
  { intros row t Ht. by rewrite (find_closest_not_found p kestrel_df row t). }
  unfold process_files. rewrite Hk, Hg. simpl.
  enough (align garmin_sheets kestrel_df = Raise EmptyArgmin) as -> by done.
  destruct garmin_sheets as [df|df_dict]; unfold align.
  - apply Forall_cons in Hread as [Hdf _].
    pose proof (process_garmin_sheet_timestamps_read df Hdf) as Hts.
    destruct (process_garmin_sheet_outcome "Sheet1" df _ _ kestrel_df p Hts
                (session_read_ready df Hdf) Hw) as (r & -> & Hr).
    simpl in *. destruct r as [c|e]; [|by destruct Hr as (-> & _)].
    destruct Hr as (_ & _ & [Hnil|?]); [|done]. exfalso.
    apply filter_nil_not_Exists in Hnil. apply Hnil.
    unfold has_shot in Hshot. simpl in Hshot. by apply Exists_cons in Hshot as [?|?%Exists_nil].
  - apply read_file_garmin_sheets in Hg as [_ Hd].
    pose proof (align_sheets_outcome p df_dict kestrel_df Hw Hd) as Hout.
    destruct (align_sheets df_dict kestrel_df).2 as [all|e]; [|by destruct Hout as (-> & _)].
    by destruct Hout as (_ & _ & [?|?]).
Qed.

Lemma session_three_read : session_read session_three.
Proof.
  split; [reflexivity|]. repeat (apply Forall_cons_2); [..|apply Forall_nil_2].
  - right. by exists 36004.
  - right. by exists 36005.
  - by left.
Defined.

Lemma empty_weather_aborts_witness :
  process_files sample_files ∅ "log/empty.csv" "log/garmin.xlsx"
  = mkRun None ∅ (Error EmptyArgmin).
Proof.
  apply (empty_weather_aborts sample_files ∅ "log/empty.csv" "log/garmin.xlsx"
           (mkDataFrame kestrel_csv_columns []) (Sheets [("Session 1", session_three)])).
  - vm_compute. reflexivity.
  - reflexivity.
  - vm_compute. reflexivity.
  - apply Forall_cons_2; [exact session_three_read|apply Forall_nil_2].
  - apply Exists_cons_hd, Exists_cons_hd. reflexivity.
Defined.

(** C2 fails as stated: with a weather log that has no reading and a session
    whose one shot has no time, no lookup is made for a shot; the run reports
    success and creates the workbook, its one sheet without a row. *)
Lemma empty_weather_aborts_counterexample :
  read_file sample_files_untimed "log/empty.csv" true
  = Ok (Frame (mkDataFrame kestrel_csv_columns []))
  ∧ process_files sample_files_untimed ∅ "log/empty.csv" "log/garmin.xlsx"
    = mkRun (Some ("log/Combined_Output.xlsx",
                   [("Session 1", mkDataFrame (take 18 headers) [])]))
            ({["log/Combined_Output.xlsx"]} ∪ ∅)
            (Success "log/Combined_Output.xlsx").
Proof. split; vm_compute; reflexivity. Qed.



(** ** The tables after an alignment *)




(** ** The width of the weather table *)

Section weather_width.
Import Pandas.

Lemma length_positions_NoDup l cols : NoDup cols → (length (positions l cols) ≤ 1)%nat.
Proof.
  intros Hcols. pose proof (NoDup_positions_from 0 l cols) as Hnd.
  pose proof (elem_of_positions l cols) as Hin. fold (positions l cols) in Hnd.
  destruct (positions l cols) as [|p1 [|p2 ps]]; simpl; [lia..|]. exfalso.
  assert (p1 = p2) as ->.
  { eapply (NoDup_lookup cols); [done|apply Hin; left|apply Hin; right; left]. }
  apply NoDup_cons in Hnd as [Hnd _]. apply Hnd. left.
Qed.

(** A selection by labels from a table that repeats no label has one column
    per label. *)
Lemma select_shape labels df df' :
  NoDup (columns df) → select labels df = Ok df' → (shape1 df' ≤ length labels)%nat.
Proof.
  intros Hnd. unfold select.
  intros (pss & Hpss & [= <-])%bind_Ok_inv. unfold shape1. simpl. rewrite length_fmap.
  revert pss Hpss. induction labels as [|l labels IH]; intros pss; simpl.
  - intros [= <-]. simpl. lia.
  - intros (ps & Hps & (pss' & Hpss' & [= <-])%bind_Ok_inv)%bind_Ok_inv.
    simpl. rewrite length_app. specialize (IH _ Hpss').
    pose proof (length_positions_NoDup l (columns df) Hnd).
    destruct (positions l (columns df)); simplify_eq/=; lia.
Qed.

Lemma weather_csv_width raw df :
  normalize Weather Delimited raw = Ok df → shape1 df = 15%nat.
Proof. intros H%read_file_kestrel_csv_columns. unfold shape1. by rewrite H. Qed.

(** The weather table of a spreadsheet keeps to fifteen columns when the
    sheet repeats no label and has none of the four names past its first
    four columns. *)
Lemma weather_xlsx_width raw df :
  shape1 raw = 15%nat →
  NoDup (columns raw) →
  Forall (λ c, c ∉ kestrel_names) (drop 4 (columns raw)) →
  normalize Weather Spreadsheet raw = Ok df →
  (shape1 df ≤ 15)%nat.
Proof.
  intros Hshape Hnd Htail. unfold normalize, read_file_kestrel_xlsx.
  destruct raw as [cols rs]. unfold shape1 in Hshape. simpl in Hshape, Hnd, Htail.
  destruct cols as [|c0 [|c1 [|c2 [|c3 tail]]]]; try done.
  change (drop 4 (c0 :: c1 :: c2 :: c3 :: tail)) with tail in Htail.
  intros (? & [= <-] & (? & [= <-] & (? & [= <-] & (? & [= <-] & H)%bind_Ok_inv)
            %bind_Ok_inv)%bind_Ok_inv)%bind_Ok_inv.
  apply bind_Ok_inv in H as (df1 & Hsel & (p & _ & ->)%reformat_timestamp_Ok).
  apply NoDup_cons in Hnd as [H0 Hnd]. apply NoDup_cons in Hnd as [H1 Hnd].
  apply NoDup_cons in Hnd as [H2 Hnd]. apply NoDup_cons in Hnd as [H3 Hnd].
  set (d := [(c0, "Timestamp"); (c1, "Temperature");
             (c2, "Relative Humidity"); (c3, "Station Pressure")]) in *.
  assert (columns (rename d (mkDataFrame (c0 :: c1 :: c2 :: c3 :: tail) rs))
          = (kestrel_names ++ tail)%list) as Hcols.
  { unfold rename, kestrel_names. simpl.
    f_equal; [|f_equal; [|f_equal; [|f_equal]]];
      try (repeat case_decide; simplify_eq/=; try done; set_solver).
    rewrite <-(list_fmap_id tail) at 2. apply list_fmap_ext.
    intros i c Hc%list_elem_of_lookup_2. unfold id.
    repeat case_decide; simplify_eq/=; try done; set_solver. }
  apply select_shape in Hsel.
  - unfold shape1 in *. simpl. rewrite Hcols in Hsel.
    change (drop 4 (kestrel_names ++ tail)) with tail in Hsel.
    rewrite length_app in Hsel. simpl in Hsel, Hshape. lia.
  - rewrite Hcols. apply NoDup_app. split; [|split; [|done]].
    + unfold kestrel_names. repeat (apply NoDup_cons_2; [set_solver|]). apply NoDup_nil_2.
    + intros c Hc Hc'. rewrite Forall_forall in Htail. by eapply Htail.
Qed.
End weather_width.

(** * Further properties of the program *)

(** ** What [read_file] hands back *)

Section read_kind.
Import Pandas.

(** X1.  [read_file] returns a dict of tables exactly when it reads a session
    log that is a workbook; a weather log and a delimited text give one
    table. *)
Theorem read_file_dict_iff files file_path is_kestrel r :
  read_file files file_path is_kestrel = Ok r →
  (∃ df_dict, r = Sheets df_dict)
  ↔ is_kestrel = false ∧ Path.endswith file_path ".xlsx" = true.
Proof.
  intros Hr. split.
  - intros [d ->]. destruct is_kestrel.
    + by apply read_file_kestrel in Hr as (? & ? & ? & ? & _).
    + split; [done|]. destruct (Path.endswith file_path ".xlsx") eqn:Hx; [done|].
      by destruct (read_file_csv_frame _ _ _ _ Hx Hr) as [? ?].
  - intros [-> Hx]. unfold read_file in Hr. rewrite Hx in Hr.
    apply bind_Ok_inv in Hr as (? & _ & (? & _ & (? & _ & (d & _ & [= <-])%bind_Ok_inv)
                                  %bind_Ok_inv)%bind_Ok_inv).
    by exists d.
Qed.

Lemma read_file_dict_iff_witness :
  (∃ df_dict, Sheets [("Session 1", session_three)] = Sheets df_dict)
  ↔ false = false ∧ Path.endswith "log/garmin.xlsx" ".xlsx" = true.
Proof.
  apply (read_file_dict_iff sample_files "log/garmin.xlsx" false).
  vm_compute. reflexivity.
Defined.
End read_kind.

(** ** The times [read_file] hands over *)

Section read_times.
Import Pandas.

Lemma rendered_clock_text c : rendered c → clock_text c.
Proof.
  intros [t ->]. set (tod := t mod 86400).
  assert (0 ≤ tod < 86400) by (apply Z.mod_pos_bound; lia).
  exists (tod / 3600), (tod mod 3600 / 60), (tod mod 60).
  repeat split; try (Z.to_euclidean_division_equations; lia).
Qed.

Lemma rows_clock_text parse p rs :
  Forall (λ r, cell_at p r = NaN ∨ clock_text (cell_at p r)) (render_row parse p <$> rs).
Proof.
  eapply Forall_impl; [apply rows_rendered|]. intros r [?|?]; [by left|right].
  by apply rendered_clock_text.
Qed.

Lemma normalize_weather_clock_column container raw df :
  normalize Weather container raw = Ok df → clock_column df.
Proof.
  destruct container; simpl.
  - unfold read_file_kestrel_xlsx.
    intros (c0 & _ & (c1 & _ & (c2 & _ & (c3 & _ & H)%bind_Ok_inv)%bind_Ok_inv)
              %bind_Ok_inv)%bind_Ok_inv.
    apply bind_Ok_inv in H as (df1 & _ & (p & Hp & ->)%reformat_timestamp_Ok).
    exists p. split; [done|]. apply rows_clock_text.
  - unfold read_file_kestrel_csv.
    intros (df0 & Hset & (df1 & Href & Hsel)%bind_Ok_inv)%bind_Ok_inv.
    unfold set_columns in Hset. case_decide; simplify_eq.
    apply reformat_timestamp_Ok in Href as (p & Hp & ->). simpl in *.
    rewrite select_kestrel_csv in Hsel. injection Hsel as <-.
    injection Hp as <-. exists 0%nat. split; [done|]. simpl.
    apply Forall_fmap, Forall_fmap, Forall_true. intros r. simpl.
    change (cell_at 0 (cell_at 0 (render_row TimeText.strptime_kestrel 0 r) :: _))
      with (cell_at 0 (render_row TimeText.strptime_kestrel 0 r)).
    destruct (render_row_rendered TimeText.strptime_kestrel 0 r) as [->|?];
      [by left|right; by apply rendered_clock_text].
Qed.

(** X2.  Every table [read_file] returns, of either log and either kind of
    file, has exactly one column labelled [Timestamp], and each value of that
    column is a time of day written [HH:MM:SS], two digits a field, or is
    missing. *)
Theorem read_file_clock_column files file_path is_kestrel r :
  read_file files file_path is_kestrel = Ok r →
  Forall clock_column (tables r).
Proof.
  intros Hr. destruct is_kestrel.
  - apply read_file_kestrel in Hr as (container & raw & df & -> & Hdf & _).
    apply Forall_cons_2; [|apply Forall_nil_2].
    by eapply normalize_weather_clock_column.
  - destruct r as [df|df_dict]; simpl.
    + apply read_file_garmin_frame in Hr
        as (_ & _ & _ & raw & (p & Hp & ->)%reformat_timestamp_Ok).
      apply Forall_cons_2; [|apply Forall_nil_2]. exists p. split; [done|].
      apply rows_clock_text.
    + apply read_file_garmin_sheets in Hr as [_ Hd]. apply Forall_fmap.
      eapply Forall_impl; [done|]. intros [name df] [[Hp Hrows] _]. simpl in *.
      exists 5%nat. split; [done|]. eapply Forall_impl; [done|].
      intros row [?|?]; [by left|right]. by apply rendered_clock_text.
Qed.

Lemma read_file_clock_column_witness : Forall clock_column (tables (Frame weather_two)).
Proof.
  apply (read_file_clock_column sample_files "log/kestrel.csv" true).
  vm_compute. reflexivity.
Defined.
End read_times.

(** ** The weather log of a delimited text *)

Section weather_csv.
Import Pandas.

Lemma cells_of_row n r : length r = n → (λ q, cell_at q r) <$> seq 0 n = r.
Proof.
  intros <-. apply list_eq. intros i. rewrite list_lookup_fmap.
  destruct (decide (i < length r)%nat) as [Hi|Hi].
  - rewrite lookup_seq_lt by done. simpl. unfold cell_at.
    by destruct (lookup_lt_is_Some_2 r i Hi) as [c ->].
  - rewrite lookup_seq_ge, lookup_ge_None_2 by lia. done.
Qed.

(** X3.  A weather log that is a delimited text is read exactly when its
    table has 15 columns; otherwise the assignment of the 15 labels raises.
    The table read has the 15 fixed labels, whatever headings the file had,
    and the rows of the file, all of them and in order, with nothing changed
    but the time, rendered as [HH:MM:SS] or left missing. *)
Theorem read_file_weather_csv files file_path raw :
  Path.endswith file_path ".csv" = true →
  delimited files file_path 5 = Ok raw →
  well_formed raw →
  read_file files file_path true
  = if decide (shape1 raw = 15%nat)
    then Ok (Frame (mkDataFrame kestrel_csv_columns
                      (render_row TimeText.strptime_kestrel 0 <$> rows raw)))
    else Raise (LengthMismatch (shape1 raw) 15).
Proof.
  intros Hcsv Hraw Hwf. unfold read_file.
  rewrite (endswith_csv_not_xlsx file_path Hcsv), Hcsv, Hraw.
  assert (read_file_kestrel_csv raw
          = if decide (shape1 raw = 15%nat)
            then Ok (mkDataFrame kestrel_csv_columns
                       (render_row TimeText.strptime_kestrel 0 <$> rows raw))
            else Raise (LengthMismatch (shape1 raw) 15)) as Hread.
  { unfold read_file_kestrel_csv, set_columns.
    change (length kestrel_csv_columns) with 15%nat.
    destruct (decide (shape1 raw = 15%nat)) as [Hwidth|Hwidth].
    - rewrite decide_True by done.
      transitivity (select (kestrel_names ++ drop 4 kestrel_csv_columns)
                      (mkDataFrame kestrel_csv_columns
                         (render_row TimeText.strptime_kestrel 0 <$> rows raw)));
        [reflexivity|].
      rewrite select_kestrel_csv. do 2 f_equal.
      rewrite <-list_fmap_compose. apply Forall_fmap_ext_1.
      eapply Forall_impl; [exact Hwf|]. intros r Hr.
      apply (cells_of_row 15 (render_row TimeText.strptime_kestrel 0 r)).
      unfold render_row. rewrite length_insert. congruence.
    - by rewrite decide_False by done. }
  simpl. rewrite Hread. by case_decide.
Qed.

Lemma read_file_weather_csv_witness :
  read_file sample_files "log/kestrel.csv" true
  = if decide (shape1 weather_raw_two = 15%nat)
    then Ok (Frame (mkDataFrame kestrel_csv_columns
                      (render_row TimeText.strptime_kestrel 0 <$> rows weather_raw_two)))
    else Raise (LengthMismatch (shape1 weather_raw_two) 15).
Proof.
  apply (read_file_weather_csv sample_files "log/kestrel.csv" weather_raw_two).
  - reflexivity.
  - reflexivity.
  - repeat (apply Forall_cons_2); [reflexivity..|apply Forall_nil_2].
Defined.
End weather_csv.

(** ** The session log of a delimited text *)

Section session_csv.
Import Pandas.

Lemma positions_from_absent i l cols : l ∉ cols → positions_from i l cols = [].
Proof.
  revert i. induction cols as [|c cols IH]; intros i Hl; simpl; [done|].
  apply not_elem_of_cons in Hl as [Hc Hl]. rewrite decide_False by done. by apply IH.
Qed.

(** X4.  A session log that is a delimited text is read only if one of its
    first nine headings is [Timestamp]: here the sixth column is not renamed
    as it is for a workbook, and without the heading the lookup of the
    column raises. *)
Theorem read_file_session_csv_heading files file_path raw :
  Path.endswith file_path ".csv" = true →
  delimited files file_path 1 = Ok raw →
  (9 ≤ shape1 raw)%nat →
  "Timestamp" ∉ take 9 (columns raw) →
  read_file files file_path false = Raise (KeyError "Timestamp").
Proof.
  intros Hcsv Hraw Hwidth Hno. unfold read_file.
  rewrite (endswith_csv_not_xlsx file_path Hcsv), Hcsv, Hraw. simpl.
  unfold usecols. rewrite decide_True by done. simpl.
  unfold reformat_timestamp, column_position, positions. simpl.
  by rewrite positions_from_absent.
Qed.
End session_csv.

Lemma read_file_session_csv_heading_witness :
  read_file sample_files_headings "log/garmin.csv" false = Raise (KeyError "Timestamp").
Proof.
  apply (read_file_session_csv_heading sample_files_headings "log/garmin.csv"
           session_raw_three).
  - reflexivity.
  - reflexivity.
  - unfold shape1. simpl. lia.
  - simpl. unfold session_labels. rewrite !not_elem_of_cons.
    by repeat split; try apply not_elem_of_nil.
Defined.

(** ** The logs of a workbook *)

Section workbooks.
Import Pandas.

Lemma for_sheets_fmap f g sheets :
  Forall (λ sd : string * DataFrame, f sd.2 = Ok (g sd.2)) sheets →
  for_sheets f sheets = Ok ((λ sd, (sd.1, g sd.2)) <$> sheets).
Proof.
  unfold for_sheets. induction 1 as [|[name df] sheets Hdf _ IH]; simpl in *; [done|].
  by rewrite Hdf, IH.
Qed.

Lemma rename_one_NoDup (l new : string) cols rs i :
  NoDup cols → cols !! i = Some l →
  rename [(l, new)] (mkDataFrame cols rs) = mkDataFrame (<[i := new]> cols) rs.
Proof.
  intros Hnd Hi. unfold rename. simpl. f_equal. apply list_eq. intros j.
  rewrite list_lookup_fmap.
  destruct (decide (j = i)) as [->|Hj].
  - rewrite list_lookup_insert_eq by (by eapply lookup_lt_Some). rewrite Hi. simpl.
    by rewrite decide_True.
  - rewrite list_lookup_insert_ne by done. destruct (cols !! j) as [c|] eqn:Hc; [|done].
    simpl. rewrite decide_False; [done|]. intros <-.
    by pose proof (NoDup_lookup cols i j l Hnd Hi Hc).
Qed.

Lemma column_position_insert cols i :
  (i < length cols)%nat →
  (∀ q, q ≠ i → cols !! q ≠ Some "Timestamp") →
  column_position "Timestamp" (<[i := "Timestamp"]> cols) = Ok i.
Proof.
  intros Hi Hno. apply column_position_Ok. split; [by apply list_lookup_insert_eq|].
  intros q Hq. destruct (decide (q = i)) as [|Hne]; [done|].
  rewrite list_lookup_insert_ne in Hq by done. by destruct (Hno q Hne).
Qed.

(** One session sheet through [usecols] and lines 55-56. *)
Lemma read_session_sheet df :
  session_headings df →
  usecols 9 df ≫= read_file_garmin_sheet
  = Ok (mkDataFrame (<[5%nat := "Timestamp"]> (take 9 (columns df)))
          ((λ r, render_row TimeText.strptime_hms 5 (take 9 r)) <$> rows df)).
Proof.
  intros (Hwidth & Hnd & Hno). unfold usecols. rewrite decide_True by done. simpl.
  unfold read_file_garmin_sheet, column_label. simpl.
  assert (length (take 9 (columns df)) = 9%nat) as Hlen.
  { rewrite length_take. unfold shape1 in Hwidth. lia. }
  destruct (take 9 (columns df) !! 5%nat) as [l|] eqn:Hl;
    [|apply lookup_ge_None in Hl; lia]. simpl.
  rewrite (rename_one_NoDup l "Timestamp" _ _ 5) by done.
  unfold reformat_timestamp. simpl.
  rewrite column_position_insert by (done || lia). simpl.
  unfold map_column. simpl. f_equal. f_equal. by rewrite <-list_fmap_compose.
Qed.

(** X5.  A session log that is a workbook is read sheet by sheet, whatever
    its headings are called: of each sheet the first nine columns are kept,
    the sixth is labelled [Timestamp] and its times are rendered as
    [HH:MM:SS] or left missing.  The names and the order of the sheets stay,
    and no row is dropped. *)
Theorem read_file_session_workbook files file_path sheets :
  Path.endswith file_path ".xlsx" = true →
  workbook files file_path 1 = Ok sheets →
  sheets ≠ [] →
  Forall (λ sd, session_headings sd.2) sheets →
  read_file files file_path false
  = Ok (Sheets ((λ sd, (sd.1,
                        mkDataFrame (<[5%nat := "Timestamp"]> (take 9 (columns sd.2)))
                          ((λ r, render_row TimeText.strptime_hms 5 (take 9 r))
                             <$> rows sd.2))) <$> sheets)).
Proof.
  intros Hxlsx Hbook Hsome Hheads. unfold read_file. rewrite Hxlsx, Hbook. simpl.
  assert (all_sheets file_path sheets = Ok sheets) as -> by (by destruct sheets). simpl.
  rewrite (for_sheets_fmap _ (λ df, mkDataFrame (take 9 (columns df)) (take 9 <$> rows df))).
  2:{ eapply Forall_impl; [done|]. intros sd (Hwidth & _). unfold usecols.
      by rewrite decide_True. }
  simpl.
  rewrite (for_sheets_fmap _
             (λ df, mkDataFrame (<[5%nat := "Timestamp"]> (columns df))
                      (render_row TimeText.strptime_hms 5 <$> rows df))).
  2:{ apply Forall_fmap. eapply Forall_impl; [done|]. intros sd Hsd. simpl.
      pose proof (read_session_sheet sd.2 Hsd) as Hread. unfold usecols in Hread.
      destruct Hsd as (Hwidth & _). rewrite decide_True in Hread by done.
      simpl in Hread. rewrite Hread. simpl. f_equal. f_equal.
      by rewrite <-list_fmap_compose. }
  simpl. do 2 f_equal. rewrite <-list_fmap_compose. apply list_fmap_ext.
  intros i sd _. simpl. f_equal. f_equal. by rewrite <-list_fmap_compose.
Qed.

Lemma read_file_session_workbook_witness :
  read_file sample_files_headings "log/garmin.xlsx" false
  = Ok (Sheets ((λ sd, (sd.1,
                        mkDataFrame (<[5%nat := "Timestamp"]> (take 9 (columns sd.2)))
                          ((λ r, render_row TimeText.strptime_hms 5 (take 9 r))
                             <$> rows sd.2)))
                  <$> [("Session 1", session_raw_three)])).
Proof.
  apply (read_file_session_workbook sample_files_headings "log/garmin.xlsx").
  - reflexivity.
  - reflexivity.
  - discriminate.
  - apply Forall_cons_2; [|apply Forall_nil_2]. split; [|split].
    + unfold shape1. simpl. lia.
    + simpl. unfold session_labels.
      repeat (apply NoDup_cons_2;
              [rewrite ?not_elem_of_cons; by repeat split; try apply not_elem_of_nil|]).
      apply NoDup_nil_2.
    + intros q Hq. simpl. unfold session_labels.
      do 9 (destruct q as [|q]; [done|]). done.
Defined.
End workbooks.

Section weather_workbook.
Import Pandas.

Lemma positions_one cols i l :
  NoDup cols → cols !! i = Some l → positions l cols = [i].
Proof.
  intros Hnd Hi. pose proof (NoDup_positions_from 0 l cols) as Hps.
  pose proof (elem_of_positions l cols) as Hin. fold (positions l cols) in Hps.
  assert (∀ p, p ∈ positions l cols ↔ p = i) as Honly.
  { intros p. rewrite Hin. split; [|by intros ->]. intros Hp.
    by apply (NoDup_lookup cols p i l). }
  destruct (positions l cols) as [|a ps].
  - by pose proof (proj2 (Honly i) eq_refl) as ?%elem_of_nil.
  - assert (a = i) as -> by (apply Honly; left). destruct ps as [|b ps]; [done|].
    assert (b = i) as -> by (apply Honly; right; left).
    apply NoDup_cons in Hps as [Hps _]. destruct Hps. left.
Qed.

Lemma traverse_positions cols labels j :
  NoDup cols →
  (∀ i l, labels !! i = Some l → cols !! (j + i)%nat = Some l) →
  traverse (λ l, match positions l cols with
                 | [] => Raise (KeyError l)
                 | ps => Ok ps
                 end) labels
  = Ok ((λ i, [i]) <$> seq j (length labels)).
Proof.
  intros Hnd. revert j. induction labels as [|l labels IH]; intros j Hat; [done|].
  simpl. rewrite (positions_one cols j l Hnd).
  - simpl. rewrite (IH (S j)); [done|]. intros i l' Hl'.
    replace (S j + i)%nat with (j + S i)%nat by lia. by apply Hat.
  - replace j with (j + 0)%nat by lia. by apply Hat.
Qed.

Lemma concat_singletons (l : list nat) : concat ((λ i, [i]) <$> l) = l.
Proof. induction l as [|i l IH]; [done|]. csimpl. by f_equal. Qed.

Lemma labels_of_columns (cols : list string) :
  (λ p, default "" (cols !! p)) <$> seq 0 (length cols) = cols.
Proof.
  apply list_eq. intros i. rewrite list_lookup_fmap.
  destruct (decide (i < length cols)%nat) as [Hi|Hi].
  - rewrite lookup_seq_lt by done. simpl.
    by destruct (lookup_lt_is_Some_2 cols i Hi) as [c ->].
  - rewrite lookup_seq_ge, lookup_ge_None_2 by lia. done.
Qed.

(** A selection of all the labels of a table that repeats none is the table
    itself, every row with one value for each column. *)
Lemma select_columns cols rs :
  NoDup cols →
  select cols (mkDataFrame cols rs)
  = Ok (mkDataFrame cols ((λ r, (λ q, cell_at q r) <$> seq 0 (length cols)) <$> rs)).
Proof.
  intros Hnd. unfold select. simpl.
  rewrite (traverse_positions cols cols 0 Hnd) by done. simpl.
  by rewrite concat_singletons, labels_of_columns.
Qed.

(** Lines 47-50 on a sheet whose headings are distinct. *)
Lemma read_file_kestrel_xlsx_distinct c0 c1 c2 c3 tail rs :
  NoDup (c0 :: c1 :: c2 :: c3 :: tail) →
  Forall (λ c, c ∉ kestrel_names) tail →
  read_file_kestrel_xlsx (mkDataFrame (c0 :: c1 :: c2 :: c3 :: tail) rs)
  = Ok (mkDataFrame (kestrel_names ++ tail)
          ((λ r, render_row TimeText.strptime_kestrel 0
                   ((λ q, cell_at q r) <$> seq 0 (4 + length tail))) <$> rs)).
Proof.
  intros Hnd Htail.
  apply NoDup_cons in Hnd as [H0 Hnd]. apply NoDup_cons in Hnd as [H1 Hnd].
  apply NoDup_cons in Hnd as [H2 Hnd]. apply NoDup_cons in Hnd as [H3 Hnd].
  set (d := [(c0, "Timestamp"); (c1, "Temperature");
             (c2, "Relative Humidity"); (c3, "Station Pressure")]).
  set (df0 := mkDataFrame (c0 :: c1 :: c2 :: c3 :: tail) rs).
  assert (rename d df0 = mkDataFrame (kestrel_names ++ tail) rs) as Hrename.
  { unfold rename, kestrel_names, df0. simpl. f_equal.
    f_equal; [|f_equal; [|f_equal; [|f_equal]]];
      try (repeat case_decide; simplify_eq/=; try done; set_solver).
    rewrite <-(list_fmap_id tail) at 2. apply list_fmap_ext.
    intros i c Hc%list_elem_of_lookup_2. unfold id.
    repeat case_decide; simplify_eq/=; try done; set_solver. }
  assert (NoDup (kestrel_names ++ tail)) as Hnames.
  { apply NoDup_app. split; [|split; [|done]].
    - unfold kestrel_names. repeat (apply NoDup_cons_2; [set_solver|]). apply NoDup_nil_2.
    - intros c Hc Hc'. rewrite Forall_forall in Htail. by eapply Htail. }
  transitivity (select (kestrel_names ++ drop 4 (columns (rename d df0))) (rename d df0)
                  ≫= reformat_timestamp TimeText.strptime_kestrel); [reflexivity|].
  rewrite Hrename.
  change (kestrel_names ++ drop 4 (columns (mkDataFrame (kestrel_names ++ tail) rs)))%list
    with (kestrel_names ++ tail)%list.
  rewrite (select_columns (kestrel_names ++ tail) rs Hnames).
  change (length (kestrel_names ++ tail)) with (4 + length tail)%nat.
  cbn [mbind result_bind]. unfold reformat_timestamp. cbn [columns].
  assert (column_position "Timestamp" (kestrel_names ++ tail) = Ok 0%nat) as ->.
  { apply column_position_Ok. split; [done|]. intros q Hq.
    by apply (NoDup_lookup (kestrel_names ++ tail) q 0 "Timestamp"). }
  cbn [mbind result_bind]. unfold map_column. cbn [columns rows].
  do 2 f_equal. by rewrite <-list_fmap_compose.
Qed.

(** X6.  Of a weather log that is a workbook the first sheet is read.  When
    its first fifteen headings are distinct and none past the fourth is one
    of the four names, the table read has the first fifteen columns, the
    first four labelled [Timestamp], [Temperature], [Relative Humidity] and
    [Station Pressure] whatever they were called, and the rows of the sheet,
    all of them and in order, with nothing changed but the time, rendered as
    [HH:MM:SS] or left missing. *)
Theorem read_file_weather_workbook files file_path name raw others :
  Path.endswith file_path ".xlsx" = true →
  workbook files file_path 5 = Ok ((name, raw) :: others) →
  weather_headings raw →
  well_formed raw →
  read_file files file_path true
  = Ok (Frame (mkDataFrame (kestrel_names ++ drop 4 (take 15 (columns raw)))
                 ((λ r, render_row TimeText.strptime_kestrel 0 (take 15 r))
                    <$> rows raw))).
Proof.
  intros Hxlsx Hbook (Hwidth & Hnd & Htail) Hwf. unfold read_file.
  rewrite Hxlsx, Hbook. cbn [mbind result_bind first_sheet].
  unfold usecols. rewrite decide_True by done. cbn [mbind result_bind].
  assert (length (take 15 (columns raw)) = 15%nat) as Hlen.
  { rewrite length_take. unfold shape1 in Hwidth. lia. }
  destruct (take 15 (columns raw)) as [|c0 [|c1 [|c2 [|c3 tail]]]]; try done.
  change (drop 4 (c0 :: c1 :: c2 :: c3 :: tail)) with tail in *.
  rewrite read_file_kestrel_xlsx_distinct by done.
  cbn [fmap result_fmap]. do 3 f_equal.
  rewrite <-list_fmap_compose. apply Forall_fmap_ext_1.
  eapply Forall_impl; [exact Hwf|]. intros r Hr. unfold compose.
  replace (4 + length tail)%nat with 15%nat by (simpl in Hlen; lia).
  rewrite (cells_of_row 15 (take 15 r)); [done|].
  rewrite length_take. unfold shape1 in *. lia.
Qed.

Lemma read_file_weather_workbook_witness :
  read_file sample_files_headings "log/kestrel.xlsx" true
  = Ok (Frame (mkDataFrame (kestrel_names ++ drop 4 (take 15 (columns sample_weather_sheet)))
                 ((λ r, render_row TimeText.strptime_kestrel 0 (take 15 r))
                    <$> rows sample_weather_sheet))).
Proof.
  apply (read_file_weather_workbook sample_files_headings "log/kestrel.xlsx"
           "Kestrel" sample_weather_sheet []).
  - reflexivity.
  - reflexivity.
  - split; [|split].
    + unfold shape1. simpl. lia.
    + simpl.
      repeat (apply NoDup_cons_2;
              [rewrite ?not_elem_of_cons; by repeat split; try apply not_elem_of_nil|]).
      apply NoDup_nil_2.
    + simpl. unfold kestrel_names.
      repeat (apply Forall_cons_2;
              [rewrite ?not_elem_of_cons; by repeat split; try apply not_elem_of_nil|]).
      apply Forall_nil_2.
  - repeat (apply Forall_cons_2); [reflexivity..|apply Forall_nil_2].
Defined.
End weather_workbook.

(** ** A time written and read back *)

Section round_trip.
Import Pandas.

(** X7.  The time [read_file] and [process_garmin_sheet] write into the
    [Timestamp] column is read back by [find_closest] as the time of day that
    was parsed from the log: rendering a time as [HH:MM:SS] and parsing it
    again loses nothing but the date. *)
Theorem hms_text_round_trip (parse : string → option Z) s t :
  s ∉ nat_strings →
  parse s = Some t →
  time_of (hms_text parse (Text s)) = Some (t mod 86400).
Proof.
  intros Hs Ht. unfold hms_text, to_datetime_coerce. rewrite decide_False by done.
  rewrite Ht. simpl. unfold time_of. by rewrite to_datetime_rendered.
Qed.

Lemma hms_text_round_trip_witness :
  time_of (hms_text TimeText.strptime_kestrel (Text "2024-05-01 1:00:10 PM"))
  = Some (46810 mod 86400).
Proof.
  apply (hms_text_round_trip TimeText.strptime_kestrel "2024-05-01 1:00:10 PM" 46810).
  - unfold nat_strings. rewrite !not_elem_of_cons. by repeat split; try apply not_elem_of_nil.
  - reflexivity.
Defined.
End round_trip.

(** ** Lookups one after another *)

Section lookups.
Import Pandas.

Lemma find_closest_converted p W row :
  weather_table p W →
  find_closest row (converted p W) = (converted p W, (find_closest row W).2).
Proof.
  intros Hw. pose proof (weather_table_converted p W Hw) as Hw'.
  destruct (series_get "Timestamp" row) as [c|e] eqn:Hc.
  - destruct (to_datetime TimeText.strptime_hms c) as [row_time|e] eqn:Ht.
    + rewrite (find_closest_weather p (converted p W) row c row_time) by done.
      rewrite (find_closest_weather p W row c row_time) by done.
      by rewrite converted_idemp.
    + unfold find_closest. rewrite Hc. simpl. by rewrite Ht.
  - unfold find_closest. by rewrite Hc.
Qed.

(** X8.  The conversion in place does not disturb the lookups that follow:
    on the weather table as an earlier lookup has left it, a lookup gives
    what it gives on the table as it was read, and leaves the table as it
    finds it. *)
Theorem find_closest_again p W row0 t0 row :
  weather_table p W →
  query_time row0 = Some t0 →
  find_closest row (find_closest row0 W).1
  = ((find_closest row0 W).1, (find_closest row W).2).
Proof.
  intros Hw (c & Hc & Ht)%query_time_Some.
  rewrite (find_closest_weather p W row0 c (Stamp t0)) by done. simpl.
  by apply find_closest_converted.
Qed.

Lemma find_closest_again_witness :
  find_closest (shot "2" "10:00:05") (find_closest (shot "1" "10:00:04") weather_two).1
  = ((find_closest (shot "1" "10:00:04") weather_two).1,
     (find_closest (shot "2" "10:00:05") weather_two).2).
Proof.
  apply (find_closest_again 0 weather_two (shot "1" "10:00:04") 36004).
  - exact weather_two_table.
  - reflexivity.
Defined.

(** A lookup in a weather table, or in that table converted, that has a
    time: the table is left converted and the reading is the nearest. *)
Lemma find_closest_paired p k k' row t :
  weather_table p k →
  k' = k ∨ k' = converted p k →
  query_time row = Some t →
  Exists is_Some (reading_times p k) →
  ∃ i r, find_closest row k'
         = (converted p k, Ok (mkSeries (columns k) (<[p := to_stamp (cell_at p r)]> r)))
         ∧ rows k !! i = Some r
         ∧ nearest_first (reading_times p k) t i.
Proof.
  intros Hw Hk' Ht Hsome.
  destruct (find_closest_found p k row t Hw Ht Hsome) as (i & r' & Hfc & Hr' & Hnear).
  simpl in Hr'. rewrite list_lookup_fmap in Hr'.
  destruct (rows k !! i) as [r|] eqn:Hr; [|done]. injection Hr' as <-.
  exists i, r. split; [|done]. destruct Hk' as [->| ->]; [done|].
  rewrite find_closest_converted by done. by rewrite Hfc.
Qed.

(** X9.  When a reading carries exactly the time of the shot, the reading
    returned carries that time. *)
Theorem find_closest_exact p W row t :
  weather_table p W →
  query_time row = Some t →
  Some t ∈ reading_times p W →
  ∃ r, (find_closest row W).2 = Ok (mkSeries (columns W) r) ∧ cell_at p r = Stamp t.
Proof.
  intros Hw Ht Hin.
  assert (Exists is_Some (reading_times p W)) as Hsome.
  { apply Exists_exists. exists (Some t). eauto. }
  destruct (find_closest_paired p W W row t Hw (or_introl eq_refl) Ht Hsome)
    as (i & r & -> & Hr & ti & Hti & Hleast).
  eexists. split; [done|].
  apply list_elem_of_lookup in Hin as [j Hj].
  destruct (Hleast j t Hj) as [Hle _].
  assert (ti = t) as -> by lia.
  unfold reading_times in Hti. rewrite list_lookup_fmap, Hr in Hti. injection Hti as Hti.
  destruct Hw as [_ Hrows]. rewrite Forall_lookup in Hrows.
  rewrite cell_at_converted by eauto.
  unfold time_of in Hti. unfold to_stamp.
  by destruct (to_datetime _ _) as [[| |]|]; simplify_eq.
Qed.

Lemma find_closest_exact_witness :
  ∃ r, (find_closest (shot "1" "10:00:10") weather_three).2
       = Ok (mkSeries (columns weather_three) r)
       ∧ cell_at 0 r = Stamp 36010.
Proof.
  apply (find_closest_exact 0 weather_three (shot "1" "10:00:10") 36010).
  - exact weather_three_table.
  - reflexivity.
  - vm_compute. apply list_elem_of_further, list_elem_of_further, list_elem_of_here.
Defined.

Lemma traverse_Raise {A B} (f : A → result B) (l : list A) :
  Exists (λ x, ∃ e, f x = Raise e) l →
  ∃ x e, x ∈ l ∧ f x = Raise e ∧ traverse f l = Raise e.
Proof.
  induction 1 as [x l [e He]|x l _ (y & e & Hy & He & IH)]; simpl.
  - exists x, e. rewrite He. split; [left|]. done.
  - destruct (f x) as [b|e'] eqn:Hx; simpl.
    + exists y, e. rewrite IH. split; [by right|]. done.
    + exists x, e'. split; [left|]. done.
Qed.

(** X10.  The assignment to the [Timestamp] column is all or nothing: if the
    column holds a text that is no time, a lookup raises on such a text and
    the weather table stays as it was, no value of it converted. *)
Theorem find_closest_unread_table row t df p :
  query_time row = Some t →
  column_position "Timestamp" (columns df) = Ok p →
  Exists (λ r, ∃ s, cell_at p r = Text s ∧ (s ∉ nat_strings)
                    ∧ TimeText.strptime_hms s = None) (rows df) →
  ∃ r s, r ∈ rows df ∧ cell_at p r = Text s ∧ TimeText.strptime_hms s = None
         ∧ find_closest row df = (df, Raise (TimeDataError s)).
Proof.
  intros (c & Hc & Ht)%query_time_Some Hp Hbad.
  destruct (traverse_Raise
              (λ r, c ← to_datetime TimeText.strptime_hms (cell_at p r); Ok (<[p := c]> r))
              (rows df)) as (r & e & Hr & He & Htr).
  { eapply Exists_impl; [done|]. intros r (s & -> & Hs & Hnone). simpl.
    rewrite decide_False by done. rewrite Hnone. eauto. }
  unfold find_closest. rewrite Hc. simpl. rewrite Ht, Hp. simpl. rewrite Htr. simpl.
  destruct (cell_at p r) as [s| |] eqn:Hcell; simpl in He; [|done..].
  case_decide; [done|]. destruct (TimeText.strptime_hms s) eqn:Hs; [done|].
  injection He as <-. by exists r, s.
Qed.

Lemma find_closest_unread_table_witness :
  ∃ r s, r ∈ rows weather_raw_two ∧ cell_at 0 r = Text s
         ∧ TimeText.strptime_hms s = None
         ∧ find_closest (shot "1" "10:00:04") weather_raw_two
           = (weather_raw_two, Raise (TimeDataError s)).
Proof.
  apply (find_closest_unread_table (shot "1" "10:00:04") 36004 weather_raw_two 0).
  - reflexivity.
  - reflexivity.
  - apply Exists_cons_hd. exists "2024-05-01 10:00:00 AM".
    split; [reflexivity|]. split; [|reflexivity].
    unfold nat_strings. rewrite !not_elem_of_cons. by repeat split; try apply not_elem_of_nil.
Defined.
End lookups.

(** ** The combined table *)

Section combined.
Import Pandas.

(** The rows of a ready session looked up in turn: every shot gets the
    reading nearest to its time. *)
Lemma apply_rows_paired p k k' cols rs :
  weather_table p k →
  k' = k ∨ k' = converted p k →
  Exists is_Some (reading_times p k) →
  column_position "Timestamp" cols = Ok 5%nat →
  Forall (λ r, rendered (cell_at 5 r)) rs →
  ∃ ss, apply_rows cols rs k' = (match rs with [] => k' | _ => converted p k end, Ok ss)
        ∧ Forall2 (λ s sr, index sr = columns k ∧ paired p k cols s (s ++ values sr)) rs ss.
Proof.
  intros Hw Hk' Hsome Hcols Hrs. revert k' Hk'.
  induction Hrs as [|r rs Hr Hrs IH]; intros k' Hk'; [by exists []|].
  destruct (query_time_ready cols r Hcols Hr) as [t Ht].
  destruct (find_closest_paired p k k' _ t Hw Hk' Ht Hsome) as (i & w & Hfc & Hw' & Hnear).
  destruct (IH (converted p k)) as (ss & Hss & Hall); [by right|].
  simpl. rewrite Hfc, Hss. eexists. split.
  - by destruct rs.
  - constructor; [|done]. split; [done|]. by exists t, i, w.
Qed.

Lemma zip_with_app_paired p k cols rs ss :
  Forall2 (λ s sr, index sr = columns k ∧ paired p k cols s (s ++ values sr)) rs ss →
  Forall2 (paired p k cols) rs (zip_with app rs (values <$> ss)).
Proof. induction 1 as [|s sr rs ss [_ ?] _ IH]; csimpl; by constructor. Qed.

(** X11.  Against a weather table that has a time, a session that has a shot
    with a time gives a combined table with the labels of the session
    followed by those of the weather table and one row for each such shot,
    in order: the shot followed by the reading nearest to its time. *)
Theorem process_garmin_sheet_pairs name g k p :
  session_read g →
  weather_table p k →
  timed_shots g ≠ [] →
  Exists is_Some (reading_times p k) →
  ∃ c, (process_garmin_sheet name g k).2 = Ok c
       ∧ columns c = (columns g ++ columns k)%list
       ∧ Forall2 (paired p k (columns g)) (timed_shots g) (rows c).
Proof.
  intros Hread Hw Hshots Hsome. unfold process_garmin_sheet.
  rewrite (process_garmin_sheet_timestamps_read g Hread).
  destruct (session_read_ready g Hread) as [Hcols Hrows]. simpl in Hcols, Hrows.
  unfold apply_find_closest. simpl. fold (timed_shots g) in *.
  destruct (apply_rows_paired p k k (columns g) (timed_shots g) Hw (or_introl eq_refl)
              Hsome Hcols Hrows) as (ss & Hss & Hall).
  destruct (timed_shots g) as [|r0 rs0] eqn:Hg; [done|]. rewrite Hss. simpl.
  eexists. split; [done|]. simpl. split.
  - f_equal. apply Forall2_cons_inv_l in Hall as (sr & ss' & [Hidx _] & _ & ->). done.
  - by apply (zip_with_app_paired p k (columns g) (r0 :: rs0) ss).
Qed.

Lemma process_garmin_sheet_pairs_witness :
  ∃ c, (process_garmin_sheet "Session 1" session_three weather_two).2 = Ok c
       ∧ columns c = (columns session_three ++ columns weather_two)%list
       ∧ Forall2 (paired 0 weather_two (columns session_three))
           (timed_shots session_three) (rows c).
Proof.
  apply (process_garmin_sheet_pairs "Session 1" session_three weather_two 0).
  - exact session_three_read.
  - exact weather_two_table.
  - discriminate.
  - apply Exists_cons_hd. by exists 36000.
Defined.

(** X12.  A session none of whose shots has a time gives a combined table
    without rows, its labels those of the session twice over, whatever the
    weather table holds; the weather table is converted all the same. *)
Theorem process_garmin_sheet_no_shot name g k p :
  session_read g →
  weather_table p k →
  timed_shots g = [] →
  process_garmin_sheet name g k
  = (mkDataFrame (columns g) [], converted p k,
     Ok (mkDataFrame (columns g ++ columns g) [])).
Proof.
  intros Hread Hw Hshots.
  pose proof (process_garmin_sheet_timestamps_read g Hread) as Hts.
  fold (timed_shots g) in Hts. rewrite Hshots in Hts.
  destruct (process_garmin_sheet_ready name g _ _ k p Hts) as (r & -> & Hr & _).
  - pose proof (session_read_ready g Hread) as Hready.
    fold (timed_shots g) in Hready. by rewrite Hshots in Hready.
  - done.
  - by rewrite Hr.
Qed.

Lemma process_garmin_sheet_no_shot_witness :
  process_garmin_sheet "Session 1"
    (mkDataFrame (columns session_three) [session_row (Text "3") NaN])
    (mkDataFrame kestrel_csv_columns [])
  = (mkDataFrame (columns session_three) [],
     converted 0 (mkDataFrame kestrel_csv_columns []),
     Ok (mkDataFrame (columns session_three ++ columns session_three) [])).
Proof.
  apply (process_garmin_sheet_no_shot "Session 1"
           (mkDataFrame (columns session_three) [session_row (Text "3") NaN])
           (mkDataFrame kestrel_csv_columns []) 0).
  - split; [reflexivity|]. apply Forall_cons_2; [by left|apply Forall_nil_2].
  - split; [reflexivity|]. apply Forall_nil_2.
  - reflexivity.
Defined.
End combined.

Section heading_elsewhere.
Import Pandas.

(** X13.  A session table whose [Timestamp] column is not the sixth is turned
    down: the sixth column is renamed [Timestamp] as well, two columns then
    carry the label, and the lookup of the column raises.  The session table
    is left with the renamed column; the weather table is not touched. *)
Theorem process_garmin_sheet_heading_elsewhere name g k q :
  column_position "Timestamp" (columns g) = Ok q →
  q ≠ 5%nat →
  (5 < shape1 g)%nat →
  ∃ l, columns g !! 5%nat = Some l
       ∧ process_garmin_sheet name g k
         = (rename [(l, "Timestamp")] g, k, Raise (NotOneColumn "Timestamp")).
Proof.
  intros [Hq _]%column_position_Ok Hne Hwidth.
  destruct (lookup_lt_is_Some_2 (columns g) 5 Hwidth) as [l Hl]. exists l. split; [done|].
  unfold process_garmin_sheet, process_garmin_sheet_timestamps, column_label. rewrite Hl.
  assert (column_position "Timestamp" (columns (rename [(l, "Timestamp")] g))
          = Raise (NotOneColumn "Timestamp")) as ->; [|done].
  pose proof (elem_of_positions "Timestamp" (columns (rename [(l, "Timestamp")] g))) as Hin.
  assert (columns (rename [(l, "Timestamp")] g) !! 5%nat = Some "Timestamp") as H5.
  { rewrite rename_one_columns, list_lookup_fmap, Hl. simpl. by rewrite decide_True. }
  assert (columns (rename [(l, "Timestamp")] g) !! q = Some "Timestamp") as Hq'.
  { rewrite rename_one_columns, list_lookup_fmap, Hq. simpl. by case_decide. }
  apply Hin in H5, Hq'. unfold column_position.
  destruct (positions _ _) as [|a [|b ps]]; [|exfalso|done].
  - by apply elem_of_nil in H5.
  - apply list_elem_of_singleton in H5, Hq'. congruence.
Qed.

Lemma process_garmin_sheet_heading_elsewhere_witness :
  ∃ l, columns session_time_first !! 5%nat = Some l
       ∧ process_garmin_sheet "Sheet1" session_time_first weather_two
         = (rename [(l, "Timestamp")] session_time_first, weather_two,
            Raise (NotOneColumn "Timestamp")).
Proof.
  apply (process_garmin_sheet_heading_elsewhere "Sheet1" session_time_first weather_two 0).
  - reflexivity.
  - discriminate.
  - unfold shape1. simpl. lia.
Defined.
End heading_elsewhere.

(** ** The writer block *)

Section writer.
Import Pandas.

Lemma set_columns_headers c :
  set_columns (take (shape1 c) headers) c
  = if decide (shape1 c ≤ 24)%nat
    then Ok (mkDataFrame (take (shape1 c) headers) (rows c))
    else Raise (LengthMismatch (shape1 c) 24).
Proof.
  unfold set_columns. rewrite length_take. change (length headers) with 24%nat.
  repeat case_decide; try lia; [done|]. by rewrite Nat.min_r by lia.
Qed.

(** X14.  The writer block goes through exactly when every combined table has
    at most 24 columns, and then writes a sheet for each, in order and under
    its name.  Otherwise it stops at the first table that is wider, with the
    length mismatch of the header assignment, the sheets before that one
    written. *)
Theorem write_sheets_width all :
  match (write_sheets all).2 with
  | None =>
      Forall (λ nc, shape1 nc.2 ≤ 24)%nat all
      ∧ (write_sheets all).1.*1 = all.*1
  | Some e =>
      ∃ before nc after,
        all = (before ++ nc :: after)%list
        ∧ Forall (λ nc, shape1 nc.2 ≤ 24)%nat before
        ∧ (24 < shape1 nc.2)%nat
        ∧ e = LengthMismatch (shape1 nc.2) 24
        ∧ (write_sheets all).1.*1 = before.*1
  end.
Proof.
  induction all as [|[name c] all IH]; simpl; [done|].
  rewrite set_columns_headers. case_decide as Hc; simpl.
  - destruct (write_sheets all) as [written [e|]]; simpl in *.
    + destruct IH as (before & nc & after & -> & Hbefore & Hnc & -> & Hnames).
      exists ((name, c) :: before), nc, after. split; [done|]. split; [by constructor|].
      split; [done|]. split; [done|]. csimpl in *. by f_equal.
    + destruct IH as [Hall Hnames]. split; [by constructor|]. csimpl in *. by f_equal.
  - exists [], (name, c), all. split; [done|]. split; [constructor|].
    split; [simpl; lia|]. done.
Qed.
End writer.

(** ** The name of the output *)

Section output_name.
Implicit Types l : list ascii.

Lemma rfind_from_app i c l1 l2 found :
  Path.rfind_from i c (l1 ++ l2) found
  = Path.rfind_from (i + Z.of_nat (length l1)) c l2 (Path.rfind_from i c l1 found).
Proof.
  revert i found. induction l1 as [|x l1 IH]; intros i found; simpl.
  - f_equal. lia.
  - rewrite IH. f_equal. lia.
Qed.

Lemma rfind_from_shift i c l found :
  Path.rfind_from i c l found
  = if decide (Path.rfind c l = -1) then found else i + Path.rfind c l.
Proof.
  unfold Path.rfind. revert i found. induction l as [|x l IH] using rev_ind; intros i found.
  - done.
  - rewrite !rfind_from_app. simpl. destruct (decide (x = c)) as [->|Hx].
    + rewrite decide_False by lia. lia.
    + rewrite IH, (IH 0 (-1)). clear IH. repeat case_decide; lia.
Qed.

Lemma rfind_bounds c l : -1 ≤ Path.rfind c l < Z.of_nat (length l).
Proof.
  unfold Path.rfind. induction l as [|x l IH] using rev_ind; [simpl; lia|].
  rewrite rfind_from_app, length_app. simpl. case_decide; lia.
Qed.

Lemma rfind_app c l1 l2 :
  Path.rfind c (l1 ++ l2)
  = if decide (Path.rfind c l2 = -1) then Path.rfind c l1
    else Z.of_nat (length l1) + Path.rfind c l2.
Proof. unfold Path.rfind at 1. by rewrite rfind_from_app, rfind_from_shift. Qed.

(** The extension of a file [Combined_Output.xlsx], in whatever folder. *)
Lemma splitext_Combined_Output folder :
  Path.splitext (folder +:+ "Combined_Output.xlsx")
  = (folder +:+ "Combined_Output", ".xlsx").
Proof.
  unfold Path.splitext. rewrite chars_app. set (d := Path.chars folder).
  assert (Path.rfind "/" (d ++ Path.chars "Combined_Output.xlsx") = Path.rfind "/" d) as ->.
  { rewrite rfind_app. reflexivity. }
  assert (Path.rfind "." (d ++ Path.chars "Combined_Output.xlsx")
          = Z.of_nat (length d) + 15) as ->.
  { rewrite rfind_app. reflexivity. }
  pose proof (rfind_bounds "/" d) as Hsep. rewrite decide_True by lia.
  set (sep := Path.rfind "/" d) in *.
  assert (take (Z.to_nat (Z.of_nat (length d) + 15)) (d ++ Path.chars "Combined_Output.xlsx")
          = d ++ Path.chars "Combined_Output")%list as Htake.
  { replace (Z.to_nat (Z.of_nat (length d) + 15)) with (length d + 15)%nat by lia.
    by rewrite take_app_add'. }
  assert (drop (Z.to_nat (Z.of_nat (length d) + 15)) (d ++ Path.chars "Combined_Output.xlsx")
          = Path.chars ".xlsx") as Hdrop.
  { replace (Z.to_nat (Z.of_nat (length d) + 15)) with (length d + 15)%nat by lia.
    by rewrite drop_app_add'. }
  rewrite Htake, Hdrop.
  destruct (forallb _ _) eqn:Hdots.
  - exfalso. apply Is_true_true, forallb_True in Hdots. rewrite Forall_lookup in Hdots.
    assert (bool_decide ("C"%char = "."%char)) as Hc; [|done].
    apply (Hdots (length d - Z.to_nat (sep + 1))%nat).
    rewrite lookup_take_lt by lia. rewrite lookup_drop.
    rewrite lookup_app_r by lia.
    by replace (Z.to_nat (sep + 1) + (length d - Z.to_nat (sep + 1)) - length d)%nat
      with 0%nat by lia.
  - subst d. by rewrite text_app, !text_chars.
Qed.

Lemma string_app_assoc (a b c : string) : (a +:+ b) +:+ c = a +:+ b +:+ c.
Proof. apply chars_inj. by rewrite !chars_app, app_assoc. Qed.

(** [os.path.join] on a name that does not begin with a slash puts the
    folder, made to end with a slash, before the name. *)
Lemma join_name a b :
  (∀ rest, b ≠ String "/" rest) →
  Path.join a b
  = (if bool_decide (a = "") || Path.endswith a "/" then a else a +:+ "/") +:+ b.
Proof.
  intros Hb. unfold Path.join.
  destruct b as [|c b]; [|destruct (decide (c = "/"%char)) as [->|Hc]].
  - case_match; [done|]. by rewrite string_app_assoc.
  - by destruct (Hb b).
  - assert (match c with
            | "/"%char => String c b
            | _ => if bool_decide (a = "") || Path.endswith a "/"
                   then a +:+ String c b else a +:+ "/" +:+ String c b
            end = if bool_decide (a = "") || Path.endswith a "/"
                  then a +:+ String c b else a +:+ "/" +:+ String c b) as ->.
    { destruct c as [[] [] [] [] [] [] [] []]; try done. }
    case_match; [done|]. by rewrite string_app_assoc.
Qed.
End output_name.

(** ** The file a run creates *)

Section created.
Variables (files : Files) (paths : gset string) (kestrel_path garmin_path : string).

Local Abbreviation run := (process_files files paths kestrel_path garmin_path).

(** The name [generate_unique_filename] returns, by the base and the
    extension of the name given. *)
Lemma generate_unique_filename_split filepath base extension :
  Path.splitext filepath = (base, extension) →
  ∃ r, generate_unique_filename paths filepath = Some r
       ∧ (r ∉ paths)
       ∧ (filepath ∉ paths → r = filepath)
       ∧ (filepath ∈ paths →
          ∃ k, (1 ≤ k)%nat ∧ r = candidate base extension k
               ∧ ∀ j, (1 ≤ j < k)%nat → candidate base extension j ∈ paths).
Proof.
  intros Hsplit. unfold generate_unique_filename.
  pose proof (splitext_app filepath) as Happ. rewrite Hsplit in *. simpl in Happ.
  apply (generate_unique_filename_loop_spec _ _ _ _ ∅); [set_solver| |set_solver|].
  - rewrite size_empty. lia.
  - intros j _. split; [set_solver|]. rewrite <-Happ. apply candidate_ne_plain.
Qed.

(** What a run creates it creates under the name [generate_unique_filename]
    returns; otherwise the paths are left as they were. *)
Lemma process_files_created :
  match created run with
  | Some (out, written) =>
      generate_unique_filename paths (output_name kestrel_path None) = Some out
      ∧ paths_after run = {[out]} ∪ paths
      ∧ notice run ≠ Hang
  | None => paths_after run = paths ∧ ∃ e, notice run = Error e
  end.
Proof.
  unfold process_files, output_name.
  destruct (_ ≫= _) as [all|e]; [|simpl; eauto].
  destruct (generate_unique_filename_total paths
              (Path.join (Path.dirname kestrel_path) "Combined_Output.xlsx"))
    as (out & -> & _).
  destruct (write_sheets all) as [written [e|]]; simpl; done.
Qed.

(** X15.  A run takes nothing away and overwrites nothing: it always ends,
    every path that existed still exists after it, and the file it creates,
    if any, is the one new path, at a place where nothing existed. *)
Theorem process_files_keeps_paths :
  notice (process_files files paths kestrel_path garmin_path) ≠ Hang
  ∧ paths ⊆ paths_after (process_files files paths kestrel_path garmin_path)
  ∧ match created (process_files files paths kestrel_path garmin_path) with
    | Some (out, _) =>
        (out ∉ paths)
        ∧ paths_after (process_files files paths kestrel_path garmin_path)
          = {[out]} ∪ paths
    | None => paths_after (process_files files paths kestrel_path garmin_path) = paths
    end.
Proof.
  pose proof process_files_created as H.
  destruct (created run) as [[out written]|].
  - destruct H as (Hout & -> & Hend). split; [done|]. split; [set_solver|]. split; [|done].
    destruct (generate_unique_filename_total paths (output_name kestrel_path None))
      as (r & Hr & Hnew). congruence.
  - destruct H as (-> & e & ->). done.
Qed.

Lemma output_name_candidate k :
  candidate (Path.join (Path.dirname kestrel_path) "Combined_Output") ".xlsx" k
  = output_name kestrel_path (Some k).
Proof.
  unfold candidate, output_name. rewrite !join_name by done.
  by rewrite string_app_assoc.
Qed.

Lemma splitext_output_name :
  Path.splitext (output_name kestrel_path None)
  = (Path.join (Path.dirname kestrel_path) "Combined_Output", ".xlsx").
Proof.
  unfold output_name. rewrite !join_name by done. apply splitext_Combined_Output.
Qed.

(** X16.  The file a run creates lies in the folder of the weather log.  It
    is [Combined_Output.xlsx] when that path is free, and otherwise
    [Combined_Output_k.xlsx] for the least [k ≥ 1] whose path is free. *)
Theorem process_files_output_name out written :
  created (process_files files paths kestrel_path garmin_path) = Some (out, written) →
  (out ∉ paths)
  ∧ (output_name kestrel_path None ∉ paths → out = output_name kestrel_path None)
  ∧ (output_name kestrel_path None ∈ paths →
     ∃ k, (1 ≤ k)%nat ∧ out = output_name kestrel_path (Some k)
          ∧ ∀ j, (1 ≤ j < k)%nat → output_name kestrel_path (Some j) ∈ paths).
Proof.
  intros Hc. pose proof process_files_created as H. rewrite Hc in H.
  destruct H as (Hout & _).
  destruct (generate_unique_filename_split _ _ _ splitext_output_name)
    as (r & Hr & Hnew & Hfree & Htaken).
  rewrite Hout in Hr. injection Hr as <-. split; [done|]. split; [done|].
  intros Hin. destruct (Htaken Hin) as (k & Hk & -> & Hbelow).
  exists k. split; [done|]. split; [apply output_name_candidate|].
  intros j Hj. rewrite <-output_name_candidate. by apply Hbelow.
Qed.
End created.

Lemma process_files_output_name_witness :
  ("log/Combined_Output_1.xlsx" ∉ ({["log/Combined_Output.xlsx"]} : gset string))
  ∧ (output_name "log/kestrel.csv" None ∉ ({["log/Combined_Output.xlsx"]} : gset string)
     → "log/Combined_Output_1.xlsx" = output_name "log/kestrel.csv" None)
  ∧ (output_name "log/kestrel.csv" None ∈ ({["log/Combined_Output.xlsx"]} : gset string) →
     ∃ k, (1 ≤ k)%nat ∧ "log/Combined_Output_1.xlsx" = output_name "log/kestrel.csv" (Some k)
          ∧ ∀ j, (1 ≤ j < k)%nat
                 → output_name "log/kestrel.csv" (Some j)
                   ∈ ({["log/Combined_Output.xlsx"]} : gset string)).
Proof.
  eapply (process_files_output_name sample_files {["log/Combined_Output.xlsx"]}
           "log/kestrel.csv" "log/garmin.xlsx").
  vm_compute. reflexivity.
Defined.

(** ** The counter of [generate_unique_filename] *)

Section counter.
Variables (paths : gset string) (base extension : string).

(** The candidates below [k] that exist, with the plain name, are [k] paths. *)
Lemma candidates_size k :
  base +:+ extension ∈ paths →
  (∀ j, (1 ≤ j < k)%nat → candidate base extension j ∈ paths) →
  (k ≤ size paths)%nat.
Proof.
  intros Hplain Hbelow. destruct k as [|k]; [lia|].
  assert (Inj (=) (=) (candidate base extension)) as Hinj
    by (intros i j; apply candidate_inj).
  set (tried := list_to_set (candidate base extension <$> seq 1 k) : gset string).
  assert (size ({[base +:+ extension]} ∪ tried) = S k) as <-.
  { rewrite size_union, size_singleton.
    - unfold tried. rewrite size_list_to_set, length_fmap, length_seq; [done|].
      apply (NoDup_fmap_2 _), NoDup_seq.
    - apply disjoint_singleton_l. unfold tried. rewrite elem_of_list_to_set.
      intros (j & Hj & _)%list_elem_of_fmap. by eapply candidate_ne_plain. }
  apply subseteq_size, union_subseteq. split; [set_solver|].
  intros p. unfold tried. rewrite elem_of_list_to_set.
  intros (j & -> & Hj%elem_of_seq)%list_elem_of_fmap. apply Hbelow. lia.
Qed.
End counter.

(** X17.  When the name given exists, the counter in the name returned is at
    least 1 and at most the number of paths that exist: the loop of
    [generate_unique_filename] takes no more rounds than there are paths. *)
Theorem generate_unique_filename_counter (paths : gset string) (filepath : string) :
  filepath ∈ paths →
  ∃ k, (1 ≤ k ≤ size paths)%nat
       ∧ generate_unique_filename paths filepath
         = Some (candidate (Path.splitext filepath).1 (Path.splitext filepath).2 k).
Proof.
  intros Hin. destruct (Path.splitext filepath) as [base extension] eqn:Hsplit.
  destruct (generate_unique_filename_split paths filepath base extension Hsplit)
    as (r & Hr & _ & _ & Htaken).
  destruct (Htaken Hin) as (k & Hk & -> & Hbelow). exists k. split; [|done].
  split; [done|]. apply (candidates_size paths base extension); [|done].
  pose proof (splitext_app filepath) as Happ. rewrite Hsplit in Happ. simpl in Happ. by rewrite Happ.
Qed.

Lemma generate_unique_filename_counter_witness :
  ∃ k, (1 ≤ k ≤ size ({["out/Combined_Output.xlsx"; "out/Combined_Output_1.xlsx"]}
                      : gset string))%nat
       ∧ generate_unique_filename
           {["out/Combined_Output.xlsx"; "out/Combined_Output_1.xlsx"]}
           "out/Combined_Output.xlsx"
         = Some (candidate (Path.splitext "out/Combined_Output.xlsx").1
                   (Path.splitext "out/Combined_Output.xlsx").2 k).
Proof.
  apply (generate_unique_filename_counter
           {["out/Combined_Output.xlsx"; "out/Combined_Output_1.xlsx"]}
           "out/Combined_Output.xlsx").
  set_solver.
Defined.

(** ** Every shot of a run *)

Section end_to_end.
Import Pandas.

(** [process_garmin_sheet] on a session as [read_file] hands it over, against
    a weather table or that table converted by the sessions before. *)
Lemma process_garmin_sheet_aligned name g k k' p :
  session_read g →
  weather_table p k →
  k' = k ∨ k' = converted p k →
  ∃ r, process_garmin_sheet name g k'
       = (mkDataFrame (columns g) (timed_shots g), converted p k, r)
       ∧ match r with
         | Ok c =>
             Forall2 (paired p k (columns g)) (timed_shots g) (rows c)
             ∧ columns c
               = (columns g ++ if timed_shots g is [] then columns g else columns k)%list
         | Raise e => True
         end.
Proof.
  intros Hread Hw Hk'. unfold process_garmin_sheet.
  rewrite (process_garmin_sheet_timestamps_read g Hread).
  destruct (session_read_ready g Hread) as [Hcols Hrows]. simpl in Hcols, Hrows.
  unfold apply_find_closest. simpl. fold (timed_shots g) in *.
  assert (weather_table p k' ∧ converted p k' = converted p k) as [Hw' Hconv].
  { destruct Hk' as [->| ->]; [done|]. split; [by apply weather_table_converted|].
    by apply converted_idemp. }
  destruct (timed_shots g) as [|r0 rs0] eqn:Hg.
  - rewrite (find_closest_probe p) by done. rewrite Hconv. eexists. split; [done|].
    simpl. split; [constructor|done].
  - destruct (times_cases (reading_times p k)) as [Hsome|Hnone].
    + destruct (apply_rows_paired p k k' (columns g) (r0 :: rs0) Hw Hk' Hsome Hcols Hrows)
        as (ss & -> & Hall).
      eexists. split; [done|]. simpl. split.
      * by apply (zip_with_app_paired p k (columns g) (r0 :: rs0) ss).
      * f_equal. by apply Forall2_cons_inv_l in Hall as (sr & ss' & [Hidx _] & _ & ->).
    + apply Forall_cons in Hrows as [Hr0 _].
      rewrite (apply_rows_not_found p k') by
        (try done; by destruct Hk' as [->| ->]; [|rewrite reading_times_converted]).
      rewrite Hconv. eexists. split; [done|]. done.
Qed.

(** The sheets of a workbook aligned in turn. *)
Lemma align_sheets_paired p df_dict k k' all :
  weather_table p k →
  k' = k ∨ k' = converted p k →
  Forall (λ sd, session_read sd.2) df_dict →
  (align_sheets df_dict k').2 = Ok all →
  all.*1 = df_dict.*1
  ∧ Forall2 (λ g nc,
       Forall2 (paired p k (columns g)) (timed_shots g) (rows nc.2)
       ∧ columns nc.2
         = (columns g ++ if timed_shots g is [] then columns g else columns k)%list)
      df_dict.*2 all.
Proof.
  intros Hw Hk' Hd. revert k' Hk' all.
  induction Hd as [|[name g] d Hread _ IH]; intros k' Hk' all; simpl in *.
  - intros [= <-]. split; [done|]. constructor.
  - destruct (process_garmin_sheet_aligned name g k k' p Hread Hw Hk') as (r & -> & Hr).
    destruct r as [c|e]; [|done].
    specialize (IH (converted p k) (or_intror eq_refl)).
    destruct (align_sheets d (converted p k)) as [k'' [rest|e]]; simpl in *; [|done].
    intros [= <-]. destruct (IH rest eq_refl) as [Hnames Hrest].
    split; [csimpl; by f_equal|]. by constructor.
Qed.

(** A session read from a delimited text that goes through the first lines
    of [process_garmin_sheet] has its times in the sixth column. *)
Lemma reformat_timestamp_session_read raw df g' u :
  reformat_timestamp TimeText.strptime_hms raw = Ok df →
  process_garmin_sheet_timestamps df = (g', Ok u) →
  session_read df.
Proof.
  intros (q & Hq & ->)%reformat_timestamp_Ok
         ((l & Hl & Hcols) & Hfive & _)%process_garmin_sheet_timestamps_Ok.
  rewrite Hcols, rename_one_columns in Hfive. simpl in Hfive.
  apply column_position_Ok in Hfive as [_ Honly].
  pose proof Hq as [Hat _]%column_position_Ok.
  assert (q = 5%nat) as ->.
  { apply Honly. rewrite list_lookup_fmap, Hat. simpl. by case_decide. }
  split; [done|]. simpl. apply rows_rendered.
Qed.

Lemma write_sheets_None all written :
  write_sheets all = (written, None) →
  written.*1 = all.*1
  ∧ Forall2 (λ a w, rows w.2 = rows a.2 ∧ columns w.2 = take (shape1 a.2) headers)
      all written.
Proof.
  revert written. induction all as [|[name c] all IH]; intros written; simpl.
  - intros [= <-]. split; [done|]. constructor.
  - unfold set_columns. case_decide; [|done].
    destruct (write_sheets all) as [rest e]. intros [= <- ->].
    destruct (IH rest eq_refl) as [Hnames Hrows]. split; [csimpl; by f_equal|].
    by constructor.
Qed.

(** The sessions of a run aligned. *)
Lemma align_paired files garmin_path p g k all :
  weather_table p k →
  read_file files garmin_path false = Ok g →
  align g k = Ok all →
  all.*1 = sheet_names g
  ∧ Forall2 (λ g nc,
       Forall2 (paired p k (columns g)) (timed_shots g) (rows nc.2)
       ∧ columns nc.2
         = (columns g ++ if timed_shots g is [] then columns g else columns k)%list)
      (tables g) all.
Proof.
  intros Hw Hg Hall. destruct g as [df|df_dict]; simpl in Hall |- *.
  - apply read_file_garmin_frame in Hg as (_ & _ & _ & raw' & Hraw).
    destruct (process_garmin_sheet_timestamps df) as [g' [u|e]] eqn:Hts.
    + pose proof (reformat_timestamp_session_read raw' df g' u Hraw Hts) as Hread.
      destruct (process_garmin_sheet_aligned "Sheet1" df k k p Hread Hw (or_introl eq_refl))
        as (r & Hr & Hpairs).
      rewrite Hr in Hall. simpl in Hall. destruct r as [c|e]; [|done].
      injection Hall as <-. split; [done|]. constructor; [done|constructor].
    + unfold process_garmin_sheet in Hall. by rewrite Hts in Hall.
  - apply read_file_garmin_sheets in Hg as [_ Hd].
    apply (align_sheets_paired p df_dict k k all Hw (or_introl eq_refl)); [|done].
    eapply Forall_impl; [done|]. by intros ? [? _].
Qed.

(** X18.  In a run that reports success, the workbook has one sheet for each
    session, in order and under its name, and the sheet has one row for each
    shot of the session that has a time, in order: the shot followed by the
    reading of the weather table nearest to its time. *)
Theorem process_files_every_shot files paths kestrel_path garmin_path out :
  notice (process_files files paths kestrel_path garmin_path) = Success out →
  ∃ kestrel_df p garmin_sheets written,
    read_file files kestrel_path true = Ok (Frame kestrel_df)
    ∧ column_position "Timestamp" (columns kestrel_df) = Ok p
    ∧ read_file files garmin_path false = Ok garmin_sheets
    ∧ created (process_files files paths kestrel_path garmin_path) = Some (out, written)
    ∧ written.*1 = sheet_names garmin_sheets
    ∧ Forall2 (λ g w, Forall2 (paired p kestrel_df (columns g)) (timed_shots g) (rows w.2))
        (tables garmin_sheets) written.
Proof.
  intros (k & g & all & written & Hk & Hg & Hall & _ & Hwritten & ->)%process_files_Success.
  pose proof Hk as (container & raw & k0 & [= <-] & [p Hw]%normalize_weather_table & _)
    %read_file_kestrel.
  exists k, p, g, written. split; [done|]. split; [apply Hw|]. split; [done|].
  split; [done|]. apply write_sheets_None in Hwritten as [Hnames Hrows].
  destruct (align_paired files garmin_path p g k all Hw Hg Hall) as [Hall1 Hall2].
  split; [congruence|].
  clear -Hall2 Hrows. revert written Hrows.
  induction Hall2 as [|df nc dfs all' [Hdf _] _ IH]; intros written Hrows.
  - apply Forall2_nil_inv_l in Hrows as ->. constructor.
  - apply Forall2_cons_inv_l in Hrows as (w & ws & [Hrw _] & Hws & ->).
    constructor; [by rewrite Hrw|by apply IH].
Qed.

Lemma process_files_every_shot_witness :
  ∃ kestrel_df p garmin_sheets written,
    read_file sample_files "log/kestrel.csv" true = Ok (Frame kestrel_df)
    ∧ column_position "Timestamp" (columns kestrel_df) = Ok p
    ∧ read_file sample_files "log/garmin.xlsx" false = Ok garmin_sheets
    ∧ created (process_files sample_files ∅ "log/kestrel.csv" "log/garmin.xlsx")
      = Some ("log/Combined_Output.xlsx", written)
    ∧ written.*1 = sheet_names garmin_sheets
    ∧ Forall2 (λ g w, Forall2 (paired p kestrel_df (columns g)) (timed_shots g) (rows w.2))
        (tables garmin_sheets) written.
Proof.
  apply (process_files_every_shot sample_files ∅ "log/kestrel.csv" "log/garmin.xlsx").
  vm_compute. reflexivity.
Defined.
(** X19.  In a run that reports success with a weather table of fifteen
    columns, the sheet of a session that has a shot with a time carries the
    24 headers, all of them and in order; the sheet of a session without one
    carries the first 18. *)
Theorem process_files_headers files paths kestrel_path garmin_path out kestrel_df :
  notice (process_files files paths kestrel_path garmin_path) = Success out →
  read_file files kestrel_path true = Ok (Frame kestrel_df) →
  shape1 kestrel_df = 15%nat →
  ∃ garmin_sheets written,
    read_file files garmin_path false = Ok garmin_sheets
    ∧ created (process_files files paths kestrel_path garmin_path) = Some (out, written)
    ∧ Forall2 (λ g w, columns w.2 = if timed_shots g is [] then take 18 headers else headers)
        (tables garmin_sheets) written.
Proof.
  intros (k & g & all & written & Hk & Hg & Hall & _ & Hwritten & ->)%process_files_Success
         Hk' Hwidth.
  rewrite Hk in Hk'. injection Hk' as ->.
  pose proof Hk as (container & raw & k0 & [= <-] & [p Hw]%normalize_weather_table & _)
    %read_file_kestrel.
  exists g, written. split; [done|]. split; [done|].
  apply write_sheets_None in Hwritten as [_ Hrows].
  destruct (align_paired files garmin_path p g kestrel_df all Hw Hg Hall) as [_ Hall2].
  assert (Forall (λ df, shape1 df = 9%nat) (tables g)) as Hnine.
  { destruct g as [df|df_dict]; simpl.
    - apply read_file_garmin_frame in Hg as (_ & _ & ? & _). by repeat constructor.
    - apply read_file_garmin_sheets in Hg as [_ Hd]. apply Forall_fmap.
      eapply Forall_impl; [done|]. by intros ? [_ ?]. }
  clear -Hall2 Hrows Hnine Hwidth. revert written Hrows.
  induction Hall2 as [|df nc dfs all' [_ Hcols] _ IH]; intros written Hrows.
  - apply Forall2_nil_inv_l in Hrows as ->. constructor.
  - apply Forall2_cons_inv_l in Hrows as (w & ws & [_ Hw] & Hws & ->).
    apply Forall_cons in Hnine as [Hdf Hnine].
    constructor; [|by apply IH]. rewrite Hw. unfold shape1 in *.
    rewrite Hcols, length_app, Hdf. destruct (timed_shots df); [by rewrite Hdf|].
    by rewrite Hwidth.
Qed.

Lemma process_files_headers_witness :
  ∃ garmin_sheets written,
    read_file sample_files "log/garmin.xlsx" false = Ok garmin_sheets
    ∧ created (process_files sample_files ∅ "log/kestrel.csv" "log/garmin.xlsx")
      = Some ("log/Combined_Output.xlsx", written)
    ∧ Forall2 (λ g w, columns w.2 = if timed_shots g is [] then take 18 headers else headers)
        (tables garmin_sheets) written.
Proof.
  apply (process_files_headers sample_files ∅ "log/kestrel.csv" "log/garmin.xlsx"
           "log/Combined_Output.xlsx" weather_two).
  - vm_compute. reflexivity.
  - vm_compute. reflexivity.
  - reflexivity.
Defined.
End end_to_end.

(** ** When a run succeeds *)

Section outcome.
Import Pandas.
Variables (files : Files) (paths : gset string) (kestrel_path garmin_path : string).

(** The weather table of a run, with the place of its times. *)
Lemma read_file_weather_table k p :
  read_file files kestrel_path true = Ok (Frame k) →
  column_position "Timestamp" (columns k) = Ok p →
  weather_table p k.
Proof.
  intros (container & raw & k0 & [= <-] & [p' Hw]%normalize_weather_table & _)
    %read_file_kestrel Hp.
  destruct Hw as [Hp' Hrows]. rewrite Hp in Hp'. injection Hp' as <-. by split.
Qed.

(** The sessions of a run aligned: a weather table without a time fails the
    first session that has a shot with a time, and no other alignment
    fails. *)
Lemma align_outcome_cases p g k :
  weather_table p k →
  read_file files garmin_path false = Ok g →
  Forall session_read (tables g) →
  match align g k with
  | Ok all =>
      Forall (λ nc, shape1 nc.2 ≤ 9 + max 9 (shape1 k))%nat all
      ∧ (Exists is_Some (reading_times p k) ∨ ¬ has_shot g)
  | Raise e =>
      e = EmptyArgmin ∧ has_shot g ∧ Forall (λ x, x = None) (reading_times p k)
  end.
Proof.
  intros Hw Hg Hread. destruct g as [df|df_dict]; unfold align.
  - apply Forall_cons in Hread as [Hdf _].
    apply read_file_garmin_frame in Hg as (_ & _ & Hshape & _).
    pose proof (process_garmin_sheet_timestamps_read df Hdf) as Hts.
    destruct (process_garmin_sheet_outcome "Sheet1" df _ _ k p Hts
                (session_read_ready df Hdf) Hw) as (r & -> & Hr).
    simpl in *. unfold has_shot. simpl. destruct r as [c|e]; simpl.
    + destruct Hr as (Hc & _ & Hcase). split.
      * apply Forall_cons_2; [|apply Forall_nil_2]. simpl. rewrite Hc, Hshape.
        case_match; lia.
      * destruct Hcase as [Hnil|?]; [right|by left].
        apply filter_nil_not_Exists in Hnil. by intros [?|?%Exists_nil]%Exists_cons.
    + destruct Hr as (-> & Hrows & Hnone). split; [done|]. split; [|done].
      apply Exists_cons_hd.
      destruct (decide (Exists (λ r, isna (cell_at 5 r) = false) (rows df))) as [|Hno];
        [done|]. by rewrite <-filter_nil_not_Exists in Hno.
  - apply read_file_garmin_sheets in Hg as [_ Hd].
    pose proof (align_sheets_outcome p df_dict k Hw Hd) as Hout.
    destruct (align_sheets df_dict k).2 as [all|e]; [|done].
    by destruct Hout as (_ & ? & ?).
Qed.

(** X20.  A run reports success whenever both logs are read, the weather
    table has at most fifteen columns and a reading with a time, and the
    times of every session are in its sixth column. *)
Theorem process_files_succeeds kestrel_df p garmin_sheets :
  read_file files kestrel_path true = Ok (Frame kestrel_df) →
  (shape1 kestrel_df ≤ 15)%nat →
  column_position "Timestamp" (columns kestrel_df) = Ok p →
  Exists is_Some (reading_times p kestrel_df) →
  read_file files garmin_path false = Ok garmin_sheets →
  Forall session_read (tables garmin_sheets) →
  ∃ out, notice (process_files files paths kestrel_path garmin_path) = Success out.
Proof.
  intros Hk Hwidth Hp Hsome Hg Hread.
  pose proof (read_file_weather_table kestrel_df p Hk Hp) as Hw.
  pose proof (align_outcome_cases p garmin_sheets kestrel_df Hw Hg Hread) as Hall.
  unfold process_files. rewrite Hk, Hg. simpl.
  destruct (align garmin_sheets kestrel_df) as [all|e].
  - destruct Hall as [Hwidths _].
    destruct (write_sheets_all all) as (written & -> & _).
    { eapply Forall_impl; [done|]. intros nc Hnc. simpl in Hnc. lia. }
    destruct (generate_unique_filename_total paths
                (Path.join (Path.dirname kestrel_path) "Combined_Output.xlsx"))
      as (out & -> & _).
    by exists out.
  - destruct Hall as (_ & _ & Hnone). by destruct (times_not_both _ Hsome Hnone).
Qed.

(** X21.  A weather table none of whose readings has a time, be it for want
    of rows or because no time of the log could be read, ends the run as
    soon as a session has a shot with a time: the run reports the exception
    of the lookup and creates no file. *)
Theorem process_files_no_reading_time kestrel_df p garmin_sheets :
  read_file files kestrel_path true = Ok (Frame kestrel_df) →
  column_position "Timestamp" (columns kestrel_df) = Ok p →
  Forall (λ x, x = None) (reading_times p kestrel_df) →
  read_file files garmin_path false = Ok garmin_sheets →
  Forall session_read (tables garmin_sheets) →
  has_shot garmin_sheets →
  process_files files paths kestrel_path garmin_path = mkRun None paths (Error EmptyArgmin).
Proof.
  intros Hk Hp Hnone Hg Hread Hshot.
  pose proof (read_file_weather_table kestrel_df p Hk Hp) as Hw.
  pose proof (align_outcome_cases p garmin_sheets kestrel_df Hw Hg Hread) as Hall.
  unfold process_files. rewrite Hk, Hg. simpl.
  destruct (align garmin_sheets kestrel_df) as [all|e].
  - destruct Hall as (_ & [Hsome|?]); [|done]. by destruct (times_not_both _ Hsome Hnone).
  - by destruct Hall as (-> & _).
Qed.
End outcome.

Lemma process_files_succeeds_witness :
  ∃ out, notice (process_files sample_files ∅ "log/kestrel.csv" "log/garmin.xlsx")
         = Success out.
Proof.
  apply (process_files_succeeds sample_files ∅ "log/kestrel.csv" "log/garmin.xlsx"
           weather_two 0 (Sheets [("Session 1", session_three)])).
  - vm_compute. reflexivity.
  - unfold shape1. simpl. lia.
  - reflexivity.
  - apply Exists_cons_hd. by exists 36000.
  - vm_compute. reflexivity.
  - apply Forall_cons_2; [exact session_three_read|apply Forall_nil_2].
Defined.

Lemma process_files_no_reading_time_witness :
  process_files sample_files_unread ∅ "log/kestrel.csv" "log/garmin.xlsx"
  = mkRun None ∅ (Error EmptyArgmin).
Proof.
  apply (process_files_no_reading_time sample_files_unread ∅ "log/kestrel.csv"
           "log/garmin.xlsx" weather_unparsed 0 (Sheets [("Session 1", session_three)])).
  - vm_compute. reflexivity.
  - reflexivity.
  - apply Forall_cons_2; [reflexivity|apply Forall_nil_2].
  - vm_compute. reflexivity.
  - apply Forall_cons_2; [exact session_three_read|apply Forall_nil_2].
  - apply Exists_cons_hd, Exists_cons_hd. reflexivity.
Defined.

(** ** The window *)

Section window.
Import Pandas.

(** A call that does not raise the [ValueError] of [read_file]. *)
Local Abbreviation own m := (m ≠ Raise UnsupportedFormat).

Lemma own_bind {A B} (m : result A) (f : A → result B) :
  own m → (∀ a, own (f a)) → own (m ≫= f).
Proof.
  intros Hm Hf. destruct m as [a|e]; simpl; [apply Hf|]. intros [= ->]. by apply Hm.
Qed.

Lemma own_fmap {A B} (m : result A) (f : A → B) : own m → own (f <$> m).
Proof. intros Hm. destruct m as [a|e]; simpl; [done|]. intros [= ->]. by apply Hm. Qed.

Lemma own_Raise_inv {A} (m : result A) e : own m → m = Raise e → e ≠ UnsupportedFormat.
Proof. by intros Hm -> ->. Qed.

Lemma own_traverse {A B} (f : A → result B) (l : list A) :
  (∀ x, own (f x)) → own (traverse f l).
Proof.
  intros Hf. induction l as [|x l IH]; [done|]. simpl.
  apply own_bind; [done|]. intros y. by apply own_bind.
Qed.

Lemma own_column_position l cols : own (column_position l cols).
Proof. unfold column_position. by repeat case_match. Qed.

Lemma own_to_datetime parse c : own (to_datetime parse c).
Proof. unfold to_datetime. by repeat case_match. Qed.

Lemma own_reformat_timestamp parse df : own (reformat_timestamp parse df).
Proof. apply own_bind; [apply own_column_position|done]. Qed.

Lemma own_select labels df : own (select labels df).
Proof.
  apply own_bind; [|done]. apply own_traverse. intros l. by case_match.
Qed.

Lemma own_column_label i df : own (column_label i df).
Proof. unfold column_label. by case_match. Qed.

Lemma own_usecols n df : own (usecols n df).
Proof. unfold usecols. by case_decide. Qed.

Lemma own_for_sheets f sheets : (∀ df, own (f df)) → own (for_sheets f sheets).
Proof. intros Hf. apply own_traverse. intros sd. by apply own_bind. Qed.

Lemma own_read_file_garmin_sheet df : own (read_file_garmin_sheet df).
Proof.
  apply own_bind; [apply own_column_label|]. intros l. apply own_reformat_timestamp.
Qed.

(** [read_file] raises its [ValueError] only for a path it has no reader
    for. *)
Lemma own_read_file files file_path is_kestrel :
  readers_own files → supported file_path = true →
  own (read_file files file_path is_kestrel).
Proof.
  intros [Hbook Htext] Hpath. unfold read_file, supported in *.
  destruct (Path.endswith file_path ".xlsx"); [|destruct (Path.endswith file_path ".csv")];
    [| |done]; destruct is_kestrel.
  - apply own_bind; [done|]. intros sheets. apply own_bind; [by destruct sheets as [|[]]|].
    intros df. apply own_bind; [apply own_usecols|]. intros df'. apply own_fmap.
    unfold read_file_kestrel_xlsx. repeat (apply own_bind; [apply own_column_label|]; intros ?).
    apply own_bind; [apply own_select|]. intros ?. apply own_reformat_timestamp.
  - apply own_bind; [done|]. intros sheets. apply own_bind; [by destruct sheets|].
    intros sheets'. apply own_bind; [apply own_for_sheets, own_usecols|]. intros d.
    apply own_bind; [apply own_for_sheets, own_read_file_garmin_sheet|]. done.
  - apply own_bind; [done|]. intros df. apply own_fmap. unfold read_file_kestrel_csv.
    apply own_bind; [unfold set_columns; by case_decide|]. intros ?.
    apply own_bind; [apply own_reformat_timestamp|]. intros ?. apply own_select.
  - apply own_bind; [done|]. intros df. apply own_bind; [apply own_usecols|]. intros ?.
    apply own_fmap, own_reformat_timestamp.
Qed.

Lemma own_find_closest row df : own (find_closest row df).2.
Proof.
  unfold find_closest.
  destruct (series_get "Timestamp" row ≫= to_datetime TimeText.strptime_hms)
    as [row_time|e] eqn:Hrow.
  - match goal with
    | |- context [match ?m with Ok _ => _ | Raise _ => _ end] =>
        destruct m as [[p rs]|e] eqn:Hdf
    end; simpl.
    + apply own_bind; [unfold idxmin; by repeat case_match|]. intros i.
      unfold loc. by case_match.
    + assert (e ≠ UnsupportedFormat); [|congruence].
      eapply own_Raise_inv; [|exact Hdf].
      apply own_bind; [apply own_column_position|]. intros p.
      apply own_bind; [|done]. apply own_traverse. intros r.
      apply own_bind; [apply own_to_datetime|done].
  - simpl. assert (e ≠ UnsupportedFormat); [|congruence].
    eapply own_Raise_inv; [|exact Hrow].
    apply own_bind; [|intros; apply own_to_datetime].
    apply own_bind; [apply own_column_position|done].
Qed.

Lemma own_apply_rows cols rs k : own (apply_rows cols rs k).2.
Proof.
  revert k. induction rs as [|r rs IH]; intros k; simpl; [done|].
  pose proof (own_find_closest (mkSeries cols r) k) as Hfc.
  destruct (find_closest (mkSeries cols r) k) as [k' [s|e]]; simpl in *;
    [|intros [= ->]; congruence].
  specialize (IH k'). destruct (apply_rows cols rs k') as [k'' ss]. simpl in *.
  by apply own_fmap.
Qed.

Lemma own_apply_find_closest g k : own (apply_find_closest g k).2.
Proof.
  unfold apply_find_closest. destruct (rows g) as [|r rs]; [done|].
  pose proof (own_apply_rows (columns g) (r :: rs) k) as Hrows.
  destruct (apply_rows (columns g) (r :: rs) k) as [k' ss]. simpl in *.
  by apply own_bind.
Qed.

Lemma own_process_garmin_sheet name g k : own (process_garmin_sheet name g k).2.
Proof.
  unfold process_garmin_sheet.
  destruct (process_garmin_sheet_timestamps g) as [g' [u|e]] eqn:Hts; simpl.
  - pose proof (own_apply_find_closest g' k) as Hrows.
    destruct (apply_find_closest g' k) as [k' closest_rows]. simpl in *.
    by apply own_bind.
  - unfold process_garmin_sheet_timestamps in Hts.
    pose proof (own_column_label 5 g) as Hl.
    destruct (column_label 5 g) as [l|];
      [|solve [intros [= ->]; simplify_eq; try congruence]].
    pose proof (own_column_position "Timestamp" (columns (rename [(l, "Timestamp")] g))).
    destruct (column_position _ _); [done|].
    solve [intros [= ->]; simplify_eq; try congruence].
Qed.

Lemma own_align g k : own (align g k).
Proof.
  destruct g as [df|df_dict]; simpl.
  - apply own_bind; [apply own_process_garmin_sheet|done].
  - revert k. induction df_dict as [|[name df] d IH]; intros k; simpl; [done|].
    pose proof (own_process_garmin_sheet name df k) as Hp.
    destruct (process_garmin_sheet name df k) as [[g' k'] [c|e]]; simpl in *;
      [|intros [= ->]; congruence].
    specialize (IH k'). destruct (align_sheets d k') as [k'' all]. simpl in *.
    by apply own_fmap.
Qed.

Lemma own_write_sheets all : (write_sheets all).2 ≠ Some UnsupportedFormat.
Proof.
  induction all as [|[name c] all IH]; simpl; [done|].
  unfold set_columns. case_decide; [|done]. by destruct (write_sheets all).
Qed.

Lemma endswith_any_supported p : endswith_any p [".xlsx"; ".csv"] = supported p.
Proof. unfold endswith_any, supported. simpl. by rewrite orb_false_r. Qed.

(** X22.  The check of [combine_files] is the one of [read_file]: a run that
    [combine_files] starts never reports the [ValueError] by which
    [read_file] turns down a path that ends neither in [.xlsx] nor in
    [.csv]. *)
Theorem combine_files_supported files paths gui run :
  readers_own files →
  combine_files files paths gui = Processed run →
  notice run ≠ Error UnsupportedFormat.
Proof.
  intros Hown. unfold combine_files. case_match; [done|].
  rewrite !endswith_any_supported.
  destruct (supported (kestrel_entry gui)) eqn:Hk; [|done].
  destruct (supported (garmin_entry gui)) eqn:Hg; [|done]. simpl. intros [= <-].
  pose proof (own_read_file files (kestrel_entry gui) true Hown Hk) as Hrk.
  pose proof (own_read_file files (garmin_entry gui) false Hown Hg) as Hrg.
  unfold process_files.
  destruct (read_file files (kestrel_entry gui) true) as [[k|]|e]; simpl;
    [|done|by intros [= ->]].
  destruct (read_file files (garmin_entry gui) false) as [g|e]; simpl; [|by intros [= ->]].
  pose proof (own_align g k) as Ha. destruct (align g k) as [all|e]; [|by intros [= ->]].
  destruct (generate_unique_filename _ _); [|done].
  pose proof (own_write_sheets all) as Hw.
  destruct (write_sheets all) as [written [e|]]; simpl in *; [by intros [= ->]|done].
Qed.

Lemma sample_files_own : readers_own sample_files.
Proof. split; intros path skiprows; simpl; by repeat case_decide. Defined.

Lemma combine_files_supported_witness :
  notice (process_files sample_files ∅ "log/kestrel.csv" "log/garmin.xlsx")
  ≠ Error UnsupportedFormat.
Proof.
  apply (combine_files_supported sample_files ∅
           (mkEntries "log/kestrel.csv" "log/garmin.xlsx")).
  - exact sample_files_own.
  - reflexivity.
Defined.

Lemma browse_entries gui b :
  (kestrel_entry gui ≠ "" → kestrel_entry (browse gui b) ≠ "")
  ∧ (garmin_entry gui ≠ "" → garmin_entry (browse gui b) ≠ "").
Proof.
  destruct b as [[path|e]|[path|e]]; simpl;
    unfold select_kestrel_file, select_garmin_file; try done; by case_decide.
Qed.

(** X23.  A dialog that is dismissed, or that fails, clears nothing: once
    both entries hold a path, whatever buttons are pressed and however the
    dialogs are answered, [combine_files] does not ask again for the two
    files. *)
Theorem combine_files_after_browsing files paths gui bs :
  kestrel_entry gui ≠ "" →
  garmin_entry gui ≠ "" →
  combine_files files paths (foldl browse gui bs) ≠ Warning "Please select both files".
Proof.
  intros Hk Hg.
  assert (kestrel_entry (foldl browse gui bs) ≠ ""
          ∧ garmin_entry (foldl browse gui bs) ≠ "") as [Hk' Hg'].
  { revert gui Hk Hg. induction bs as [|b bs IH]; intros gui Hk Hg; [done|]. simpl.
    destruct (browse_entries gui b). apply IH; auto. }
  unfold combine_files. rewrite !bool_decide_eq_false_2 by done. simpl.
  by case_match.
Qed.

Lemma combine_files_after_browsing_witness :
  combine_files sample_files ∅
    (foldl browse (mkEntries "log/kestrel.csv" "log/garmin.xlsx")
       [BrowseKestrel (Ok ""); BrowseGarmin (Raise (ReadError "dialog"));
        BrowseGarmin (Ok "log/garmin.csv")])
  ≠ Warning "Please select both files".
Proof.
  apply (combine_files_after_browsing sample_files ∅
           (mkEntries "log/kestrel.csv" "log/garmin.xlsx")); discriminate.
Defined.
End window.
